(** * paser: shallow embedding of parser.go (APK metadata extraction)

    The Go package [paser] opens an Android application bundle, scans the
    entries of the archive, reads identity and version out of the decoded
    manifest, asks an external certificate tool for the signing digests and
    resolves the label and the icon.  This development embeds
    [NewAppParser] and its helpers as executable functions over an explicit
    environment (the file system, the archive reader, the certificate tool
    and the resource package are records of outcomes) together with a log of
    the external calls that a run performs. *)

From Stdlib Require Import ZArith List Bool Ascii String Lia.
From Stdlib Require Import Permutation.
From Stdlib Require DecimalString DecimalPos.
Import ListNotations.

Open Scope string_scope.
Open Scope Z_scope.

(** ** Go values: errors and results *)

(** The errors that flow through parser.go.  [errorString] is what
    [errors.New] builds; the others come from the libraries the code calls. *)
Inductive error : Type :=
| errorString (msg : string)          (* errors.New(msg) *)
| PathError (op path : string)        (* os: open/stat failure *)
| ZipError (msg : string)             (* archive/zip *)
| ExecError (msg : string)            (* os/exec: tool not found, exit status *)
| DecodeError (msg : string)          (* binary XML, encoding/xml, resources *)
| ErrSyntax                           (* strconv.ErrSyntax *)
| ErrRange.                           (* strconv.ErrRange *)

(** A call whose error the caller tests: [v, err := f(); if err != nil]. *)
Inductive result (A : Type) : Type :=
| Ok (a : A)
| Err (e : error).
Arguments Ok {A} a.
Arguments Err {A} e.

(** A call whose error the caller drops: [v, _ := f()].  Go hands back both
    components, so the value is kept next to the optional error. *)
Definition lossy (A : Type) : Type := (A * option error)%type.

(** ** The functions of package strings that the code uses *)

Module strings.

Definition HasPrefix (s pre : string) : bool := String.prefix pre s.

(** [len(s) >= len(suffix) && s[len(s)-len(suffix):] == suffix] *)
Definition HasSuffix (s suffix : string) : bool :=
  (String.length suffix <=? String.length s)%nat
  && String.eqb
       (String.substring (String.length s - String.length suffix)
                         (String.length suffix) s)
       suffix.

(** Position of the first occurrence of [sub] in [s]. *)
Fixpoint Index (s sub : string) : option nat :=
  if String.prefix sub s then Some O
  else match s with
       | EmptyString => None
       | String _ s' => option_map S (Index s' sub)
       end.

Definition Contains (s sub : string) : bool :=
  match Index s sub with Some _ => true | None => false end.

(** [s[i:]] *)
Definition from (i : nat) (s : string) : string :=
  String.substring i (String.length s - i) s.

(** [before, after, found := strings.Cut(s, sep)] *)
Definition Cut (s sep : string) : string * string * bool :=
  match Index s sep with
  | Some i => (String.substring 0 i s, from (i + String.length sep) s, true)
  | None => (s, "", false)
  end.

(** The loop of [genSplit] for a non-empty separator: cut at the first
    occurrence, continue on the rest.  [fuel] bounds the number of cuts;
    the length of the input is always enough. *)
Fixpoint splitLoop (fuel : nat) (s sep : string) : list string :=
  match fuel with
  | O => [s]
  | S fuel' =>
      match Index s sep with
      | None => [s]
      | Some i =>
          String.substring 0 i s
            :: splitLoop fuel' (from (i + String.length sep) s) sep
      end
  end.

Definition Split (s sep : string) : list string :=
  splitLoop (String.length s) s sep.

(** [strings.Replace(s, old, new, -1)] for a non-empty [old]: the
    occurrences are replaced from left to right without overlap. *)
Fixpoint replaceLoop (fuel : nat) (s old new : string) : string :=
  match fuel with
  | O => s
  | S fuel' =>
      match Index s old with
      | None => s
      | Some i =>
          String.substring 0 i s ++ new
            ++ replaceLoop fuel' (from (i + String.length old) s) old new
      end
  end.

Definition ReplaceAll (s old new : string) : string :=
  replaceLoop (String.length s) s old new.

Definition isUpper (c : ascii) : bool :=
  ((65 <=? nat_of_ascii c) && (nat_of_ascii c <=? 90))%nat.

Definition lowerByte (c : ascii) : ascii :=
  if isUpper c then ascii_of_nat (nat_of_ascii c + 32) else c.

(** [strings.ToLower] on ASCII text, which is what the certificate tool
    prints: 'A'..'Z' move to 'a'..'z', every other byte stays.  On a text
    with a byte of 128 or above Go decodes runes and maps each with
    unicode.ToLower; that path is not modelled, and the statements about an
    arbitrary output of the tool are made for ASCII outputs only. *)
Fixpoint ToLower (s : string) : string :=
  match s with
  | EmptyString => EmptyString
  | String c s' => String (lowerByte c) (ToLower s')
  end.

End strings.

(** ** filepath.Ext (Unix) *)

Module filepath.

(** [for i := len(path)-1; i >= 0 && path[i] != '/'; i-- {
       if path[i] == '.' { return path[i:] } }
     return ""].
    [back] holds the bytes [path[i], path[i-1], ..., path[0]] and [n] is
    [i+1]. *)
Fixpoint extLoop (back : list ascii) (n : nat) (path : string) : string :=
  match back with
  | [] => ""
  | c :: back' =>
      if Ascii.eqb c "/" then ""
      else if Ascii.eqb c "." then strings.from (n - 1) path
      else extLoop back' (n - 1) path
  end.

Definition Ext (path : string) : string :=
  extLoop (rev (list_ascii_of_string path)) (String.length path) path.

End filepath.

(** ** strconv.Atoi (64-bit int) *)

(** [Atoi] as the Go library implements it: a fast path for strings of 1 to
    18 bytes and [ParseInt(s, 10, 0)] for the others.  Integers are [Z], with
    the wrap-around of [uint64] and [int64] written out. *)

Module strconv.

Definition intSize : Z := 64.
Definition maxUint64 : Z := 2 ^ 64 - 1.

Definition byteVal (c : ascii) : Z := Z.of_N (N_of_ascii c).

(** The loop of [ParseUint(s, 10, 0)] over the bytes of [s]:
      [default: return 0, syntaxError(...)] for a byte that is no digit of
      the base,
      [if n >= cutoff { return maxVal, rangeError(...) }] with
      [cutoff = maxUint64/10 + 1],
      [n *= 10; n1 := n + uint64(d)],
      [if n1 < n || n1 > maxVal { return maxVal, rangeError(...) }].
    An overflow leaves the loop at once, before the bytes after it are
    read. *)
Fixpoint parseUintLoop (s : string) (n : Z) : lossy Z :=
  match s with
  | EmptyString => (n, None)
  | String c rest =>
      let b := byteVal c in
      if (48 <=? b) && (b <=? 57) then
        let d := b - 48 in
        if maxUint64 / 10 + 1 <=? n then (maxUint64, Some ErrRange)
        else
          let n10 := n * 10 in
          let n1 := (n10 + d) mod 2 ^ 64 in
          if (n1 <? n10) || (maxUint64 <? n1) then (maxUint64, Some ErrRange)
          else parseUintLoop rest n1
      else (0, Some ErrSyntax)
  end.

Definition ParseUint (s : string) : lossy Z :=
  match s with
  | EmptyString => (0, Some ErrSyntax)
  | _ => parseUintLoop s 0
  end.

(** [int64(un)] *)
Definition toInt64 (un : Z) : Z := (un + 2 ^ 63) mod 2 ^ 64 - 2 ^ 63.

Definition isSign (c : ascii) : bool := Ascii.eqb c "+" || Ascii.eqb c "-".

(** [ParseInt(s, 10, 0)]: the sign is taken off, [ParseUint] converts the
    rest, a syntax error gives 0, and a value outside [int] gives the nearest
    bound with a range error. *)
Definition ParseInt (s : string) : lossy Z :=
  match s with
  | EmptyString => (0, Some ErrSyntax)
  | String c rest =>
      let neg := Ascii.eqb c "-" in
      let body := if isSign c then rest else s in
      let '(un, err) := ParseUint body in
      match err with
      | Some ErrRange | None =>
          let cutoff := 2 ^ (intSize - 1) in
          if negb neg && (cutoff <=? un) then (cutoff - 1, Some ErrRange)
          else if neg && (cutoff <? un) then (- cutoff, Some ErrRange)
          else
            let n := toInt64 un in
            ((if neg then toInt64 (- n) else n), None)
      | Some e => (0, Some e)
      end
  end.

(** The loop of the fast path of [Atoi]:
      [ch -= '0'; if ch > 9 { return 0, syntaxError(...) }; n = n*10 + int(ch)]
    with [ch] a byte. *)
Fixpoint fastLoop (s : string) (n : Z) : lossy Z :=
  match s with
  | EmptyString => (n, None)
  | String c rest =>
      let ch := (byteVal c - 48) mod 256 in
      if 9 <? ch then (0, Some ErrSyntax)
      else fastLoop rest (n * 10 + ch)
  end.

(** [Atoi(s)]; the fast path is taken when [0 < len(s) && len(s) < 19]. *)
Definition Atoi (s : string) : lossy Z :=
  let sLen := String.length s in
  if ((0 <? sLen) && (sLen <? 19))%nat then
    match s with
    | EmptyString => (0, Some ErrSyntax)
    | String c rest =>
        let body := if isSign c then rest else s in
        match body with
        | EmptyString => (0, Some ErrSyntax)
        | _ =>
            match fastLoop body 0 with
            | (n, None) => ((if Ascii.eqb c "-" then - n else n), None)
            | bad => bad
            end
        end
    end
  else ParseInt s.

End strconv.

(** ** The data of parser.go *)

(** [image.Image]: a decoded picture, opaque to the parser. *)
Inductive Image : Type := decodedImage (pixels : string).

Record AppInfo : Type := mkAppInfo {
  Name : string;
  BundleId : string;
  Version : string;
  Build : Z;
  Icon : option Image;
  Size : Z;
  SignatureMd5 : string;
  SignatureSha1 : string;
  SignatureSha256 : string;
  Md5 : string;
  UsesPermission : list string;
  SupportOS64 : bool;
  SupportOS32 : bool
}.

(** [new(AppInfo)] *)
Definition newAppInfo : AppInfo :=
  mkAppInfo "" "" "" 0 None 0 "" "" "" "" [] false false.

(** Field assignments [info.F = v]. *)
Definition set_Name v '(mkAppInfo _ b c d e f g h i j k l m) := mkAppInfo v b c d e f g h i j k l m.
Definition set_BundleId v '(mkAppInfo a _ c d e f g h i j k l m) := mkAppInfo a v c d e f g h i j k l m.
Definition set_Version v '(mkAppInfo a b _ d e f g h i j k l m) := mkAppInfo a b v d e f g h i j k l m.
Definition set_Build v '(mkAppInfo a b c _ e f g h i j k l m) := mkAppInfo a b c v e f g h i j k l m.
Definition set_Icon v '(mkAppInfo a b c d _ f g h i j k l m) := mkAppInfo a b c d v f g h i j k l m.
Definition set_Size v '(mkAppInfo a b c d e _ g h i j k l m) := mkAppInfo a b c d e v g h i j k l m.
Definition set_SignatureMd5 v '(mkAppInfo a b c d e f _ h i j k l m) := mkAppInfo a b c d e f v h i j k l m.
Definition set_SignatureSha1 v '(mkAppInfo a b c d e f g _ i j k l m) := mkAppInfo a b c d e f g v i j k l m.
Definition set_SignatureSha256 v '(mkAppInfo a b c d e f g h _ j k l m) := mkAppInfo a b c d e f g h v j k l m.
Definition set_Md5 v '(mkAppInfo a b c d e f g h i _ k l m) := mkAppInfo a b c d e f g h i v k l m.
Definition set_UsesPermission v '(mkAppInfo a b c d e f g h i j _ l m) := mkAppInfo a b c d e f g h i j v l m.
Definition set_SupportOS64 v '(mkAppInfo a b c d e f g h i j k _ m) := mkAppInfo a b c d e f g h i j k v m.
Definition set_SupportOS32 v '(mkAppInfo a b c d e f g h i j k l _) := mkAppInfo a b c d e f g h i j k l v.

(** The two element structs inside [androidManifest]. *)
Record usesPermissionElem : Type := mkUsesPermission {
  up_Text : string;             (* xml:",chardata" *)
  up_Name : string              (* xml:"name,attr" *)
}.

Record permissionElem : Type := mkPermission {
  pm_Text : string;
  pm_Name : string;
  pm_ProtectionLevel : string
}.

(** [androidManifest]: what encoding/xml fills from the root element.  An
    attribute that the document does not carry leaves its field at "". *)
Record androidManifest : Type := mkManifest {
  Package : string;                               (* xml:"package,attr" *)
  VersionName : string;                           (* xml:"versionName,attr" *)
  VersionCode : string;                           (* xml:"versionCode,attr" *)
  m_UsesPermission : list usesPermissionElem;     (* xml:"uses-permission" *)
  m_Permission : list permissionElem              (* xml:"permission" *)
}.

(** ** The environment of a run *)

(** [io.ReadCloser] of an archive entry: what [io.ReadAll] gives. *)
Record ReadCloser : Type := mkReadCloser { ReadAll : result string }.

(** [*zip.File]: the entry name and the outcome of [Open]. *)
Record zipFile : Type := mkZipFile {
  zf_Name : string;
  zf_Open : result ReadCloser
}.

(** [fs.FileInfo] *)
Record FileInfo : Type := mkFileInfo { fi_Name : string; fi_Size : Z }.

(** [*os.File]: the outcomes of the three things the parser does with the
    handle.  [zipNewReader size] is [zip.NewReader(file, size)] and gives the
    entries [reader.File]; [md5Copy] is [io.Copy(md5.New(), file)] followed
    by the hexadecimal rendering of the sum. *)
Record osFile : Type := mkOsFile {
  Stat : result FileInfo;
  zipNewReader : Z -> result (list zipFile);
  md5Copy : result string
}.

(** [ResTableConfig], of which the parser sets one field. *)
Record ResTableConfig : Type := mkResTableConfig { Density : Z }.

(** The package handle that [openFile] returns, with its two lookups.  The
    file that defines them is not part of parser.go: they are taken as they
    are called, each handing back a value and an error. *)
Record apkPackage : Type := mkApkPackage {
  icon : ResTableConfig -> lossy (option Image);
  label : option ResTableConfig -> lossy string
}.

Record World : Type := mkWorld {
  os_Open : string -> result osFile;
  NewXMLFile : string -> result string;           (* binary XML to XML text *)
  xml_Decode : string -> result androidManifest;  (* encoding/xml *)
  exec_Run : string -> list string -> result string; (* Cmd.Run, stdout *)
  openFile : string -> result apkPackage
}.

(** ** Runs: a log of external calls and an error that aborts *)

Inductive Event : Type :=
| EvOsOpen (name : string)
| EvFileStat
| EvFileClose
| EvZipNewReader (size : Z)
| EvEntryOpen (entry : string)
| EvReadAll
| EvEntryClose
| EvNewXMLFile
| EvXmlDecode
| EvMd5Copy
| EvExecRun (path : string) (args : list string)
| EvOpenFile (name : string)
| EvIcon (density : Z)
| EvLabel
| EvPkgClose.

Definition Trace : Type := list Event.

(** A computation appends to the log and either returns or fails. *)
Definition M (A : Type) : Type := Trace -> Trace * result A.

Definition ret {A} (a : A) : M A := fun tr => (tr, Ok a).

Definition fail {A} (e : error) : M A := fun tr => (tr, Err e).

Definition bind {A B} (m : M A) (k : A -> M B) : M B :=
  fun tr =>
    match m tr with
    | (tr', Ok a) => k a tr'
    | (tr', Err e) => (tr', Err e)
    end.

(** An external call whose error is tested by the caller. *)
Definition call {A} (ev : Event) (r : result A) : M A :=
  fun tr => ((tr ++ [ev])%list, r).

(** An external call that hands back its value whatever happened. *)
Definition perform {A} (ev : Event) (a : A) : M A :=
  fun tr => ((tr ++ [ev])%list, Ok a).

(** [defer func() { _ = x.Close() }()]: the event is logged when the body
    is left, on every path. *)
Definition defer {A} (ev : Event) (body : M A) : M A :=
  fun tr => let '(tr', r) := body tr in ((tr' ++ [ev])%list, r).

Declare Scope go_scope.
Delimit Scope go_scope with go.
Notation "x <- m ;; k" := (bind m (fun x => k))
  (at level 61, m at next level, right associativity) : go_scope.
Notation "' pat <- m ;; k" := (bind m (fun x => match x with pat => k end))
  (at level 61, pat pattern, m at next level, right associativity) : go_scope.
Open Scope go_scope.

(** ** parser.go *)

Definition androidExt : string := ".apk".

(** The locals of the loop over [reader.File]. *)
Record scanState : Type := mkScan {
  xmlFile : option zipFile;
  supportOS64 : bool;
  supportOS32 : bool;
  hasSoFile : bool
}.

Definition scanInit : scanState := mkScan None false false false.

(** One iteration of [for _, f := range reader.File]. *)
Definition scanStep (st : scanState) (f : zipFile) : scanState :=
  mkScan
    (if String.eqb (zf_Name f) "AndroidManifest.xml" then Some f
     else xmlFile st)
    (if strings.HasPrefix (zf_Name f) "lib/arm64-v8a" then true
     else supportOS64 st)
    (if strings.HasPrefix (zf_Name f) "lib/armeabi" then true
     else supportOS32 st)
    (if strings.HasSuffix (zf_Name f) ".so" then true else hasSoFile st).

Definition scanEntries (files : list zipFile) : scanState :=
  fold_left scanStep files scanInit.

(** The assignment of the two flags after the loop. *)
Definition setSupport (st : scanState) (info : AppInfo) : AppInfo :=
  if negb (hasSoFile st) && negb (supportOS64 st) && negb (supportOS32 st)
  then set_SupportOS32 true (set_SupportOS64 true info)
  else set_SupportOS32 (supportOS32 st) (set_SupportOS64 (supportOS64 st) info).

Definition parseAndroidManifest (w : World) (f : zipFile) : M androidManifest :=
  rc <- call (EvEntryOpen (zf_Name f)) (zf_Open f) ;;
  defer EvEntryClose (
    buf <- call EvReadAll (ReadAll rc) ;;
    xmlContent <- call EvNewXMLFile (NewXMLFile w buf) ;;
    manifest <- call EvXmlDecode (xml_Decode w xmlContent) ;;
    ret manifest).

(** [for _, permission := range manifest.UsesPermission {
       info.UsesPermission = append(info.UsesPermission, permission.Name) }] *)
Definition appendPermissions (ps : list usesPermissionElem) (info : AppInfo)
  : AppInfo :=
  fold_left (fun i p => set_UsesPermission (UsesPermission i ++ [up_Name p])%list i)
            ps info.

Definition parseApkFile (w : World) (xf : option zipFile) : M AppInfo :=
  match xf with
  | None => fail (errorString "AndroidManifest.xml not found")
  | Some f =>
      manifest <- parseAndroidManifest w f ;;
      let info := newAppInfo in
      let '(versionCode, _) := strconv.Atoi (VersionCode manifest) in
      let info := set_BundleId (Package manifest) info in
      let info := set_Version (VersionName manifest) info in
      let info := set_Build versionCode info in
      ret (appendPermissions (m_UsesPermission manifest) info)
  end.

Definition parseApkIconAndLabel (w : World) (name : string)
  : M (option Image * string) :=
  pkg <- call (EvOpenFile name) (openFile w name) ;;
  defer EvPkgClose (
    '(icon, _) <- perform (EvIcon 720) (icon pkg (mkResTableConfig 720)) ;;
    '(label, _) <- perform EvLabel (label pkg None) ;;
    ret (icon, label)).

(** [getApkMd5] hands back the hexadecimal sum, or "" and the error of
    [io.Copy]. *)
Definition getApkMd5 (file : osFile) : M (lossy string) :=
  perform EvMd5Copy
    (match md5Copy file with
     | Ok hex => (hex, None)
     | Err e => ("", Some e)
     end).

(** The body of the loop over the lines of the tool's output; each of the
    three tests ends in [continue]. *)
Definition signatureStep (acc : string * string * string) (line : string)
  : string * string * string :=
  let '(resultMD5, resultSHA1, resultSHA256) := acc in
  if strings.Contains line "MD5:" then
    (snd (fst (strings.Cut line "MD5:")), resultSHA1, resultSHA256)
  else if strings.Contains line "SHA1:" then
    (resultMD5, snd (fst (strings.Cut line "SHA1:")), resultSHA256)
  else if strings.Contains line "SHA256:" then
    (resultMD5, resultSHA1, snd (fst (strings.Cut line "SHA256:")))
  else acc.

Definition normalizeDigest (s : string) : string :=
  strings.ToLower (strings.ReplaceAll (strings.ReplaceAll s " " "") ":" "").

(** What [getSignature] makes of the captured standard output. *)
Definition digestsOfOutput (output : string) : string * string * string :=
  let lines := strings.Split output (String "010" "") in
  let '(resultMD5, resultSHA1, resultSHA256) :=
    fold_left signatureStep lines ("", "", "") in
  (normalizeDigest resultMD5, normalizeDigest resultSHA1,
   normalizeDigest resultSHA256).

Definition getSignature (w : World) (apkPath keyToolPath : string)
  : M (string * string * string) :=
  if String.eqb apkPath "" || String.eqb keyToolPath "" then ret ("", "", "")
  else
    let args := ["-printcert"; "-jarfile"; apkPath] in
    fun tr =>
      match call (EvExecRun keyToolPath args) (exec_Run w keyToolPath args) tr with
      | (tr', Err _) => (tr', Ok ("", "", ""))
      | (tr', Ok output) => (tr', Ok (digestsOfOutput output))
      end.

Definition NewAppParser (w : World) (name keyToolPath : string) (isIcon : bool)
  : M AppInfo :=
  file <- call (EvOsOpen name) (os_Open w name) ;;
  defer EvFileClose (
    stat <- call EvFileStat (Stat file) ;;
    if negb (String.eqb (filepath.Ext (fi_Name stat)) androidExt)
    then fail (errorString "unknown platform")
    else
      files <- call (EvZipNewReader (fi_Size stat))
                    (zipNewReader file (fi_Size stat)) ;;
      let st := scanEntries files in
      info <- parseApkFile w (xmlFile st) ;;
      let info := setSupport st info in
      '(apkMd5, _) <- getApkMd5 file ;;
      let info := set_Md5 apkMd5 info in
      '(sigMd5, sigSha1, sigSha256) <- getSignature w name keyToolPath ;;
      let info := set_SignatureMd5 sigMd5 info in
      let info := set_SignatureSha1 sigSha1 info in
      let info := set_SignatureSha256 sigSha256 info in
      '(icon, label) <- parseApkIconAndLabel w name ;;
      let info := set_Name label info in
      let info := if isIcon then set_Icon icon info else info in
      let info := set_Size (fi_Size stat) info in
      ret info).

(** ** Vocabulary of the statements *)

(** The three tests of the scanning loop, on an entry name. *)
Definition isSoFile (n : string) : bool := strings.HasSuffix n ".so".
Definition underArm64 (n : string) : bool := strings.HasPrefix n "lib/arm64-v8a".
Definition underArmeabi (n : string) : bool := strings.HasPrefix n "lib/armeabi".

(** An entry counts as native code when one of the three tests fires. *)
Definition nativeCodeEntry (n : string) : bool :=
  isSoFile n || underArm64 n || underArmeabi n.

Definition isDigit (c : ascii) : bool :=
  (48 <=? strconv.byteVal c) && (strconv.byteVal c <=? 57).

Fixpoint allDigits (s : string) : bool :=
  match s with
  | EmptyString => true
  | String c rest => isDigit c && allDigits rest
  end.

(** A decimal integer string: an optional sign and at least one digit. *)
Definition isDecimalInteger (s : string) : bool :=
  match s with
  | EmptyString => false
  | String c rest =>
      let body := if strconv.isSign c then rest else s in
      match body with
      | EmptyString => false
      | _ => allDigits body
      end
  end.

(** A lookup that failed the way Go functions do: the zero value of the
    result type next to a non-nil error. *)
Definition failedWith {A} (zero : A) (r : lossy A) : Prop :=
  exists e, r = (zero, Some e).

(** The events that belong to resource resolution. *)
Definition resourceEvent (ev : Event) : bool :=
  match ev with
  | EvOpenFile _ | EvIcon _ | EvLabel | EvPkgClose => true
  | _ => false
  end.

Definition isIconEvent (ev : Event) : bool :=
  match ev with EvIcon _ => true | _ => false end.

Definition isZipReaderEvent (ev : Event) : bool :=
  match ev with EvZipNewReader _ => true | _ => false end.

Definition cfg720 : ResTableConfig := mkResTableConfig 720.

Definition keytoolArgs (apkPath : string) : list string :=
  ["-printcert"; "-jarfile"; apkPath].

(** The record that [parseApkFile] builds from a decoded manifest. *)
Definition infoOfManifest (m : androidManifest) : AppInfo :=
  appendPermissions (m_UsesPermission m)
    (set_Build (fst (strconv.Atoi (VersionCode m)))
       (set_Version (VersionName m)
          (set_BundleId (Package m) newAppInfo))).

(** The assignments that [NewAppParser] makes after [parseApkFile], given
    what the helpers returned. *)
Definition assembled (isIcon : bool) (stat : FileInfo) (st : scanState)
           (info0 : AppInfo) (apkMd5 : string) (sigs : string * string * string)
           (icon : option Image) (label : string) : AppInfo :=
  let info := set_Md5 apkMd5 (setSupport st info0) in
  let info :=
    set_SignatureSha256 (snd sigs)
      (set_SignatureSha1 (snd (fst sigs))
         (set_SignatureMd5 (fst (fst sigs)) info)) in
  let info := set_Name label info in
  let info := if isIcon then set_Icon icon info else info in
  set_Size (fi_Size stat) info.

(** The events of a run of [NewAppParser] up to the manifest, and those of
    the resource lookups that end it. *)
Definition openingEvents (name : string) (stat : FileInfo) : Trace :=
  [EvOsOpen name; EvFileStat; EvZipNewReader (fi_Size stat)].

Definition manifestEvents (f : zipFile) : Trace :=
  [EvEntryOpen (zf_Name f); EvReadAll; EvNewXMLFile; EvXmlDecode; EvEntryClose].

Definition closingEvents (name : string) : Trace :=
  [EvOpenFile name; EvIcon 720; EvLabel; EvPkgClose; EvFileClose].

(** The value and the events of a computation started on an empty log. *)
Definition valueOf {A} (m : M A) : result A := snd (m []).
Definition eventsOf {A} (m : M A) : Trace := fst (m []).

(** A computation is uniform when it only appends to the log it is given
    and its value does not depend on that log. *)
Definition uniform {A} (m : M A) : Prop :=
  forall t, m t = ((t ++ eventsOf m)%list, valueOf m).

(** The steps of a run of [NewAppParser] that went through, with the values
    that the helpers handed back. *)
Record Extraction (w : World) (name keyToolPath : string)
       (file : osFile) (stat : FileInfo) (files : list zipFile) (f : zipFile)
       (m : androidManifest) (apkMd5 : lossy string)
       (sigs : string * string * string) (pkg : apkPackage)
  : Prop := mkExtraction {
  ex_open : os_Open w name = Ok file;
  ex_stat : Stat file = Ok stat;
  ex_ext : filepath.Ext (fi_Name stat) = androidExt;
  ex_zip : zipNewReader file (fi_Size stat) = Ok files;
  ex_manifest : xmlFile (scanEntries files) = Some f;
  ex_decode : valueOf (parseAndroidManifest w f) = Ok m;
  ex_md5 : valueOf (getApkMd5 file) = Ok apkMd5;
  ex_sig : valueOf (getSignature w name keyToolPath) = Ok sigs;
  ex_pkg : openFile w name = Ok pkg
}.

(** The log of a run of [NewAppParser] that went through. *)
Definition successEvents (w : World) (name keyToolPath : string)
           (stat : FileInfo) (f : zipFile) : Trace :=
  (openingEvents name stat ++ manifestEvents f ++ [EvMd5Copy]
   ++ eventsOf (getSignature w name keyToolPath) ++ closingEvents name)%list.

(** [s] without the bytes equal to [c]. *)
Fixpoint removeByte (c : ascii) (s : string) : string :=
  match s with
  | EmptyString => EmptyString
  | String a s' =>
      if Ascii.eqb a c then removeByte c s' else String a (removeByte c s')
  end.

(** ** Sample archives *)

Module Sample.

Definition entry (n : string) : zipFile :=
  mkZipFile n (Ok (mkReadCloser (Ok "axml"))).

Definition manifest : androidManifest :=
  mkManifest "com.example.app" "1.2.3" "45"
    [mkUsesPermission "" "android.permission.CAMERA";
     mkUsesPermission "" "android.permission.INTERNET"]
    [].

Definition withVersionCode (vc : string) : androidManifest :=
  mkManifest "com.example.app" "1.2.3" vc [] [].

Definition pkg : apkPackage :=
  mkApkPackage (fun _ => (Some (decodedImage "icon.png"), None))
               (fun _ => ("Example", None)).

Definition brokenPkg : apkPackage :=
  mkApkPackage (fun _ => (None, Some (DecodeError "icon not found")))
               (fun _ => ("", Some (DecodeError "label not found"))).

(** A file system holding one file [path], an archive with the entries
    [names] whose manifest decodes to [m]. *)
Definition world (path : string) (names : list string) (m : androidManifest)
           (tool : result string) (p : apkPackage) : World :=
  mkWorld
    (fun name =>
       if String.eqb name path
       then Ok (mkOsFile (Ok (mkFileInfo path 1024))
                         (fun _ => Ok (map entry names))
                         (Ok "d41d8cd98f00b204e9800998ecf8427e"))
       else Err (PathError "open" name))
    (fun _ => Ok "manifest")
    (fun _ => Ok m)
    (fun _ _ => tool)
    (fun name =>
       if String.eqb name path then Ok p
       else Err (PathError "open" name)).

Definition toolMissing : result string := Err (ExecError "executable file not found").

Definition plain : World :=
  world "app.apk" ["AndroidManifest.xml"] manifest toolMissing pkg.

Definition arm64 : World :=
  world "app.apk" ["AndroidManifest.xml"; "lib/arm64-v8a/libx.so"]
        manifest toolMissing pkg.

Definition x86 : World :=
  world "app.apk" ["AndroidManifest.xml"; "lib/x86/libx.so"]
        manifest toolMissing pkg.

Definition signed : World :=
  world "app.apk" ["AndroidManifest.xml"] manifest
        (Ok "MD5:  AB:CD:EF:01") pkg.

Definition broken : World :=
  world "app.apk" ["AndroidManifest.xml"] manifest toolMissing brokenPkg.

Definition textFile : World :=
  world "notes.txt" [] manifest toolMissing pkg.

Definition oddVersion : World :=
  world "app.apk" ["AndroidManifest.xml"] (withVersionCode "4x")
        toolMissing pkg.

Definition longVersion : World :=
  world "app.apk" ["AndroidManifest.xml"]
        (withVersionCode "99999999999999999999x") toolMissing pkg.

(** An empty file system: every [os.Open] fails. *)
Definition nothing : World :=
  mkWorld (fun name => Err (PathError "open" name))
          (fun _ => Err (DecodeError "no input"))
          (fun _ => Err (DecodeError "no input"))
          (fun _ _ => toolMissing)
          (fun name => Err (PathError "open" name)).

End Sample.

(** The record a run returned, for reading its fields ([newAppInfo] when the
    run failed). *)
Definition returned (r : Trace * result AppInfo) : AppInfo :=
  match snd r with
  | Ok info => info
  | Err _ => newAppInfo
  end.

(** ** The resource resolver *)

Module Resolver.

Definition ResourceId : Type := Z.

(** Modelled from the spec: the Configuration of section 3, which is not
    declared in parser.go.  Density is the one axis the system requires;
    [None] is the default, unqualified variant. *)
Record Configuration : Type := mkConfiguration { density : option Z }.

(** Modelled from the spec: the value recorded for a resource, a literal
    or a reference to another resource (the resolver's source file is not
    part of parser.go). *)
Inductive Value : Type :=
| Literal (text : string)
| Reference (target : ResourceId).

(** Modelled from the spec: the ResourceTable of section 3, a mapping from
    resource id to the ordered list of its (configuration, value) pairs. *)
Definition ResourceTable : Type :=
  list (ResourceId * list (Configuration * Value)).

Fixpoint entries (t : ResourceTable) (id : ResourceId)
  : list (Configuration * Value) :=
  match t with
  | [] => []
  | (k, es) :: t' => if k =? id then es else entries t' id
  end.

(** Modelled from the spec: the two ways a resolution fails, the not-found
    condition and the resource-cycle error. *)
Inductive ResolveError : Type := NotFound | ResourceCycle.

Inductive Outcome : Type :=
| Resolved (text : string)
| Failed (e : ResolveError).

(** Modelled from the spec: the precedence of section 4.3 between two
    densities for a request: the smallest density at or above the request
    wins, and below the request the largest one. *)
Definition closer (req a b : Z) : bool :=
  if req <=? a then (b <? req) || (a <? b)
  else (b <? req) && (b <? a).

(** Modelled from the spec: best match among the density-qualified entries,
    first-declared on ties. *)
Fixpoint pickQualified (req : Z) (es : list (Configuration * Value))
         (best : option (Z * Value)) : option (Z * Value) :=
  match es with
  | [] => best
  | (c, v) :: es' =>
      match density c, best with
      | None, _ => pickQualified req es' best
      | Some d, None => pickQualified req es' (Some (d, v))
      | Some d, Some (bd, bv) =>
          pickQualified req es'
            (if closer req d bd then Some (d, v) else Some (bd, bv))
      end
  end.

Fixpoint firstDefault (es : list (Configuration * Value)) : option Value :=
  match es with
  | [] => None
  | (c, v) :: es' =>
      match density c with
      | None => Some v
      | Some _ => firstDefault es'
      end
  end.

(** Modelled from the spec: the selection policy of section 4.3.  A request
    without density takes the default variant when there is one. *)
Definition bestMatch (requested : Configuration)
           (es : list (Configuration * Value)) : option Value :=
  match density requested with
  | Some req =>
      match pickQualified req es None with
      | Some (_, v) => Some v
      | None => firstDefault es
      end
  | None =>
      match firstDefault es with
      | Some v => Some v
      | None => option_map snd (pickQualified 0 es None)
      end
  end.

(** Modelled from the spec: the fixed maximum indirection depth. *)
Definition maxDepth : nat := 10.

(** Modelled from the spec: the resolver works iteratively with an explicit
    depth counter (section 9). *)
Record Cursor : Type := mkCursor { at_id : ResourceId; depth : nat }.

(** Modelled from the spec: one round of [resolve] of section 4.3: select
    the best match for the current id; a literal ends the resolution, a
    reference is followed unless the depth bound is reached. *)
Definition step (t : ResourceTable) (cfg : Configuration) (c : Cursor)
  : Cursor + Outcome :=
  match bestMatch cfg (entries t (at_id c)) with
  | None => inr (Failed NotFound)
  | Some (Literal text) => inr (Resolved text)
  | Some (Reference target) =>
      if (maxDepth <=? depth c)%nat then inr (Failed ResourceCycle)
      else inl (mkCursor target (S (depth c)))
  end.

(** Modelled from the spec: the loop of the resolver, run for at most
    [rounds] rounds; [None] when they did not reach an outcome. *)
Fixpoint run (rounds : nat) (t : ResourceTable) (cfg : Configuration)
         (c : Cursor) : option Outcome :=
  match rounds with
  | O => None
  | S rounds' =>
      match step t cfg c with
      | inr o => Some o
      | inl c' => run rounds' t cfg c'
      end
  end.

(** Modelled from the spec: [resolve(table, resourceId,
    requestedConfiguration)], given the number of rounds it may take. *)
Definition resolve (rounds : nat) (t : ResourceTable) (id : ResourceId)
           (cfg : Configuration) : option Outcome :=
  run rounds t cfg (mkCursor id 0).

(** The resource that a reference at [id] leads to, if [id] resolves to a
    reference. *)
Definition next (t : ResourceTable) (cfg : Configuration) (id : ResourceId)
  : option ResourceId :=
  match bestMatch cfg (entries t id) with
  | Some (Reference target) => Some target
  | _ => None
  end.

(** [chain n t cfg id]: starting at [id], at least [n] references follow
    one another. *)
Fixpoint chain (n : nat) (t : ResourceTable) (cfg : Configuration)
         (id : ResourceId) : bool :=
  match n with
  | O => true
  | S n' =>
      match next t cfg id with
      | Some target => chain n' t cfg target
      | None => false
      end
  end.

Definition selfReferencing : ResourceTable :=
  [(2130837504, [(mkConfiguration None, Reference 2130837504)])].

Definition twoStep : ResourceTable :=
  [(2130837504, [(mkConfiguration (Some 160), Literal "low");
                 (mkConfiguration (Some 640), Reference 2130837505)]);
   (2130837505, [(mkConfiguration None, Literal "launcher.png")])].

End Resolver.

(** ** Further vocabulary: entries and more archives *)

Definition manifestName : string := "AndroidManifest.xml".

Definition isManifestName (n : string) : bool := String.eqb n manifestName.

Definition underArmeabiV7a (n : string) : bool :=
  strings.HasPrefix n "lib/armeabi-v7a".

Module Cases.

(** An archive with code but no manifest entry. *)
Definition noManifest : World :=
  Sample.world "app.apk" ["classes.dex"; "resources.arsc"]
               Sample.manifest Sample.toolMissing Sample.pkg.

Definition armv7 : World :=
  Sample.world "app.apk" ["AndroidManifest.xml"; "lib/armeabi-v7a/libx.so"]
               Sample.manifest Sample.toolMissing Sample.pkg.

Definition firstManifest : zipFile :=
  mkZipFile "AndroidManifest.xml" (Ok (mkReadCloser (Ok "com.first"))).

Definition secondManifest : zipFile :=
  mkZipFile "AndroidManifest.xml" (Ok (mkReadCloser (Ok "com.second"))).

(** An archive that carries two entries named AndroidManifest.xml; the
    decoded package name is the content of the entry. *)
Definition twoManifests : World :=
  mkWorld
    (fun name =>
       Ok (mkOsFile (Ok (mkFileInfo "twice.apk" 2048))
                    (fun _ => Ok [firstManifest; Sample.entry "classes.dex";
                                  secondManifest])
                    (Err (PathError "read" name))))
    (fun buf => Ok buf)
    (fun x => Ok (mkManifest x "1.0" "7" [] []))
    (fun _ _ => Sample.toolMissing)
    (fun _ => Ok Sample.pkg).

(** An archive whose manifest is fine but whose package cannot be opened
    for the resource lookups. *)
Definition noResources : World :=
  mkWorld
    (fun name =>
       Ok (mkOsFile (Ok (mkFileInfo "app.apk" 512))
                    (fun _ => Ok [Sample.entry "AndroidManifest.xml"])
                    (Ok "0123456789abcdef0123456789abcdef")))
    (fun _ => Ok "manifest")
    (fun _ => Ok Sample.manifest)
    (fun _ _ => Ok "SHA1: 0A:1B")
    (fun _ => Err (DecodeError "resources.arsc: invalid chunk")).

End Cases.

(** ** Further vocabulary: how a run ends *)

(** The events that reading the manifest entry can log. *)
Definition manifestEvent (ev : Event) : bool :=
  match ev with
  | EvEntryOpen _ | EvReadAll | EvNewXMLFile | EvXmlDecode | EvEntryClose => true
  | _ => false
  end.

(** The seven ways a run of [NewAppParser] ends, each with the events it
    logs and the result it returns. *)
Inductive RunShape (w : World) (name keyToolPath : string) (isIcon : bool)
  : Trace -> result AppInfo -> Prop :=
| OpenFails e :
    os_Open w name = Err e ->
    RunShape w name keyToolPath isIcon [EvOsOpen name] (Err e)
| StatFails file e :
    os_Open w name = Ok file -> Stat file = Err e ->
    RunShape w name keyToolPath isIcon
             [EvOsOpen name; EvFileStat; EvFileClose] (Err e)
| WrongExtension file stat :
    os_Open w name = Ok file -> Stat file = Ok stat ->
    filepath.Ext (fi_Name stat) <> androidExt ->
    RunShape w name keyToolPath isIcon
             [EvOsOpen name; EvFileStat; EvFileClose]
             (Err (errorString "unknown platform"))
| ReaderFails file stat e :
    os_Open w name = Ok file -> Stat file = Ok stat ->
    filepath.Ext (fi_Name stat) = androidExt ->
    zipNewReader file (fi_Size stat) = Err e ->
    RunShape w name keyToolPath isIcon
             (openingEvents name stat ++ [EvFileClose])%list (Err e)
| ManifestFails file stat files e :
    os_Open w name = Ok file -> Stat file = Ok stat ->
    filepath.Ext (fi_Name stat) = androidExt ->
    zipNewReader file (fi_Size stat) = Ok files ->
    valueOf (parseApkFile w (xmlFile (scanEntries files))) = Err e ->
    RunShape w name keyToolPath isIcon
             (openingEvents name stat
              ++ eventsOf (parseApkFile w (xmlFile (scanEntries files)))
              ++ [EvFileClose])%list
             (Err e)
| PackageFails file stat files f m e :
    os_Open w name = Ok file -> Stat file = Ok stat ->
    filepath.Ext (fi_Name stat) = androidExt ->
    zipNewReader file (fi_Size stat) = Ok files ->
    xmlFile (scanEntries files) = Some f ->
    valueOf (parseAndroidManifest w f) = Ok m ->
    openFile w name = Err e ->
    RunShape w name keyToolPath isIcon
             (openingEvents name stat ++ manifestEvents f ++ [EvMd5Copy]
              ++ eventsOf (getSignature w name keyToolPath)
              ++ [EvOpenFile name; EvFileClose])%list
             (Err e)
| Succeeds file stat files f m apkMd5 sigs pkg :
    Extraction w name keyToolPath file stat files f m apkMd5 sigs pkg ->
    RunShape w name keyToolPath isIcon
             (successEvents w name keyToolPath stat f)
             (Ok (assembled isIcon stat (scanEntries files) (infoOfManifest m)
                    (fst apkMd5) sigs (fst (icon pkg cfg720))
                    (fst (label pkg None)))).

(** The error [e] comes from reading and decoding the entry [f]. *)
Definition entryError (w : World) (f : zipFile) (e : error) : Prop :=
  zf_Open f = Err e
  \/ exists rc,
      zf_Open f = Ok rc
      /\ (ReadAll rc = Err e
          \/ exists buf,
              ReadAll rc = Ok buf
              /\ (NewXMLFile w buf = Err e
                  \/ exists x, NewXMLFile w buf = Ok x /\ xml_Decode w x = Err e)).

Definition isFileClose (ev : Event) : bool :=
  match ev with EvFileClose => true | _ => false end.

Definition isLookupEvent (ev : Event) : bool :=
  match ev with EvIcon _ | EvLabel => true | _ => false end.

Definition isToolEvent (ev : Event) : bool :=
  match ev with EvExecRun _ _ => true | _ => false end.

(** ** Further vocabulary: digests *)

Fixpoint allBytes (p : ascii -> bool) (s : string) : bool :=
  match s with
  | EmptyString => true
  | String c s' => p c && allBytes p s'
  end.

(** A byte of a normalised digest: no space, no colon, no ASCII capital. *)
Definition digestByte (c : ascii) : bool :=
  negb (Ascii.eqb c " ") && negb (Ascii.eqb c ":") && negb (strings.isUpper c).

Definition outputLines (output : string) : list string :=
  strings.Split output (String "010" "").

Module SigCases.

Definition keytoolOutput : string :=
  "Signer #1:
Certificate fingerprints:
	 SHA1: 0A:1B:2C
	 SHA256: FF:EE:DD
Signature algorithm name: SHA256withRSA".

Definition twoSigners : string :=
  "MD5:  11:22
SHA1: AA:BB
MD5:  33:44
Owner: CN=Example".

Definition signedTwice : World :=
  Sample.world "app.apk" ["AndroidManifest.xml"] Sample.manifest
               (Ok twoSigners) Sample.pkg.

End SigCases.

(** The pieces put back together, with the separator between them. *)
Fixpoint joinWith (sep : string) (parts : list string) : string :=
  match parts with
  | [] => ""
  | p :: rest =>
      match rest with
      | [] => p
      | _ :: _ => p ++ sep ++ joinWith sep rest
      end
  end.

(** ** Further vocabulary: decimal numerals *)

(** The decimal numeral of an integer, as the standard library prints it:
    the digits of the absolute value, after a "-" for a negative one. *)
Definition decimalString (z : Z) : string :=
  DecimalString.NilEmpty.string_of_int (Z.to_int z).

(** The number read when the digits [d] follow the number [acc]. *)
Fixpoint digitsValue (d : Decimal.uint) (acc : Z) : Z :=
  match d with
  | Decimal.Nil => acc
  | Decimal.D0 l => digitsValue l (acc * 10 + 0)
  | Decimal.D1 l => digitsValue l (acc * 10 + 1)
  | Decimal.D2 l => digitsValue l (acc * 10 + 2)
  | Decimal.D3 l => digitsValue l (acc * 10 + 3)
  | Decimal.D4 l => digitsValue l (acc * 10 + 4)
  | Decimal.D5 l => digitsValue l (acc * 10 + 5)
  | Decimal.D6 l => digitsValue l (acc * 10 + 6)
  | Decimal.D7 l => digitsValue l (acc * 10 + 7)
  | Decimal.D8 l => digitsValue l (acc * 10 + 8)
  | Decimal.D9 l => digitsValue l (acc * 10 + 9)
  end.

Module VersionCases.

Definition build2024 : World :=
  Sample.world "app.apk" ["AndroidManifest.xml"]
               (Sample.withVersionCode (decimalString 2024031501))
               Sample.toolMissing Sample.pkg.

End VersionCases.

(** ** example.go *)

(** What [main] does around its call of [NewAppParser]. *)
Inductive ExampleEvent : Type :=
| ExParser (ev : Event)           (* an event of the call of NewAppParser *)
| ExMarshal                       (* json.Marshal(app) *)
| ExCreate (path : string)        (* os.Create *)
| ExEncode                        (* png.Encode *)
| ExPrintln (text : string)       (* fmt.Println *)
| ExClose.                        (* the deferred pngFile.Close() *)

(** [main] returns, or it stops on the nil pointer that [app.Icon]
    dereferences. *)
Inductive Exit : Type := Returned | NilDereference.

Definition apkFile : string := "com.xxx.9.7_32bit.apk".

(** [json.Marshal(app)] for [app *AppInfo]: a nil pointer is rendered as
    null; [marshalInfo] stands for the encoding of a record. *)
Definition jsonMarshal (marshalInfo : AppInfo -> result string)
           (app : option AppInfo) : result string :=
  match app with
  | Some info => marshalInfo info
  | None => Ok "null"
  end.

(** [main].  The error of [NewAppParser] is overwritten by the one of
    [json.Marshal] before it is looked at; the errors of [os.Create] and
    [png.Encode] are dropped, and the last [Println] prints the error of
    [json.Marshal], which is nil there. *)
Definition main (w : World) (marshalInfo : AppInfo -> result string)
  : list ExampleEvent * Exit :=
  let '(tr, r) := NewAppParser w apkFile "keytool" false [] in
  let log := map ExParser tr in
  let app := match r with Ok info => Some info | Err _ => None end in
  match jsonMarshal marshalInfo app with
  | Err _ => ((log ++ [ExMarshal])%list, Returned)
  | Ok marshal =>
      match app with
      | None => ((log ++ [ExMarshal])%list, NilDereference)
      | Some info =>
          match Icon info with
          | Some _ =>
              ((log ++ [ExMarshal; ExCreate "./helloworld.png"; ExEncode;
                        ExPrintln marshal; ExPrintln "<nil>"; ExClose])%list,
               Returned)
          | None =>
              ((log ++ [ExMarshal; ExPrintln marshal; ExPrintln "<nil>"])%list,
               Returned)
          end
      end
  end.

Definition writesIcon (ev : ExampleEvent) : bool :=
  match ev with
  | ExCreate _ | ExEncode => true
  | _ => false
  end.

Definition isEntryClose (ev : Event) : bool :=
  match ev with EvEntryClose => true | _ => false end.

Module MoreCases.

(** An archive whose manifest entry opens but cannot be read to its end. *)
Definition truncatedEntry : zipFile :=
  mkZipFile "AndroidManifest.xml"
            (Ok (mkReadCloser (Err (ZipError "unexpected EOF")))).

Definition hugeVersion : World :=
  Sample.world "app.apk" ["AndroidManifest.xml"]
               (Sample.withVersionCode (decimalString 9223372036854775808))
               Sample.toolMissing Sample.pkg.

Definition withPermissions : androidManifest :=
  mkManifest "com.example.app" "1.2.3" "45"
    [mkUsesPermission "ignored" "android.permission.CAMERA"]
    [mkPermission "" "com.example.app.PRIVATE" "signature"].

Definition withoutPermissions : androidManifest :=
  mkManifest "com.example.app" "1.2.3" "45"
    [mkUsesPermission "" "android.permission.CAMERA"] [].

End MoreCases.

(** ** Further vocabulary: occurrences, lines and white space *)

(** [label] occurs somewhere in [s]. *)
Definition occursIn (label s : string) : Prop :=
  exists a b, s = (a ++ label ++ b)%string.

(** [s] is [a], then [label], then [b], and no occurrence of [label] in [s]
    starts earlier. *)
Definition firstAt (label s a b : string) : Prop :=
  s = (a ++ label ++ b)%string
  /\ forall a' b', s = (a' ++ label ++ b')%string ->
                   (String.length a <= String.length a')%nat.





(** Every byte is below 128: the texts on which [strings.ToLower] works
    byte by byte. *)
Definition isASCII (s : string) : bool :=
  allBytes (fun c => (nat_of_ascii c <? 128)%nat) s.


Module Revised.

(** A package whose label lookup fails yet hands back the resource id it
    could not resolve, and whose icon lookup fails with a nil image. *)
Definition unresolvedPkg : apkPackage :=
  mkApkPackage
    (fun _ => (None, Some (DecodeError "icon not found")))
    (fun _ => ("@0x7F0B0012",
               Some (DecodeError "unable to convert label-id to string"))).

Definition unresolved : World :=
  Sample.world "app.apk" ["AndroidManifest.xml"] Sample.manifest
               Sample.toolMissing unresolvedPkg.





End Revised.


(** * Properties *)

(** ** The log and the error of a run *)

Lemma bind_Ok {A B} (m : M A) (k : A -> M B) tr tr' b :
  bind m k tr = (tr', Ok b) ->
  exists a t, m tr = (t, Ok a) /\ k a t = (tr', Ok b).
Proof.
  unfold bind. destruct (m tr) as [t [a | e]]; intros H.
  - exists a, t. split; [reflexivity | exact H].
  - discriminate H.
Qed.

Lemma bind_run {A B} (m : M A) (k : A -> M B) tr t a :
  m tr = (t, Ok a) -> bind m k tr = k a t.
Proof. unfold bind. intros ->. reflexivity. Qed.

Lemma defer_inv {A} ev (body : M A) tr tr' r :
  defer ev body tr = (tr', r) ->
  exists t, body tr = (t, r) /\ tr' = (t ++ [ev])%list.
Proof.
  unfold defer. destruct (body tr) as [t r0]. intros H.
  inversion H; subst. exists t. split; reflexivity.
Qed.

Lemma defer_run {A} ev (body : M A) tr t r :
  body tr = (t, r) -> defer ev body tr = ((t ++ [ev])%list, r).
Proof. unfold defer. intros ->. reflexivity. Qed.

Lemma call_Ok {A} ev (r : result A) tr tr' a :
  call ev r tr = (tr', Ok a) -> r = Ok a /\ tr' = (tr ++ [ev])%list.
Proof. unfold call. intros H. inversion H; subst. split; reflexivity. Qed.

(** ** The scanning loop *)

Lemma scan_fold (files : list zipFile) :
  forall st,
    supportOS64 (fold_left scanStep files st)
    = supportOS64 st || existsb underArm64 (map zf_Name files)
    /\ supportOS32 (fold_left scanStep files st)
      = supportOS32 st || existsb underArmeabi (map zf_Name files)
    /\ hasSoFile (fold_left scanStep files st)
      = hasSoFile st || existsb isSoFile (map zf_Name files).
Proof.
  induction files as [| f files IH]; intros st; simpl.
  - rewrite !orb_false_r. repeat split.
  - destruct (IH (scanStep st f)) as (H64 & H32 & Hso).
    rewrite H64, H32, Hso. unfold scanStep, underArm64, underArmeabi, isSoFile.
    simpl.
    destruct (strings.HasPrefix (zf_Name f) "lib/arm64-v8a"),
             (strings.HasPrefix (zf_Name f) "lib/armeabi"),
             (strings.HasSuffix (zf_Name f) ".so");
      simpl; rewrite ?orb_true_r; repeat split;
      try reflexivity; rewrite ?orb_assoc; try reflexivity.
Qed.

Lemma scanEntries_flags (files : list zipFile) :
  supportOS64 (scanEntries files) = existsb underArm64 (map zf_Name files)
  /\ supportOS32 (scanEntries files) = existsb underArmeabi (map zf_Name files)
  /\ hasSoFile (scanEntries files) = existsb isSoFile (map zf_Name files).
Proof. exact (scan_fold files scanInit). Qed.

Lemma existsb_native (names : list string) :
  existsb nativeCodeEntry names
  = existsb isSoFile names || existsb underArm64 names
    || existsb underArmeabi names.
Proof.
  induction names as [| n names IH]; simpl; [reflexivity |].
  rewrite IH. unfold nativeCodeEntry.
  destruct (isSoFile n), (underArm64 n), (underArmeabi n),
    (existsb isSoFile names), (existsb underArm64 names),
    (existsb underArmeabi names); reflexivity.
Qed.

Lemma setSupport_flags (st : scanState) (info : AppInfo) :
  let native := hasSoFile st || supportOS64 st || supportOS32 st in
  SupportOS64 (setSupport st info) = (if native then supportOS64 st else true)
  /\ SupportOS32 (setSupport st info) = (if native then supportOS32 st else true).
Proof.
  unfold setSupport. destruct info.
  destruct (hasSoFile st), (supportOS64 st), (supportOS32 st); simpl;
    split; reflexivity.
Qed.

(** ** Uniform computations *)

Lemma uniform_ret {A} (a : A) : uniform (ret a).
Proof. intros t. unfold ret, eventsOf, valueOf. simpl. rewrite app_nil_r. reflexivity. Qed.

Lemma uniform_fail {A} (e : error) : uniform (@fail A e).
Proof. intros t. unfold fail, eventsOf, valueOf. simpl. rewrite app_nil_r. reflexivity. Qed.

Lemma uniform_call {A} ev (r : result A) : uniform (call ev r).
Proof. intros t. reflexivity. Qed.

Lemma uniform_perform {A} ev (a : A) : uniform (perform ev a).
Proof. intros t. reflexivity. Qed.

Lemma uniform_bind {A B} (m : M A) (k : A -> M B) :
  uniform m -> (forall a, uniform (k a)) -> uniform (bind m k).
Proof.
  intros Hm Hk t. unfold eventsOf, valueOf, bind. rewrite (Hm t).
  unfold eventsOf, valueOf. destruct (m []) as [e0 [a | e]]; simpl.
  - rewrite (Hk a (t ++ e0)%list), (Hk a e0). simpl.
    rewrite app_assoc. reflexivity.
  - reflexivity.
Qed.

Lemma uniform_defer {A} ev (body : M A) : uniform body -> uniform (defer ev body).
Proof.
  intros Hb t. unfold eventsOf, valueOf, defer. rewrite (Hb t).
  unfold eventsOf, valueOf. destruct (body []) as [e0 r]. simpl.
  rewrite app_assoc. reflexivity.
Qed.

Ltac uniform_steps :=
  repeat first
    [ apply uniform_ret | apply uniform_fail | apply uniform_call
    | apply uniform_perform | apply uniform_defer
    | apply uniform_bind; [| intros ? ]
    | match goal with
      | |- uniform (match ?x with _ => _ end) => destruct x
      | |- uniform (let '(_, _) := ?x in _) => destruct x
      end ].

(** From the value and the events of a uniform computation to its run on
    any log. *)
Lemma uniform_run {A} (m : M A) t r :
  uniform m -> valueOf m = r -> m t = ((t ++ eventsOf m)%list, r).
Proof. intros Hm <-. apply Hm. Qed.

Lemma uniform_value {A} (m : M A) t t' r :
  uniform m -> m t = (t', r) -> valueOf m = r /\ t' = (t ++ eventsOf m)%list.
Proof. intros Hm H. rewrite (Hm t) in H. inversion H; subst. split; reflexivity. Qed.

(** ** The helpers of [NewAppParser] *)

Lemma parseAndroidManifest_uniform w f : uniform (parseAndroidManifest w f).
Proof. unfold parseAndroidManifest. uniform_steps. Qed.

Lemma parseApkFile_uniform w xf : uniform (parseApkFile w xf).
Proof.
  unfold parseApkFile. destruct xf; [| apply uniform_fail].
  apply uniform_bind; [apply parseAndroidManifest_uniform |].
  intros m. destruct (strconv.Atoi (VersionCode m)). apply uniform_ret.
Qed.

Lemma getApkMd5_uniform file : uniform (getApkMd5 file).
Proof. apply uniform_perform. Qed.

Lemma getSignature_uniform w apkPath keyToolPath :
  uniform (getSignature w apkPath keyToolPath).
Proof.
  unfold getSignature.
  destruct (String.eqb apkPath "" || String.eqb keyToolPath "");
    [apply uniform_ret |].
  intros t. unfold eventsOf, valueOf, call.
  destruct (exec_Run w keyToolPath _); reflexivity.
Qed.

Lemma parseApkIconAndLabel_uniform w name : uniform (parseApkIconAndLabel w name).
Proof. unfold parseApkIconAndLabel. uniform_steps. Qed.

Lemma NewAppParser_uniform w name kt isIcon : uniform (NewAppParser w name kt isIcon).
Proof.
  unfold NewAppParser.
  apply uniform_bind; [apply uniform_call | intros file].
  apply uniform_defer.
  apply uniform_bind; [apply uniform_call | intros stat].
  destruct (negb _); [apply uniform_fail |].
  apply uniform_bind; [apply uniform_call | intros files].
  apply uniform_bind; [apply parseApkFile_uniform | intros info].
  apply uniform_bind; [apply getApkMd5_uniform | intros [apkMd5 e]].
  apply uniform_bind; [apply getSignature_uniform | intros [[s1 s2] s3]].
  apply uniform_bind; [apply parseApkIconAndLabel_uniform | intros [i l]].
  apply uniform_ret.
Qed.

Lemma parseAndroidManifest_value w f m :
  valueOf (parseAndroidManifest w f) = Ok m <->
  exists rc buf x,
    zf_Open f = Ok rc /\ ReadAll rc = Ok buf /\ NewXMLFile w buf = Ok x
    /\ xml_Decode w x = Ok m.
Proof.
  unfold valueOf, parseAndroidManifest, bind, defer, call, ret. split.
  - destruct (zf_Open f) as [rc |] eqn:E1; simpl; [| discriminate].
    destruct (ReadAll rc) as [buf |] eqn:E2; simpl; [| discriminate].
    destruct (NewXMLFile w buf) as [x |] eqn:E3; simpl; [| discriminate].
    destruct (xml_Decode w x) as [m' |] eqn:E4; simpl; [| discriminate].
    intros H. inversion H; subst. exists rc, buf, x. auto.
  - intros (rc & buf & x & H1 & H2 & H3 & H4).
    rewrite H1; simpl. rewrite H2; simpl. rewrite H3; simpl. rewrite H4.
    reflexivity.
Qed.

Lemma parseAndroidManifest_events w f m :
  valueOf (parseAndroidManifest w f) = Ok m ->
  eventsOf (parseAndroidManifest w f) = manifestEvents f.
Proof.
  intros H. apply parseAndroidManifest_value in H as (rc & buf & x & H1 & H2 & H3 & H4).
  unfold eventsOf, parseAndroidManifest, bind, defer, call, ret.
  rewrite H1; simpl. rewrite H2; simpl. rewrite H3; simpl. rewrite H4.
  reflexivity.
Qed.

Lemma parseApkFile_run w f m t :
  valueOf (parseAndroidManifest w f) = Ok m ->
  parseApkFile w (Some f) t = ((t ++ manifestEvents f)%list, Ok (infoOfManifest m)).
Proof.
  intros H. unfold parseApkFile.
  rewrite (bind_run _ _ t (t ++ manifestEvents f)%list m).
  - unfold infoOfManifest. destruct (strconv.Atoi (VersionCode m)). reflexivity.
  - rewrite <- (parseAndroidManifest_events w f m H).
    apply uniform_run; [apply parseAndroidManifest_uniform | exact H].
Qed.

Lemma parseApkFile_inv w xf t t' info :
  parseApkFile w xf t = (t', Ok info) ->
  exists f m, xf = Some f /\ valueOf (parseAndroidManifest w f) = Ok m
              /\ info = infoOfManifest m.
Proof.
  destruct xf as [f |]; simpl; intros H; [| discriminate H].
  apply bind_Ok in H as (m & t0 & Hm & H). exists f, m.
  apply (uniform_value _ _ _ _ (parseAndroidManifest_uniform w f)) in Hm as [Hm _].
  unfold infoOfManifest.
  destruct (strconv.Atoi (VersionCode m)) as [vc e]. inversion H; subst.
  repeat split. exact Hm.
Qed.

Lemma parseApkIconAndLabel_run w name t pkg :
  openFile w name = Ok pkg ->
  parseApkIconAndLabel w name t
  = ((t ++ [EvOpenFile name; EvIcon 720; EvLabel; EvPkgClose])%list,
     Ok (fst (icon pkg cfg720), fst (label pkg None))).
Proof.
  intros H. unfold parseApkIconAndLabel, bind, defer, call, perform, ret, cfg720.
  rewrite H. destruct (icon pkg _) as [i ie], (label pkg None) as [l le]. simpl.
  rewrite <- !app_assoc. reflexivity.
Qed.

Lemma parseApkIconAndLabel_inv w name t t' r :
  parseApkIconAndLabel w name t = (t', Ok r) ->
  exists pkg, openFile w name = Ok pkg.
Proof.
  unfold parseApkIconAndLabel, bind, call. destruct (openFile w name) as [pkg | e].
  - intros _. exists pkg. reflexivity.
  - intros H. discriminate H.
Qed.

(** ** [NewAppParser]: what a successful run consists of *)

Lemma NewAppParser_run w name kt file stat files f m apkMd5 sigs pkg :
  Extraction w name kt file stat files f m apkMd5 sigs pkg ->
  forall isIcon tr,
    NewAppParser w name kt isIcon tr
    = ((tr ++ successEvents w name kt stat f)%list,
       Ok (assembled isIcon stat (scanEntries files) (infoOfManifest m)
             (fst apkMd5) sigs (fst (icon pkg cfg720)) (fst (label pkg None)))).
Proof.
  intros [Hopen Hstat Hext Hzip Hxml Hdec Hmd5 Hsig Hpkg] isIcon tr.
  destruct apkMd5 as [md5 e], sigs as [[s1 s2] s3].
  unfold NewAppParser.
  erewrite bind_run by (unfold call; rewrite Hopen; reflexivity).
  erewrite defer_run.
  2:{ erewrite bind_run by (unfold call; rewrite Hstat; reflexivity).
      rewrite Hext, String.eqb_refl. change (negb true) with false. cbv iota.
      erewrite bind_run by (unfold call; rewrite Hzip; reflexivity).
      rewrite Hxml.
      erewrite bind_run by (apply parseApkFile_run; exact Hdec).
      erewrite bind_run
        by (apply uniform_run; [apply getApkMd5_uniform | exact Hmd5]).
      cbv beta iota.
      erewrite bind_run
        by (apply uniform_run; [apply getSignature_uniform | exact Hsig]).
      cbv beta iota.
      erewrite bind_run by (apply parseApkIconAndLabel_run; exact Hpkg).
      unfold ret. reflexivity. }
  unfold successEvents, openingEvents, closingEvents, assembled.
  change (eventsOf (getApkMd5 file)) with [EvMd5Copy].
  rewrite <- !app_assoc. simpl. destruct isIcon; reflexivity.
Qed.

Lemma NewAppParser_inv w name kt isIcon tr tr' info :
  NewAppParser w name kt isIcon tr = (tr', Ok info) ->
  exists file stat files f m apkMd5 sigs pkg,
    Extraction w name kt file stat files f m apkMd5 sigs pkg.
Proof.
  unfold NewAppParser. intros H.
  apply bind_Ok in H as (file & t0 & Hopen & H).
  apply call_Ok in Hopen as [Hopen _].
  apply defer_inv in H as (t1 & H & _).
  apply bind_Ok in H as (stat & t2 & Hstat & H).
  apply call_Ok in Hstat as [Hstat _].
  destruct (String.eqb_spec (filepath.Ext (fi_Name stat)) androidExt) as [Hext | Hext];
    simpl in H; [| discriminate H].
  apply bind_Ok in H as (files & t3 & Hzip & H).
  apply call_Ok in Hzip as [Hzip _].
  apply bind_Ok in H as (info0 & t4 & Hparse & H).
  apply parseApkFile_inv in Hparse as (f & m & Hxml & Hdec & _).
  apply bind_Ok in H as (apkMd5 & t5 & Hmd5 & H).
  apply (uniform_value _ _ _ _ (getApkMd5_uniform file)) in Hmd5 as [Hmd5 _].
  destruct apkMd5 as [md5 e].
  apply bind_Ok in H as (sigs & t6 & Hsig & H).
  apply (uniform_value _ _ _ _ (getSignature_uniform w name kt)) in Hsig as [Hsig _].
  destruct sigs as [[s1 s2] s3].
  apply bind_Ok in H as (r & t7 & Hpkg & H).
  apply parseApkIconAndLabel_inv in Hpkg as (pkg & Hpkg).
  exists file, stat, files, f, m, (md5, e), (s1, s2, s3), pkg.
  constructor; assumption.
Qed.

(** A successful run, inverted: the steps it went through, its log and the
    record it returns. *)
Lemma NewAppParser_Ok w name kt isIcon tr tr' info :
  NewAppParser w name kt isIcon tr = (tr', Ok info) ->
  exists file stat files f m apkMd5 sigs pkg,
    Extraction w name kt file stat files f m apkMd5 sigs pkg
    /\ tr' = (tr ++ successEvents w name kt stat f)%list
    /\ info = assembled isIcon stat (scanEntries files) (infoOfManifest m)
                (fst apkMd5) sigs (fst (icon pkg cfg720)) (fst (label pkg None)).
Proof.
  intros H.
  destruct (NewAppParser_inv _ _ _ _ _ _ _ H)
    as (file & stat & files & f & m & apkMd5 & sigs & pkg & E).
  exists file, stat, files, f, m, apkMd5, sigs, pkg.
  rewrite (NewAppParser_run _ _ _ _ _ _ _ _ _ _ _ E isIcon tr) in H.
  inversion H; subst. auto.
Qed.

(** ** The fields of the assembled record *)

Section Assembled.

Variables (isIcon : bool) (stat : FileInfo) (st : scanState) (info0 : AppInfo)
          (apkMd5 : string) (sigs : string * string * string)
          (icon : option Image) (label : string).

#[local] Abbreviation info := (assembled isIcon stat st info0 apkMd5 sigs icon label).

Lemma assembled_support :
  SupportOS64 info = SupportOS64 (setSupport st info0)
  /\ SupportOS32 info = SupportOS32 (setSupport st info0).
Proof.
  unfold assembled. destruct (setSupport st info0), isIcon; split; reflexivity.
Qed.

Lemma assembled_manifest_fields :
  BundleId info = BundleId info0 /\ Version info = Version info0
  /\ Build info = Build info0 /\ UsesPermission info = UsesPermission info0.
Proof.
  unfold assembled, setSupport. destruct info0.
  destruct (negb _ && _ && _), isIcon; repeat split; reflexivity.
Qed.

Lemma assembled_signature :
  SignatureMd5 info = fst (fst sigs) /\ SignatureSha1 info = snd (fst sigs)
  /\ SignatureSha256 info = snd sigs.
Proof.
  unfold assembled. destruct (setSupport st info0), isIcon;
    repeat split; reflexivity.
Qed.

Lemma assembled_name : Name info = label.
Proof.
  unfold assembled. destruct (setSupport st info0), isIcon; reflexivity.
Qed.

Lemma assembled_icon :
  Icon info = if isIcon then icon else Icon info0.
Proof.
  unfold assembled, setSupport. destruct info0.
  destruct (negb _ && _ && _), isIcon; reflexivity.
Qed.

End Assembled.

(** ** Architecture support *)

Lemma NewAppParser_support w name kt isIcon tr tr' info file stat files :
  os_Open w name = Ok file -> Stat file = Ok stat ->
  zipNewReader file (fi_Size stat) = Ok files ->
  NewAppParser w name kt isIcon tr = (tr', Ok info) ->
  let names := map zf_Name files in
  SupportOS64 info
  = (if existsb nativeCodeEntry names then existsb underArm64 names else true)
  /\ SupportOS32 info
    = (if existsb nativeCodeEntry names then existsb underArmeabi names else true).
Proof.
  intros Hopen Hstat Hzip H names.
  apply NewAppParser_Ok in H
    as (file' & stat' & files' & f & m & apkMd5 & sigs & pkg & E & _ & ->).
  destruct E as [Hopen' Hstat' _ Hzip' _ _ _ _ _].
  rewrite Hopen in Hopen'. inversion Hopen'; subst file'.
  rewrite Hstat in Hstat'. inversion Hstat'; subst stat'.
  rewrite Hzip in Hzip'. inversion Hzip'; subst files'.
  destruct (assembled_support isIcon stat (scanEntries files) (infoOfManifest m)
              (fst apkMd5) sigs (fst (icon pkg cfg720)) (fst (label pkg None)))
    as [-> ->].
  destruct (setSupport_flags (scanEntries files) (infoOfManifest m)) as [-> ->].
  destruct (scanEntries_flags files) as (-> & -> & ->).
  fold names. rewrite (existsb_native names). split; reflexivity.
Qed.

(** C1. For every archive that [NewAppParser] processes: when no entry is
    native code (no name ends in .so and none begins with one of the two ABI
    directory prefixes) both architecture flags of the returned record are
    true; otherwise the 64-bit flag tells whether some entry name begins with
    lib/arm64-v8a and the 32-bit flag whether some entry name begins with
    lib/armeabi, each on its own.  An archive whose only entry is
    AndroidManifest.xml gives both flags true; the entries AndroidManifest.xml
    and lib/arm64-v8a/libx.so give 64-bit true and 32-bit false. *)
Theorem C1_architecture_flags :
  forall w name kt isIcon tr tr' info file stat files,
    os_Open w name = Ok file -> Stat file = Ok stat ->
    zipNewReader file (fi_Size stat) = Ok files ->
    NewAppParser w name kt isIcon tr = (tr', Ok info) ->
    let names := map zf_Name files in
    (existsb nativeCodeEntry names = false ->
     SupportOS64 info = true /\ SupportOS32 info = true)
    /\ (existsb nativeCodeEntry names = true ->
        SupportOS64 info = existsb underArm64 names
        /\ SupportOS32 info = existsb underArmeabi names)
    /\ (names = ["AndroidManifest.xml"] ->
        SupportOS64 info = true /\ SupportOS32 info = true)
    /\ (names = ["AndroidManifest.xml"; "lib/arm64-v8a/libx.so"] ->
        SupportOS64 info = true /\ SupportOS32 info = false).
Proof.
  intros w name kt isIcon tr tr' info file stat files Hopen Hstat Hzip H names.
  destruct (NewAppParser_support _ _ _ _ _ _ _ _ _ _ Hopen Hstat Hzip H)
    as [H64 H32].
  fold names in H64, H32. rewrite H64, H32.
  split; [| split; [| split]]; intros Hn; rewrite Hn; split; reflexivity.
Qed.

Lemma C1_architecture_flags_witness :
  let run := NewAppParser Sample.arm64 "app.apk" "keytool" false [] in
  SupportOS64 (returned run) = true /\ SupportOS32 (returned run) = false.
Proof.
  intros run.
  refine (proj2 (proj2 (proj2
    (C1_architecture_flags Sample.arm64 "app.apk" "keytool" false []
       (fst run) (returned run) _ _ _ eq_refl eq_refl eq_refl eq_refl)))
    eq_refl).
Defined.

(** C9. For every archive with at least one entry whose name ends in .so and
    no entry whose name begins with lib/arm64-v8a or lib/armeabi (native
    libraries under lib/x86/ only, say), the record that [NewAppParser]
    returns has SupportOS64 = false and SupportOS32 = false. *)
Theorem C9_foreign_abi_only :
  forall w name kt isIcon tr tr' info file stat files,
    os_Open w name = Ok file -> Stat file = Ok stat ->
    zipNewReader file (fi_Size stat) = Ok files ->
    existsb isSoFile (map zf_Name files) = true ->
    existsb underArm64 (map zf_Name files) = false ->
    existsb underArmeabi (map zf_Name files) = false ->
    NewAppParser w name kt isIcon tr = (tr', Ok info) ->
    SupportOS64 info = false /\ SupportOS32 info = false.
Proof.
  intros w name kt isIcon tr tr' info file stat files Hopen Hstat Hzip Hso H64 H32 H.
  destruct (NewAppParser_support _ _ _ _ _ _ _ _ _ _ Hopen Hstat Hzip H)
    as [-> ->].
  rewrite existsb_native, Hso, H64, H32. split; reflexivity.
Qed.

Lemma C9_foreign_abi_only_witness :
  let run := NewAppParser Sample.x86 "app.apk" "keytool" true [] in
  SupportOS64 (returned run) = false /\ SupportOS32 (returned run) = false.
Proof.
  intros run.
  exact (C9_foreign_abi_only Sample.x86 "app.apk" "keytool" true []
           (fst run) (returned run) _ _ _ eq_refl eq_refl eq_refl
           eq_refl eq_refl eq_refl eq_refl).
Defined.

(** ** The record built from the manifest *)

Lemma appendPermissions_spec (ps : list usesPermissionElem) :
  forall info,
    appendPermissions ps info
    = set_UsesPermission (UsesPermission info ++ map up_Name ps)%list info.
Proof.
  unfold appendPermissions.
  induction ps as [| p ps IH]; intros info; simpl.
  - rewrite app_nil_r. destruct info; reflexivity.
  - rewrite IH. destruct info; simpl. rewrite <- app_assoc. reflexivity.
Qed.

Lemma infoOfManifest_fields (m : androidManifest) :
  BundleId (infoOfManifest m) = Package m
  /\ Version (infoOfManifest m) = VersionName m
  /\ Build (infoOfManifest m) = fst (strconv.Atoi (VersionCode m))
  /\ UsesPermission (infoOfManifest m) = map up_Name (m_UsesPermission m)
  /\ Icon (infoOfManifest m) = None.
Proof.
  unfold infoOfManifest. rewrite appendPermissions_spec.
  repeat split; reflexivity.
Qed.

Lemma getSignature_value w apkPath keyToolPath :
  exists sigs, valueOf (getSignature w apkPath keyToolPath) = Ok sigs.
Proof.
  unfold valueOf, getSignature.
  destruct (String.eqb apkPath "" || String.eqb keyToolPath "").
  - eexists. reflexivity.
  - unfold call. destruct (exec_Run w keyToolPath _); eexists; reflexivity.
Qed.

(** Once the archive is open, its manifest decoded and the package handle
    obtained, the remaining helpers cannot stop the run. *)
Lemma Extraction_intro w name kt file stat files f m pkg :
  os_Open w name = Ok file -> Stat file = Ok stat ->
  filepath.Ext (fi_Name stat) = androidExt ->
  zipNewReader file (fi_Size stat) = Ok files ->
  xmlFile (scanEntries files) = Some f ->
  valueOf (parseAndroidManifest w f) = Ok m ->
  openFile w name = Ok pkg ->
  exists apkMd5 sigs,
    Extraction w name kt file stat files f m apkMd5 sigs pkg.
Proof.
  intros H1 H2 H3 H4 H5 H6 H7.
  destruct (getSignature_value w name kt) as [sigs Hs].
  eexists _, sigs. constructor; try eassumption. reflexivity.
Qed.

Lemma NewAppParser_manifest_fields w name kt isIcon tr tr' info file stat files f m :
  os_Open w name = Ok file -> Stat file = Ok stat ->
  zipNewReader file (fi_Size stat) = Ok files ->
  xmlFile (scanEntries files) = Some f ->
  valueOf (parseAndroidManifest w f) = Ok m ->
  NewAppParser w name kt isIcon tr = (tr', Ok info) ->
  BundleId info = Package m /\ Version info = VersionName m
  /\ Build info = fst (strconv.Atoi (VersionCode m))
  /\ UsesPermission info = map up_Name (m_UsesPermission m).
Proof.
  intros Hopen Hstat Hzip Hxml Hdec H.
  apply NewAppParser_Ok in H
    as (file' & stat' & files' & f' & m' & apkMd5 & sigs & pkg & E & _ & ->).
  destruct E as [Hopen' Hstat' _ Hzip' Hxml' Hdec' _ _ _].
  rewrite Hopen in Hopen'. inversion Hopen'; subst file'.
  rewrite Hstat in Hstat'. inversion Hstat'; subst stat'.
  rewrite Hzip in Hzip'. inversion Hzip'; subst files'.
  rewrite Hxml in Hxml'. inversion Hxml'; subst f'.
  rewrite Hdec in Hdec'. inversion Hdec'; subst m'.
  destruct (assembled_manifest_fields isIcon stat (scanEntries files)
              (infoOfManifest m) (fst apkMd5) sigs (fst (icon pkg cfg720))
              (fst (label pkg None))) as (-> & -> & -> & ->).
  destruct (infoOfManifest_fields m) as (-> & -> & -> & -> & _).
  repeat split; reflexivity.
Qed.

(** ** The extension test *)

Lemma NewAppParser_open_error w name kt isIcon tr e :
  os_Open w name = Err e ->
  NewAppParser w name kt isIcon tr = ((tr ++ [EvOsOpen name])%list, Err e).
Proof.
  intros H. unfold NewAppParser, bind, call. rewrite H. reflexivity.
Qed.

(** C2, as amended.  For every input path that [os.Open] opens and [Stat]
    describes, and whose file name has an extension other than .apk,
    [NewAppParser] fails with the error "unknown platform" right after the
    two calls: the log holds the open, the stat and the deferred close, and
    no call of the archive reader. *)
Theorem C2_wrong_extension :
  forall w name kt isIcon tr file stat,
    os_Open w name = Ok file -> Stat file = Ok stat ->
    filepath.Ext (fi_Name stat) <> androidExt ->
    NewAppParser w name kt isIcon tr
    = ((tr ++ [EvOsOpen name; EvFileStat; EvFileClose])%list,
       Err (errorString "unknown platform"))
    /\ existsb isZipReaderEvent [EvOsOpen name; EvFileStat; EvFileClose] = false.
Proof.
  intros w name kt isIcon tr file stat Hopen Hstat Hext.
  split; [| reflexivity].
  unfold NewAppParser, bind, defer, call. rewrite Hopen, Hstat.
  destruct (String.eqb_spec (filepath.Ext (fi_Name stat)) androidExt) as [E | _];
    [contradiction |].
  simpl. rewrite <- !app_assoc. reflexivity.
Qed.

Lemma C2_wrong_extension_witness :
  NewAppParser Sample.textFile "notes.txt" "keytool" true []
  = ([EvOsOpen "notes.txt"; EvFileStat; EvFileClose],
     Err (errorString "unknown platform")).
Proof.
  refine (proj1 (C2_wrong_extension Sample.textFile "notes.txt" "keytool" true []
                   _ _ eq_refl eq_refl _)).
  vm_compute. discriminate.
Defined.

(** C2 as the specification states it does not hold: a path with another
    extension that cannot be opened fails with the error of [os.Open], not
    with "unknown platform". *)
Lemma C2_counterexample :
  ~ (forall w name kt isIcon,
        filepath.Ext name <> androidExt ->
        snd (NewAppParser w name kt isIcon [])
        = Err (errorString "unknown platform")
        /\ existsb isZipReaderEvent (fst (NewAppParser w name kt isIcon []))
           = false).
Proof.
  intros H.
  destruct (H Sample.nothing "notes.txt" "keytool" false) as [Herr _].
  - vm_compute. discriminate.
  - vm_compute in Herr. discriminate Herr.
Qed.

(** ** The icon flag *)

Lemma assembled_with_icon stat st info0 apkMd5 sigs icon label :
  assembled true stat st info0 apkMd5 sigs icon label
  = set_Icon icon (assembled false stat st info0 apkMd5 sigs icon label).
Proof.
  unfold assembled. destruct (setSupport st info0). reflexivity.
Qed.

(** C3, as amended.  The flag decides only whether the resolved icon is
    stored.  A call with [false] that succeeds returns a record whose Icon is
    nil, but its log holds the icon lookup all the same; the call with [true]
    on the same input does the same work (same log) and returns the same
    record with Icon set to what the lookup at density 720 handed back. *)
Theorem C3_icon_flag :
  forall w name kt tr tr' info,
    NewAppParser w name kt false tr = (tr', Ok info) ->
    Icon info = None
    /\ (exists evs, tr' = (tr ++ evs)%list /\ In (EvIcon 720) evs)
    /\ (exists pkg,
          openFile w name = Ok pkg
          /\ NewAppParser w name kt true tr
             = (tr', Ok (set_Icon (fst (icon pkg cfg720)) info))).
Proof.
  intros w name kt tr tr' info H.
  apply NewAppParser_Ok in H
    as (file & stat & files & f & m & apkMd5 & sigs & pkg & E & -> & ->).
  split; [| split].
  - rewrite assembled_icon. apply infoOfManifest_fields.
  - exists (successEvents w name kt stat f). split; [reflexivity |].
    unfold successEvents. rewrite !in_app_iff. do 4 right.
    simpl. auto.
  - exists pkg. split; [apply E |].
    rewrite (NewAppParser_run _ _ _ _ _ _ _ _ _ _ _ E true tr).
    rewrite assembled_with_icon. reflexivity.
Qed.

Lemma C3_icon_flag_witness :
  let run := NewAppParser Sample.plain "app.apk" "keytool" false [] in
  Icon (returned run) = None
  /\ In (EvIcon 720) (fst run)
  /\ snd (NewAppParser Sample.plain "app.apk" "keytool" true [])
     = Ok (set_Icon (Some (decodedImage "icon.png")) (returned run)).
Proof.
  intros run.
  destruct (C3_icon_flag Sample.plain "app.apk" "keytool" [] (fst run)
              (returned run) eq_refl) as (Hnil & _ & _).
  split; [exact Hnil |]. split; [vm_compute; tauto | reflexivity].
Defined.

(** C3 as the specification states it does not hold: a call with the flag
    off still performs the icon lookup. *)
Lemma C3_counterexample :
  ~ (forall w name kt,
        existsb isIconEvent (fst (NewAppParser w name kt false [])) = false
        /\ Icon (returned (NewAppParser w name kt false [])) = None).
Proof.
  intros H.
  destruct (H Sample.plain "app.apk" "keytool") as [Hwork _].
  vm_compute in Hwork. discriminate Hwork.
Qed.

(** ** Lookups that fail *)

(** C4, as amended.  A failing icon or label lookup never makes the
    extraction fail: for every archive that is opened, whose manifest decodes
    and whose package handle is obtained, [NewAppParser] returns a record and
    no error, whatever the two lookups hand back.  The errors are dropped and
    the values kept: Name is the string that the label lookup returned next
    to its error, and Icon, when it is asked for, the image that the icon
    lookup returned next to its error; the field is empty when that value is
    the zero value. *)
Theorem C4_lookup_failures_tolerated :
  forall w name kt isIcon tr file stat files f m pkg,
    os_Open w name = Ok file -> Stat file = Ok stat ->
    filepath.Ext (fi_Name stat) = androidExt ->
    zipNewReader file (fi_Size stat) = Ok files ->
    xmlFile (scanEntries files) = Some f ->
    valueOf (parseAndroidManifest w f) = Ok m ->
    openFile w name = Ok pkg ->
    exists tr' info,
      NewAppParser w name kt isIcon tr = (tr', Ok info)
      /\ Name info = fst (label pkg None)
      /\ Icon info = (if isIcon then fst (icon pkg cfg720) else None)
      /\ (failedWith None (icon pkg cfg720) -> Icon info = None)
      /\ (failedWith "" (label pkg None) -> Name info = "").
Proof.
  intros w name kt isIcon tr file stat files f m pkg H1 H2 H3 H4 H5 H6 H7.
  destruct (Extraction_intro w name kt _ _ _ _ _ _ H1 H2 H3 H4 H5 H6 H7)
    as (apkMd5 & sigs & E).
  eexists _, _. split; [apply (NewAppParser_run _ _ _ _ _ _ _ _ _ _ _ E) |].
  rewrite assembled_name, assembled_icon.
  assert (Hnil : Icon (infoOfManifest m) = None) by apply infoOfManifest_fields.
  rewrite Hnil.
  split; [reflexivity |]. split; [destruct isIcon; reflexivity |]. split.
  - intros [e He]. rewrite He. destruct isIcon; reflexivity.
  - intros [e He]. rewrite He. reflexivity.
Qed.

Lemma C4_lookup_failures_tolerated_witness :
  exists tr' info,
    NewAppParser Revised.unresolved "app.apk" "keytool" true [] = (tr', Ok info)
    /\ Name info = "@0x7F0B0012" /\ Icon info = None.
Proof.
  destruct (C4_lookup_failures_tolerated Revised.unresolved "app.apk" "keytool"
              true [] _ _ _ _ _ _
              eq_refl eq_refl eq_refl eq_refl eq_refl eq_refl eq_refl)
    as (tr' & info & Hrun & Hname & Hicon & _).
  exists tr', info. split; [exact Hrun |]. split; [exact Hname | exact Hicon].
Defined.

(** C4 as the specification states it does not hold: the run succeeds, but
    a label lookup that fails with a non-empty string next to its error
    leaves that string in Name. *)
Lemma C4_counterexample :
  ~ (forall w name kt isIcon tr tr' info pkg,
        openFile w name = Ok pkg ->
        NewAppParser w name kt isIcon tr = (tr', Ok info) ->
        snd (label pkg None) <> None ->
        Name info = "").
Proof.
  intros H.
  pose (run := NewAppParser Revised.unresolved "app.apk" "keytool" true []).
  assert (Hname : Name (returned run) = "").
  { apply (H Revised.unresolved "app.apk" "keytool" true [] (fst run)
             (returned run) Revised.unresolvedPkg); try reflexivity.
    simpl. discriminate. }
  vm_compute in Hname. discriminate Hname.
Qed.

(** ** Identity, version and permissions *)

(** C5. For every manifest whose root attributes are
    package="com.example.app", versionName="1.2.3" and versionCode="45", the
    record has BundleId "com.example.app", Version "1.2.3" and Build 45, both
    as [parseApkFile] builds it and as [NewAppParser] returns it; the fields
    come from the decoded manifest alone, and the log of [parseApkFile] holds
    no resource lookup. *)
Theorem C5_identity_and_version :
  forall w f m,
    valueOf (parseAndroidManifest w f) = Ok m ->
    Package m = "com.example.app" -> VersionName m = "1.2.3" ->
    VersionCode m = "45" ->
    (forall tr, exists info,
        parseApkFile w (Some f) tr = ((tr ++ manifestEvents f)%list, Ok info)
        /\ BundleId info = "com.example.app" /\ Version info = "1.2.3"
        /\ Build info = 45
        /\ existsb resourceEvent (manifestEvents f) = false)
    /\ (forall name kt isIcon tr tr' info file stat files,
          os_Open w name = Ok file -> Stat file = Ok stat ->
          zipNewReader file (fi_Size stat) = Ok files ->
          xmlFile (scanEntries files) = Some f ->
          NewAppParser w name kt isIcon tr = (tr', Ok info) ->
          BundleId info = "com.example.app" /\ Version info = "1.2.3"
          /\ Build info = 45).
Proof.
  intros w f m Hdec Hp Hn Hc. split.
  - intros tr. exists (infoOfManifest m).
    split; [apply parseApkFile_run; exact Hdec |].
    destruct (infoOfManifest_fields m) as (-> & -> & -> & _).
    rewrite Hp, Hn, Hc. repeat split; reflexivity.
  - intros name kt isIcon tr tr' info file stat files Hopen Hstat Hzip Hxml H.
    destruct (NewAppParser_manifest_fields _ _ _ _ _ _ _ _ _ _ _ _
                Hopen Hstat Hzip Hxml Hdec H) as (-> & -> & -> & _).
    rewrite Hp, Hn, Hc. repeat split; reflexivity.
Qed.

Lemma C5_identity_and_version_witness :
  let run := NewAppParser Sample.plain "app.apk" "keytool" false [] in
  BundleId (returned run) = "com.example.app"
  /\ Version (returned run) = "1.2.3" /\ Build (returned run) = 45.
Proof.
  intros run.
  exact (proj2 (C5_identity_and_version Sample.plain
                  (Sample.entry "AndroidManifest.xml") Sample.manifest
                  eq_refl eq_refl eq_refl eq_refl)
               "app.apk" "keytool" false [] (fst run) (returned run)
               _ _ _ eq_refl eq_refl eq_refl eq_refl eq_refl).
Defined.

(** C6. For every manifest, the UsesPermission list of the record holds the
    name attribute of every uses-permission element, in the order of the
    declarations and with its duplicates: it is the list of the names.  Two
    elements named "android.permission.CAMERA" and
    "android.permission.INTERNET" give exactly these two strings in this
    order. *)
Theorem C6_permissions_in_order :
  forall w f m,
    valueOf (parseAndroidManifest w f) = Ok m ->
    (forall tr, exists info,
        parseApkFile w (Some f) tr = ((tr ++ manifestEvents f)%list, Ok info)
        /\ UsesPermission info = map up_Name (m_UsesPermission m))
    /\ (forall name kt isIcon tr tr' info file stat files,
          os_Open w name = Ok file -> Stat file = Ok stat ->
          zipNewReader file (fi_Size stat) = Ok files ->
          xmlFile (scanEntries files) = Some f ->
          NewAppParser w name kt isIcon tr = (tr', Ok info) ->
          UsesPermission info = map up_Name (m_UsesPermission m)
          /\ (forall text1 text2,
                m_UsesPermission m
                = [mkUsesPermission text1 "android.permission.CAMERA";
                   mkUsesPermission text2 "android.permission.INTERNET"] ->
                UsesPermission info
                = ["android.permission.CAMERA"; "android.permission.INTERNET"])).
Proof.
  intros w f m Hdec. split.
  - intros tr. exists (infoOfManifest m).
    split; [apply parseApkFile_run; exact Hdec | apply infoOfManifest_fields].
  - intros name kt isIcon tr tr' info file stat files Hopen Hstat Hzip Hxml H.
    destruct (NewAppParser_manifest_fields _ _ _ _ _ _ _ _ _ _ _ _
                Hopen Hstat Hzip Hxml Hdec H) as (_ & _ & _ & ->).
    split; [reflexivity |]. intros text1 text2 ->. reflexivity.
Qed.

Lemma C6_permissions_in_order_witness :
  let run := NewAppParser Sample.plain "app.apk" "keytool" false [] in
  UsesPermission (returned run)
  = ["android.permission.CAMERA"; "android.permission.INTERNET"].
Proof.
  intros run.
  exact (proj2 (proj2 (C6_permissions_in_order Sample.plain
                  (Sample.entry "AndroidManifest.xml") Sample.manifest eq_refl)
               "app.apk" "keytool" false [] (fst run) (returned run)
               _ _ _ eq_refl eq_refl eq_refl eq_refl eq_refl)
           "" "" eq_refl).
Defined.

(** ** Signature digests *)



(** Replacing a one-byte string by nothing removes that byte everywhere. *)

Lemma substring_all (s : string) : String.substring 0 (String.length s) s = s.
Proof. induction s as [| a s IH]; simpl; [reflexivity | rewrite IH; reflexivity]. Qed.

Lemma from_cons (i : nat) (a : ascii) (s : string) :
  strings.from (S i) (String a s) = strings.from i s.
Proof. reflexivity. Qed.

Lemma from_length (i : nat) (s : string) :
  (String.length (strings.from i s) <= String.length s - i)%nat.
Proof.
  unfold strings.from. revert i.
  induction s as [| a s IH]; intros i; simpl.
  - destruct i; simpl; lia.
  - destruct i; simpl.
    + rewrite substring_all. lia.
    + apply IH.
Qed.

Lemma Index_single (c : ascii) (s : string) :
  match strings.Index s (String c "") with
  | None => removeByte c s = s
  | Some i =>
      (String.substring 0 i s ++ removeByte c (strings.from (i + 1) s))%string
      = removeByte c s
      /\ (i < String.length s)%nat
  end.
Proof.
  induction s as [| a s IH]; simpl; [reflexivity |].
  destruct (Ascii.ascii_dec c a) as [<- | Hne].
  - destruct s; simpl; rewrite Ascii.eqb_refl;
      (split; [| lia]); unfold strings.from; simpl;
      rewrite ?substring_all; reflexivity.
  - assert (Ha : Ascii.eqb a c = false)
      by (apply Ascii.eqb_neq; intros ->; apply Hne; reflexivity).
    rewrite Ha. destruct (strings.Index s (String c "")) as [i |]; simpl.
    + destruct IH as [IH Hi]. split; [| lia].
      rewrite from_cons. rewrite IH. reflexivity.
    + rewrite IH. reflexivity.
Qed.

Lemma replaceLoop_single (c : ascii) :
  forall fuel s,
    (String.length s <= fuel)%nat ->
    strings.replaceLoop fuel s (String c "") "" = removeByte c s.
Proof.
  induction fuel as [| fuel IH]; intros s Hlen; simpl.
  - destruct s; [reflexivity | simpl in Hlen; lia].
  - pose proof (Index_single c s) as HI.
    destruct (strings.Index s (String c "")) as [i |].
    + destruct HI as [HI Hi]. simpl. rewrite IH; [exact HI |].
      pose proof (from_length (i + 1) s). lia.
    + symmetry. exact HI.
Qed.

Lemma ReplaceAll_single (c : ascii) (s : string) :
  strings.ReplaceAll s (String c "") "" = removeByte c s.
Proof. apply replaceLoop_single. lia. Qed.

Lemma normalizeDigest_spec (s : string) :
  normalizeDigest s = strings.ToLower (removeByte ":" (removeByte " " s)).
Proof.
  unfold normalizeDigest.
  rewrite (ReplaceAll_single " " s), (ReplaceAll_single ":"). reflexivity.
Qed.

Example digests_of_keytool_output :
  digestsOfOutput "Certificate fingerprints:
	 MD5:  AB:CD:EF:01
	 SHA1: 0A:1B
	 SHA256: FF:EE
Signature algorithm name: SHA256withRSA"
  = ("abcdef01", "0a1b", "ffee").
Proof. reflexivity. Qed.

(** ** strconv.Atoi: which strings give which errors *)

Lemma byteVal_range (c : ascii) : 0 <= strconv.byteVal c < 256.
Proof.
  unfold strconv.byteVal. pose proof (N_ascii_bounded c). lia.
Qed.

Lemma fast_digit_test (c : ascii) :
  (9 <? (strconv.byteVal c - 48) mod 256) = negb (isDigit c).
Proof.
  unfold isDigit. pose proof (byteVal_range c) as Hb.
  destruct (Z.leb_spec 48 (strconv.byteVal c)) as [Hlo | Hlo]; simpl.
  - rewrite Z.mod_small by lia.
    destruct (Z.leb_spec (strconv.byteVal c) 57), (Z.ltb_spec 9 (strconv.byteVal c - 48));
      simpl; try reflexivity; lia.
  - replace ((strconv.byteVal c - 48) mod 256) with (strconv.byteVal c - 48 + 256).
    + destruct (Z.ltb_spec 9 (strconv.byteVal c - 48 + 256)); [reflexivity | lia].
    + symmetry. rewrite <- (Z_mod_plus_full (strconv.byteVal c - 48) 1 256).
      apply Z.mod_small. lia.
Qed.

Lemma parseUintLoop_cases (s : string) :
  forall n,
    (exists v, strconv.parseUintLoop s n = (v, None) /\ allDigits s = true)
    \/ strconv.parseUintLoop s n = (0, Some ErrSyntax)
    \/ strconv.parseUintLoop s n = (strconv.maxUint64, Some ErrRange).
Proof.
  induction s as [| c s IH]; intros n; simpl.
  - left. exists n. split; reflexivity.
  - fold (isDigit c). destruct (isDigit c); simpl; [| right; left; reflexivity].
    destruct (_ <=? n); [right; right; reflexivity |].
    destruct (_ || _); [right; right; reflexivity |].
    apply IH.
Qed.

Lemma fastLoop_cases (s : string) :
  forall n,
    (exists v, strconv.fastLoop s n = (v, None) /\ allDigits s = true)
    \/ strconv.fastLoop s n = (0, Some ErrSyntax).
Proof.
  induction s as [| c s IH]; intros n; simpl.
  - left. exists n. split; reflexivity.
  - rewrite fast_digit_test. destruct (isDigit c); simpl; [apply IH | right; reflexivity].
Qed.

Lemma ParseInt_cases (s : string) :
  (exists v, strconv.ParseInt s = (v, None) /\ isDecimalInteger s = true)
  \/ strconv.ParseInt s = (0, Some ErrSyntax)
  \/ (exists v, strconv.ParseInt s = (v, Some ErrRange)).
Proof.
  destruct s as [| c rest]; [right; left; reflexivity |].
  unfold strconv.ParseInt, isDecimalInteger.
  set (body := if strconv.isSign c then rest else String c rest).
  unfold strconv.ParseUint.
  destruct body as [| b body'] eqn:Eb; [right; left; reflexivity |].
  destruct (parseUintLoop_cases (String b body') 0)
    as [(v & -> & Hd) | [-> | ->]].
  - destruct (negb _ && _); [right; right; eexists; reflexivity |].
    destruct (_ && _); [right; right; eexists; reflexivity |].
    left. eexists. split; [reflexivity | exact Hd].
  - right; left; reflexivity.
  - right; right. destruct (Ascii.eqb c "-"); eexists; reflexivity.
Qed.

Lemma Atoi_cases (s : string) :
  (exists v, strconv.Atoi s = (v, None) /\ isDecimalInteger s = true)
  \/ strconv.Atoi s = (0, Some ErrSyntax)
  \/ (exists v, strconv.Atoi s = (v, Some ErrRange)
                /\ (19 <= String.length s)%nat).
Proof.
  unfold strconv.Atoi.
  destruct ((0 <? String.length s)%nat && (String.length s <? 19)%nat) eqn:Efast.
  - destruct s as [| c rest]; [right; left; reflexivity |].
    unfold isDecimalInteger.
    set (body := if strconv.isSign c then rest else String c rest).
    destruct body as [| b body'] eqn:Eb; [right; left; reflexivity |].
    destruct (fastLoop_cases (String b body') 0) as [(v & -> & Hd) | ->].
    + left. eexists. split; [reflexivity | exact Hd].
    + right; left; reflexivity.
  - destruct (ParseInt_cases s) as [H | [H | [v H]]]; [left; exact H | right; left; exact H |].
    right; right. exists v. split; [exact H |].
    apply andb_false_iff in Efast as [E | E].
    + apply Nat.ltb_ge in E. destruct s; [discriminate H | simpl in E; lia].
    + apply Nat.ltb_ge in E. exact E.
Qed.

(** A string that is no decimal integer converts to 0 unless the conversion
    reports a range error. *)
Lemma Atoi_not_decimal (s : string) :
  isDecimalInteger s = false ->
  snd (strconv.Atoi s) <> Some ErrRange ->
  strconv.Atoi s = (0, Some ErrSyntax).
Proof.
  intros Hnd Hnr.
  destruct (Atoi_cases s) as [(v & _ & Hd) | [H | (v & H & _)]].
  - rewrite Hd in Hnd. discriminate Hnd.
  - exact H.
  - rewrite H in Hnr. contradiction Hnr. reflexivity.
Qed.

Lemma Atoi_short (s : string) :
  (String.length s < 19)%nat -> snd (strconv.Atoi s) <> Some ErrRange.
Proof.
  intros Hlen. destruct (Atoi_cases s) as [(v & -> & _) | [-> | (v & _ & H)]];
    simpl; try discriminate. lia.
Qed.

(** ** The version code *)

(** C10, as amended.  Whatever the versionCode attribute holds,
    [parseApkFile] succeeds and Build is the value that [strconv.Atoi] hands
    back next to the error that is dropped.  Build is 0 when the attribute is
    absent, and when it is no decimal integer string and [Atoi] reports no
    range error, which is so for every such string shorter than 19 bytes. *)
Theorem C10_version_code_fallback :
  forall w f m tr,
    valueOf (parseAndroidManifest w f) = Ok m ->
    exists info,
      parseApkFile w (Some f) tr = ((tr ++ manifestEvents f)%list, Ok info)
      /\ Build info = fst (strconv.Atoi (VersionCode m))
      /\ (VersionCode m = "" -> Build info = 0)
      /\ (isDecimalInteger (VersionCode m) = false ->
          snd (strconv.Atoi (VersionCode m)) <> Some ErrRange ->
          Build info = 0)
      /\ (isDecimalInteger (VersionCode m) = false ->
          (String.length (VersionCode m) < 19)%nat ->
          Build info = 0).
Proof.
  intros w f m tr Hdec. exists (infoOfManifest m).
  split; [apply parseApkFile_run; exact Hdec |].
  destruct (infoOfManifest_fields m) as (_ & _ & -> & _).
  split; [reflexivity |]. split; [| split].
  - intros ->. reflexivity.
  - intros Hnd Hnr. rewrite (Atoi_not_decimal _ Hnd Hnr). reflexivity.
  - intros Hnd Hlen.
    rewrite (Atoi_not_decimal _ Hnd (Atoi_short _ Hlen)). reflexivity.
Qed.

Lemma C10_version_code_fallback_witness :
  exists info,
    parseApkFile Sample.oddVersion (Some (Sample.entry "AndroidManifest.xml")) []
    = (manifestEvents (Sample.entry "AndroidManifest.xml"), Ok info)
    /\ Build info = 0.
Proof.
  destruct (C10_version_code_fallback Sample.oddVersion
              (Sample.entry "AndroidManifest.xml") (Sample.withVersionCode "4x")
              [] eq_refl) as (info & Hrun & _ & _ & _ & Hshort).
  exists info. split; [exact Hrun |].
  apply Hshort; [reflexivity | simpl; lia].
Defined.

(** C10 as the specification states it does not hold: a long run of digits
    followed by a letter is no decimal integer string, yet [Atoi] reports a
    range error for it and hands back the largest int, which becomes
    Build. *)
Lemma C10_counterexample :
  ~ (forall w f m tr,
        valueOf (parseAndroidManifest w f) = Ok m ->
        isDecimalInteger (VersionCode m) = false ->
        exists t info,
          parseApkFile w (Some f) tr = (t, Ok info) /\ Build info = 0).
Proof.
  intros H.
  destruct (H Sample.longVersion (Sample.entry "AndroidManifest.xml")
              (Sample.withVersionCode "99999999999999999999x") []
              eq_refl eq_refl) as (t & info & Hrun & Hbuild).
  vm_compute in Hrun. inversion Hrun; subst info.
  vm_compute in Hbuild. discriminate Hbuild.
Qed.

Example parseApkFile_long_version_code :
  Build (returned (parseApkFile Sample.longVersion
                     (Some (Sample.entry "AndroidManifest.xml")) []))
  = 9223372036854775807.
Proof. reflexivity. Qed.

(** ** The resolver: bounded indirection *)

Lemma Resolver_run_more t cfg :
  forall rounds c o,
    Resolver.run rounds t cfg c = Some o ->
    forall rounds', (rounds <= rounds')%nat -> Resolver.run rounds' t cfg c = Some o.
Proof.
  induction rounds as [| rounds IH]; intros c o H rounds' Hle; [discriminate H |].
  destruct rounds' as [| rounds']; [lia |]. simpl in *.
  destruct (Resolver.step t cfg c) as [c' | o']; [| exact H].
  apply (IH c' o H). lia.
Qed.

Lemma Resolver_run_total t cfg :
  forall rounds c,
    (Resolver.depth c <= Resolver.maxDepth)%nat ->
    (S Resolver.maxDepth - Resolver.depth c <= rounds)%nat ->
    exists o, Resolver.run rounds t cfg c = Some o.
Proof.
  induction rounds as [| rounds IH]; intros c Hd Hr; [lia |].
  cbn [Resolver.run]. unfold Resolver.step.
  destruct (Resolver.bestMatch cfg _) as [[text | target] |];
    try (eexists; reflexivity).
  destruct (Nat.leb_spec Resolver.maxDepth (Resolver.depth c)) as [Hge | Hlt];
    [eexists; reflexivity |].
  apply IH; cbn [Resolver.depth]; lia.
Qed.

Lemma Resolver_run_chain t cfg :
  forall rounds c,
    (Resolver.depth c <= Resolver.maxDepth)%nat ->
    (S Resolver.maxDepth - Resolver.depth c <= rounds)%nat ->
    Resolver.chain (S Resolver.maxDepth - Resolver.depth c) t cfg (Resolver.at_id c)
    = true ->
    Resolver.run rounds t cfg c = Some (Resolver.Failed Resolver.ResourceCycle).
Proof.
  induction rounds as [| rounds IH]; intros c Hd Hr Hc; [lia |].
  cbn [Resolver.run].
  replace (S Resolver.maxDepth - Resolver.depth c)%nat
    with (S (Resolver.maxDepth - Resolver.depth c)) in Hc by lia.
  cbn [Resolver.chain] in Hc. unfold Resolver.next in Hc. unfold Resolver.step.
  destruct (Resolver.bestMatch cfg _) as [[text | target] |];
    try discriminate Hc.
  destruct (Nat.leb_spec Resolver.maxDepth (Resolver.depth c)) as [Hge | Hlt];
    [reflexivity |].
  apply IH; cbn [Resolver.depth Resolver.at_id]; try lia.
  replace (S Resolver.maxDepth - S (Resolver.depth c))%nat
    with (Resolver.maxDepth - Resolver.depth c)%nat by lia.
  exact Hc.
Qed.

Lemma Resolver_self_chain t cfg id :
  Resolver.next t cfg id = Some id -> forall n, Resolver.chain n t cfg id = true.
Proof.
  intros H n. induction n as [| n IH]; simpl; [reflexivity |].
  rewrite H. exact IH.
Qed.

(** C8. For every resource table, resource id and requested configuration,
    following references is bounded by the fixed maximum depth (10): the loop
    of the resolver reaches an outcome within maxDepth + 1 rounds, the same
    whatever larger number of rounds it is allowed, so it never runs for
    ever; and when more references follow one another from the id than the
    bound allows, as they do from an entry that refers to itself, that
    outcome is the resource-cycle error. *)
Theorem C8_bounded_indirection :
  forall t id cfg,
    (exists o, forall rounds,
        (Resolver.maxDepth < rounds)%nat ->
        Resolver.resolve rounds t id cfg = Some o)
    /\ (Resolver.chain (S Resolver.maxDepth) t cfg id = true ->
        forall rounds,
          (Resolver.maxDepth < rounds)%nat ->
          Resolver.resolve rounds t id cfg
          = Some (Resolver.Failed Resolver.ResourceCycle))
    /\ (Resolver.next t cfg id = Some id ->
        forall rounds,
          (Resolver.maxDepth < rounds)%nat ->
          Resolver.resolve rounds t id cfg
          = Some (Resolver.Failed Resolver.ResourceCycle)).
Proof.
  intros t id cfg. unfold Resolver.resolve.
  assert (Hchain : Resolver.chain (S Resolver.maxDepth) t cfg id = true ->
                   forall rounds, (Resolver.maxDepth < rounds)%nat ->
                   Resolver.run rounds t cfg (Resolver.mkCursor id 0)
                   = Some (Resolver.Failed Resolver.ResourceCycle)).
  { intros Hc rounds Hr.
    apply Resolver_run_chain; cbn [Resolver.depth Resolver.at_id]; try lia.
    rewrite Nat.sub_0_r. exact Hc. }
  split; [| split].
  - destruct (Resolver_run_total t cfg (S Resolver.maxDepth) (Resolver.mkCursor id 0))
      as [o Ho]; cbn [Resolver.depth]; try lia.
    exists o. intros rounds Hr.
    apply (Resolver_run_more t cfg _ _ _ Ho). lia.
  - exact Hchain.
  - intros Hself. apply Hchain. apply Resolver_self_chain. exact Hself.
Qed.

Lemma C8_bounded_indirection_witness :
  Resolver.resolve 11 Resolver.selfReferencing 2130837504
    (Resolver.mkConfiguration (Some 720))
  = Some (Resolver.Failed Resolver.ResourceCycle).
Proof.
  refine (proj2 (proj2 (C8_bounded_indirection Resolver.selfReferencing
                          2130837504 (Resolver.mkConfiguration (Some 720))))
                eq_refl 11%nat _).
  unfold Resolver.maxDepth. lia.
Defined.

Example resolve_two_step :
  Resolver.resolve 11 Resolver.twoStep 2130837504
    (Resolver.mkConfiguration (Some 720))
  = Some (Resolver.Resolved "launcher.png").
Proof. reflexivity. Qed.

(** * Further properties of parser.go *)

(** ** Which entry is the manifest *)

Lemma find_append {A} (p : A -> bool) (l1 l2 : list A) :
  find p (l1 ++ l2)
  = match find p l1 with Some x => Some x | None => find p l2 end.
Proof.
  induction l1 as [| a l1 IH]; simpl; [reflexivity |].
  destruct (p a); [reflexivity | exact IH].
Qed.

Lemma find_nowhere {A} (p : A -> bool) (l : list A) :
  (forall x, In x l -> p x = false) -> find p l = None.
Proof.
  induction l as [| a l IH]; intros H; simpl; [reflexivity |].
  rewrite (H a (or_introl eq_refl)). apply IH.
  intros x Hx. apply H. right. exact Hx.
Qed.

Lemma scan_xmlFile (files : list zipFile) :
  forall st,
    xmlFile (fold_left scanStep files st)
    = match find (fun f => isManifestName (zf_Name f)) (rev files) with
      | Some f => Some f
      | None => xmlFile st
      end.
Proof.
  induction files as [| f files IH]; intros st; simpl; [reflexivity |].
  rewrite IH. rewrite find_append.
  destruct (find _ (rev files)) as [g |]; [reflexivity |].
  simpl. unfold isManifestName, manifestName.
  destruct (String.eqb (zf_Name f) "AndroidManifest.xml"); reflexivity.
Qed.

Lemma scanEntries_xmlFile (files : list zipFile) :
  xmlFile (scanEntries files)
  = find (fun f => isManifestName (zf_Name f)) (rev files).
Proof.
  unfold scanEntries. rewrite scan_xmlFile.
  destruct (find _ (rev files)); reflexivity.
Qed.

Lemma scanEntries_no_manifest (files : list zipFile) :
  existsb isManifestName (map zf_Name files) = false ->
  xmlFile (scanEntries files) = None.
Proof.
  intros H. rewrite scanEntries_xmlFile.
  apply find_nowhere. intros f Hin. apply in_rev in Hin.
  destruct (isManifestName (zf_Name f)) eqn:E; [| reflexivity].
  assert (Hex : existsb isManifestName (map zf_Name files) = true).
  { apply existsb_exists. exists (zf_Name f). split; [| exact E].
    apply in_map. exact Hin. }
  rewrite Hex in H. discriminate H.
Qed.

Lemma scanEntries_last_manifest (pre post : list zipFile) (f : zipFile) :
  zf_Name f = manifestName ->
  existsb isManifestName (map zf_Name post) = false ->
  xmlFile (scanEntries (pre ++ f :: post)) = Some f.
Proof.
  intros Hf Hpost. rewrite scanEntries_xmlFile.
  rewrite rev_app_distr. simpl. rewrite <- app_assoc. rewrite find_append.
  replace (find (fun g => isManifestName (zf_Name g)) (rev post)) with (@None zipFile).
  - simpl. unfold isManifestName. rewrite Hf, String.eqb_refl. reflexivity.
  - symmetry. apply find_nowhere. intros g Hin. apply in_rev in Hin.
    destruct (isManifestName (zf_Name g)) eqn:E; [| reflexivity].
    assert (Hex : existsb isManifestName (map zf_Name post) = true).
    { apply existsb_exists. exists (zf_Name g). split; [| exact E].
      apply in_map. exact Hin. }
    rewrite Hex in Hpost. discriminate Hpost.
Qed.

(** X1. An archive without an entry named AndroidManifest.xml: the run
    opens the archive reader, finds no manifest and fails with
    "AndroidManifest.xml not found"; the file is closed and nothing else is
    attempted (no checksum, no certificate tool, no resource lookup). *)
Theorem NewAppParser_missing_manifest :
  forall w name kt isIcon tr file stat files,
    os_Open w name = Ok file -> Stat file = Ok stat ->
    filepath.Ext (fi_Name stat) = androidExt ->
    zipNewReader file (fi_Size stat) = Ok files ->
    existsb isManifestName (map zf_Name files) = false ->
    NewAppParser w name kt isIcon tr
    = ((tr ++ openingEvents name stat ++ [EvFileClose])%list,
       Err (errorString "AndroidManifest.xml not found")).
Proof.
  intros w name kt isIcon tr file stat files Hopen Hstat Hext Hzip Hno.
  unfold NewAppParser.
  erewrite bind_run by (unfold call; rewrite Hopen; reflexivity).
  erewrite defer_run.
  2:{ erewrite bind_run by (unfold call; rewrite Hstat; reflexivity).
      rewrite Hext, String.eqb_refl. change (negb true) with false. cbv iota.
      erewrite bind_run by (unfold call; rewrite Hzip; reflexivity).
      rewrite (scanEntries_no_manifest files Hno).
      unfold bind, parseApkFile, fail. reflexivity. }
  unfold openingEvents. rewrite <- !app_assoc. reflexivity.
Qed.

Lemma NewAppParser_missing_manifest_witness :
  NewAppParser Cases.noManifest "app.apk" "keytool" true []
  = ([EvOsOpen "app.apk"; EvFileStat; EvZipNewReader 1024; EvFileClose],
     Err (errorString "AndroidManifest.xml not found")).
Proof.
  exact (NewAppParser_missing_manifest Cases.noManifest "app.apk" "keytool" true []
           _ _ _ eq_refl eq_refl eq_refl eq_refl eq_refl).
Defined.

(** X2. When several entries are named AndroidManifest.xml, the record is
    built from the last of them in the order of the archive reader. *)
Theorem NewAppParser_last_manifest_wins :
  forall w name kt isIcon tr tr' info file stat pre f post m,
    os_Open w name = Ok file -> Stat file = Ok stat ->
    zipNewReader file (fi_Size stat) = Ok (pre ++ f :: post)%list ->
    zf_Name f = manifestName ->
    existsb isManifestName (map zf_Name post) = false ->
    valueOf (parseAndroidManifest w f) = Ok m ->
    NewAppParser w name kt isIcon tr = (tr', Ok info) ->
    BundleId info = Package m /\ Version info = VersionName m
    /\ Build info = fst (strconv.Atoi (VersionCode m))
    /\ UsesPermission info = map up_Name (m_UsesPermission m).
Proof.
  intros w name kt isIcon tr tr' info file stat pre f post m
         Hopen Hstat Hzip Hf Hpost Hdec H.
  apply (NewAppParser_manifest_fields w name kt isIcon tr tr' info file stat
           (pre ++ f :: post)%list f m); try assumption.
  apply scanEntries_last_manifest; assumption.
Qed.

Lemma NewAppParser_last_manifest_wins_witness :
  let run := NewAppParser Cases.twoManifests "twice.apk" "" false [] in
  BundleId (returned run) = "com.second".
Proof.
  intros run.
  exact (proj1 (NewAppParser_last_manifest_wins Cases.twoManifests "twice.apk" ""
                  false [] (fst run) (returned run) _ _
                  [Cases.firstManifest; Sample.entry "classes.dex"]
                  Cases.secondManifest [] (mkManifest "com.second" "1.0" "7" [] [])
                  eq_refl eq_refl eq_refl eq_refl eq_refl eq_refl eq_refl)).
Defined.

(** ** More on the architecture flags *)

Lemma existsb_Permutation {A} (p : A -> bool) (l l' : list A) :
  Permutation l l' -> existsb p l = existsb p l'.
Proof.
  induction 1 as [| x l l' _ IH | x y l | l l' l'' _ IH1 _ IH2]; simpl.
  - reflexivity.
  - rewrite IH. reflexivity.
  - destruct (p x), (p y); reflexivity.
  - rewrite IH1. exact IH2.
Qed.

(** X3. The two architecture flags do not depend on the order in which the
    archive reader lists the entries (unlike the choice of the manifest). *)
Theorem support_flags_order_independent :
  forall files files' info,
    Permutation files files' ->
    SupportOS64 (setSupport (scanEntries files) info)
    = SupportOS64 (setSupport (scanEntries files') info)
    /\ SupportOS32 (setSupport (scanEntries files) info)
       = SupportOS32 (setSupport (scanEntries files') info).
Proof.
  intros files files' info Hperm.
  destruct (setSupport_flags (scanEntries files) info) as [-> ->].
  destruct (setSupport_flags (scanEntries files') info) as [-> ->].
  destruct (scanEntries_flags files) as (-> & -> & ->).
  destruct (scanEntries_flags files') as (-> & -> & ->).
  assert (Hn : Permutation (map zf_Name files) (map zf_Name files'))
    by (apply Permutation_map; exact Hperm).
  rewrite (existsb_Permutation isSoFile _ _ Hn),
          (existsb_Permutation underArm64 _ _ Hn),
          (existsb_Permutation underArmeabi _ _ Hn).
  split; reflexivity.
Qed.

Lemma support_flags_order_independent_witness :
  let a := Sample.entry "lib/arm64-v8a/libx.so" in
  let b := Sample.entry "AndroidManifest.xml" in
  SupportOS64 (setSupport (scanEntries [a; b]) newAppInfo)
  = SupportOS64 (setSupport (scanEntries [b; a]) newAppInfo).
Proof.
  intros a b.
  exact (proj1 (support_flags_order_independent [a; b] [b; a] newAppInfo
                  (perm_swap b a []))).
Defined.

(** X4. The returned record has both flags off exactly when the archive
    holds some .so entry and no entry under lib/arm64-v8a or lib/armeabi;
    in every other archive at least one flag is on. *)
Theorem NewAppParser_no_supported_abi_iff :
  forall w name kt isIcon tr tr' info file stat files,
    os_Open w name = Ok file -> Stat file = Ok stat ->
    zipNewReader file (fi_Size stat) = Ok files ->
    NewAppParser w name kt isIcon tr = (tr', Ok info) ->
    (SupportOS64 info = false /\ SupportOS32 info = false)
    <-> (existsb isSoFile (map zf_Name files) = true
         /\ existsb underArm64 (map zf_Name files) = false
         /\ existsb underArmeabi (map zf_Name files) = false).
Proof.
  intros w name kt isIcon tr tr' info file stat files Hopen Hstat Hzip H.
  destruct (NewAppParser_support _ _ _ _ _ _ _ _ _ _ Hopen Hstat Hzip H)
    as [-> ->].
  rewrite existsb_native.
  destruct (existsb isSoFile _), (existsb underArm64 _), (existsb underArmeabi _);
    simpl; split;
    try (intros [H0 H1]; discriminate);
    try (intros (H0 & H1 & H2); discriminate);
    intros _; repeat split; reflexivity.
Qed.

Lemma NewAppParser_no_supported_abi_iff_witness :
  let run := NewAppParser Sample.x86 "app.apk" "keytool" true [] in
  SupportOS64 (returned run) = false /\ SupportOS32 (returned run) = false.
Proof.
  intros run.
  apply (proj2 (NewAppParser_no_supported_abi_iff Sample.x86 "app.apk" "keytool"
                  true [] (fst run) (returned run) _ _ _
                  eq_refl eq_refl eq_refl eq_refl)).
  repeat split; reflexivity.
Defined.

Lemma prefix_of_prefix (p q : string) :
  forall s, String.prefix (p ++ q) s = true -> String.prefix p s = true.
Proof.
  induction p as [| a p IH]; intros s H.
  - destruct s; reflexivity.
  - destruct s as [| b s]; simpl in *; [discriminate H |].
    destruct (Ascii.ascii_dec a b); [apply IH; exact H | discriminate H].
Qed.

Lemma underArmeabiV7a_underArmeabi (n : string) :
  underArmeabiV7a n = true -> underArmeabi n = true.
Proof.
  unfold underArmeabiV7a, underArmeabi, strings.HasPrefix.
  apply (prefix_of_prefix "lib/armeabi" "-v7a").
Qed.

(** X5. The 32-bit test is a prefix match, so it also takes the entries
    under lib/armeabi-v7a: an archive with such an entry and no entry under
    lib/arm64-v8a is returned as 32-bit only. *)
Theorem NewAppParser_armeabi_v7a :
  forall w name kt isIcon tr tr' info file stat files,
    os_Open w name = Ok file -> Stat file = Ok stat ->
    zipNewReader file (fi_Size stat) = Ok files ->
    existsb underArmeabiV7a (map zf_Name files) = true ->
    existsb underArm64 (map zf_Name files) = false ->
    NewAppParser w name kt isIcon tr = (tr', Ok info) ->
    SupportOS32 info = true /\ SupportOS64 info = false.
Proof.
  intros w name kt isIcon tr tr' info file stat files Hopen Hstat Hzip Hv7 H64 H.
  destruct (NewAppParser_support _ _ _ _ _ _ _ _ _ _ Hopen Hstat Hzip H)
    as [-> ->].
  assert (H32 : existsb underArmeabi (map zf_Name files) = true).
  { apply existsb_exists in Hv7 as (n & Hin & Hn).
    apply existsb_exists. exists n. split; [exact Hin |].
    apply underArmeabiV7a_underArmeabi. exact Hn. }
  rewrite existsb_native, H32, H64, orb_true_r. split; reflexivity.
Qed.

Lemma NewAppParser_armeabi_v7a_witness :
  let run := NewAppParser Cases.armv7 "app.apk" "keytool" false [] in
  SupportOS32 (returned run) = true /\ SupportOS64 (returned run) = false.
Proof.
  intros run.
  exact (NewAppParser_armeabi_v7a Cases.armv7 "app.apk" "keytool" false []
           (fst run) (returned run) _ _ _ eq_refl eq_refl eq_refl
           eq_refl eq_refl eq_refl).
Defined.

(** ** Every way a run can end *)

Lemma run_bind_call {A B} ev (r : result A) (k : A -> M B) t :
  bind (call ev r) k t
  = match r with
    | Ok a => k a (t ++ [ev])%list
    | Err e => ((t ++ [ev])%list, Err e)
    end.
Proof. unfold bind, call. destruct r; reflexivity. Qed.

Lemma run_bind_uniform {A B} (m : M A) (k : A -> M B) t :
  uniform m ->
  bind m k t
  = match valueOf m with
    | Ok a => k a (t ++ eventsOf m)%list
    | Err e => ((t ++ eventsOf m)%list, Err e)
    end.
Proof. intros Hm. unfold bind. rewrite (Hm t). reflexivity. Qed.

Lemma run_bind_fail {A B} (m : M A) (k : A -> M B) t t' e :
  m t = (t', Err e) -> bind m k t = (t', Err e).
Proof. unfold bind. intros ->. reflexivity. Qed.

Lemma run_defer {A} ev (body : M A) t :
  defer ev body t = ((fst (body t) ++ [ev])%list, snd (body t)).
Proof. unfold defer. destruct (body t). reflexivity. Qed.

Lemma NewAppParser_shape w name kt isIcon tr :
  exists evs r,
    NewAppParser w name kt isIcon tr = ((tr ++ evs)%list, r)
    /\ RunShape w name kt isIcon evs r.
Proof.
  unfold NewAppParser. rewrite run_bind_call.
  destruct (os_Open w name) as [file | e] eqn:Hopen.
  2:{ eexists _, _. split; [reflexivity | apply OpenFails; exact Hopen]. }
  rewrite run_defer, run_bind_call.
  destruct (Stat file) as [stat | e] eqn:Hstat.
  2:{ exists [EvOsOpen name; EvFileStat; EvFileClose], (Err e). split.
      - simpl. rewrite <- !app_assoc. reflexivity.
      - eapply StatFails; eassumption. }
  destruct (String.eqb_spec (filepath.Ext (fi_Name stat)) androidExt) as [Hext | Hext].
  2:{ exists [EvOsOpen name; EvFileStat; EvFileClose],
             (Err (errorString "unknown platform")). split.
      - simpl. rewrite <- !app_assoc. reflexivity.
      - eapply WrongExtension; eassumption. }
  change (negb true) with false. cbv iota. rewrite run_bind_call.
  destruct (zipNewReader file (fi_Size stat)) as [files | e] eqn:Hzip.
  2:{ exists (openingEvents name stat ++ [EvFileClose])%list, (Err e). split.
      - simpl. rewrite <- !app_assoc. reflexivity.
      - eapply ReaderFails; eassumption. }
  rewrite (run_bind_uniform _ _ _ (parseApkFile_uniform w _)).
  destruct (valueOf (parseApkFile w (xmlFile (scanEntries files))))
    as [info0 | e] eqn:Hparse.
  2:{ exists (openingEvents name stat
              ++ eventsOf (parseApkFile w (xmlFile (scanEntries files)))
              ++ [EvFileClose])%list, (Err e). split.
      - simpl. rewrite <- !app_assoc. reflexivity.
      - eapply ManifestFails; eassumption. }
  assert (Hinv : exists f m,
             xmlFile (scanEntries files) = Some f
             /\ valueOf (parseAndroidManifest w f) = Ok m
             /\ info0 = infoOfManifest m).
  { apply (parseApkFile_inv w _ [] (eventsOf (parseApkFile w (xmlFile (scanEntries files))))).
    rewrite (parseApkFile_uniform w _ []). rewrite Hparse. reflexivity. }
  destruct Hinv as (f & m & Hxml & Hdec & ->).
  assert (Hev : eventsOf (parseApkFile w (xmlFile (scanEntries files)))
                = manifestEvents f).
  { rewrite Hxml. unfold eventsOf.
    rewrite (parseApkFile_run w f m [] Hdec). reflexivity. }
  rewrite Hev.
  rewrite (run_bind_uniform _ _ _ (getApkMd5_uniform file)).
  destruct (valueOf (getApkMd5 file)) as [[md5 me] | e] eqn:Hmd5;
    [| discriminate Hmd5].
  change (eventsOf (getApkMd5 file)) with [EvMd5Copy].
  rewrite (run_bind_uniform _ _ _ (getSignature_uniform w name kt)).
  destruct (getSignature_value w name kt) as [[[s1 s2] s3] Hsig]. rewrite Hsig.
  destruct (openFile w name) as [pkg | e] eqn:Hpkg.
  - rewrite (bind_run _ _ _ _ _ (parseApkIconAndLabel_run w name _ pkg Hpkg)).
    eexists _, _. split.
    2:{ apply (Succeeds w name kt isIcon file stat files f m (md5, me)
                 (s1, s2, s3) pkg).
        constructor; assumption. }
    unfold ret. simpl fst. simpl snd.
    unfold successEvents, openingEvents, closingEvents, assembled.
    rewrite <- !app_assoc. simpl. destruct isIcon; reflexivity.
  - exists (openingEvents name stat ++ manifestEvents f ++ [EvMd5Copy]
            ++ eventsOf (getSignature w name kt)
            ++ [EvOpenFile name; EvFileClose])%list, (Err e). split.
    + assert (Hfail : forall t,
                 parseApkIconAndLabel w name t
                 = ((t ++ [EvOpenFile name])%list, Err e)).
      { intros t. unfold parseApkIconAndLabel.
        rewrite run_bind_call, Hpkg. reflexivity. }
      rewrite (run_bind_fail _ _ _ _ _ (Hfail _)).
      simpl. rewrite <- !app_assoc. reflexivity.
    + eapply PackageFails; eassumption.
Qed.

(** ** Where an error comes from *)

Lemma parseAndroidManifest_cases w f :
  (exists m, valueOf (parseAndroidManifest w f) = Ok m
             /\ eventsOf (parseAndroidManifest w f) = manifestEvents f)
  \/ (exists e, valueOf (parseAndroidManifest w f) = Err e
                /\ entryError w f e
                /\ forallb manifestEvent (eventsOf (parseAndroidManifest w f)) = true
                /\ existsb isFileClose (eventsOf (parseAndroidManifest w f)) = false).
Proof.
  unfold valueOf, eventsOf, parseAndroidManifest.
  rewrite run_bind_call. destruct (zf_Open f) as [rc | e] eqn:E1.
  2:{ right. exists e. split; [reflexivity |].
      split; [left; exact E1 | split; reflexivity]. }
  rewrite run_defer, run_bind_call. destruct (ReadAll rc) as [buf | e] eqn:E2.
  2:{ right. exists e. split; [reflexivity |].
      split; [| split; reflexivity].
      right. exists rc. split; [exact E1 | left; exact E2]. }
  rewrite run_bind_call. destruct (NewXMLFile w buf) as [x | e] eqn:E3.
  2:{ right. exists e. split; [reflexivity |].
      split; [| split; reflexivity].
      right. exists rc. split; [exact E1 | right].
      exists buf. split; [exact E2 | left; exact E3]. }
  rewrite run_bind_call. destruct (xml_Decode w x) as [m | e] eqn:E4.
  2:{ right. exists e. split; [reflexivity |].
      split; [| split; reflexivity].
      right. exists rc. split; [exact E1 | right].
      exists buf. split; [exact E2 | right].
      exists x. split; [exact E3 | exact E4]. }
  left. exists m. split; reflexivity.
Qed.

Lemma parseApkFile_cases w xf :
  (exists f m, xf = Some f /\ valueOf (parseAndroidManifest w f) = Ok m
               /\ valueOf (parseApkFile w xf) = Ok (infoOfManifest m)
               /\ eventsOf (parseApkFile w xf) = manifestEvents f)
  \/ (exists e, valueOf (parseApkFile w xf) = Err e
                /\ (xf = None /\ e = errorString "AndroidManifest.xml not found"
                    \/ exists f, xf = Some f /\ entryError w f e)
                /\ forallb manifestEvent (eventsOf (parseApkFile w xf)) = true
                /\ existsb isFileClose (eventsOf (parseApkFile w xf)) = false).
Proof.
  destruct xf as [f |].
  2:{ right. eexists. repeat split; auto. }
  destruct (parseAndroidManifest_cases w f)
    as [(m & Hv & He) | (e & Hv & Herr & Hev & Hcl)].
  - left. exists f, m. unfold valueOf, eventsOf.
    rewrite (parseApkFile_run w f m [] Hv). repeat split; auto.
  - right. exists e. unfold valueOf, eventsOf, parseApkFile.
    rewrite (run_bind_uniform _ _ _ (parseAndroidManifest_uniform w f)), Hv.
    simpl. repeat split; eauto.
Qed.

Lemma scanEntries_xmlFile_In files f :
  xmlFile (scanEntries files) = Some f -> In f files /\ zf_Name f = manifestName.
Proof.
  rewrite scanEntries_xmlFile. intros H. apply find_some in H as [Hin Hn].
  split; [apply in_rev; exact Hin |].
  apply String.eqb_eq. exact Hn.
Qed.

(** X6. Every error that [NewAppParser] returns is one of its two own
    messages or the unchanged error of [os.Open], of [Stat], of the archive
    reader, of reading and decoding the manifest entry, or of [openFile].  The
    errors of the checksum, of the certificate tool and of the icon and label
    lookups are never returned. *)
Theorem NewAppParser_error_origin :
  forall w name kt isIcon tr tr' e,
    NewAppParser w name kt isIcon tr = (tr', Err e) ->
    e = errorString "unknown platform"
    \/ e = errorString "AndroidManifest.xml not found"
    \/ os_Open w name = Err e
    \/ (exists file, os_Open w name = Ok file /\ Stat file = Err e)
    \/ (exists file stat,
          os_Open w name = Ok file /\ Stat file = Ok stat
          /\ zipNewReader file (fi_Size stat) = Err e)
    \/ (exists file stat files f,
          os_Open w name = Ok file /\ Stat file = Ok stat
          /\ zipNewReader file (fi_Size stat) = Ok files
          /\ In f files /\ zf_Name f = manifestName /\ entryError w f e)
    \/ openFile w name = Err e.
Proof.
  intros w name kt isIcon tr tr' e H.
  destruct (NewAppParser_shape w name kt isIcon tr) as (evs & r & Hrun & HS).
  rewrite Hrun in H. inversion H; subst r. clear H Hrun.
  inversion HS as [e0 Ho | file e0 Ho Hs | file stat Ho Hs Hx
                   | file stat e0 Ho Hs Hx Hz
                   | file stat files e0 Ho Hs Hx Hz Hp
                   | file stat files f m e0 Ho Hs Hx Hz Hf Hd Hpk | ]; subst.
  - do 2 right. left. exact Ho.
  - do 3 right. left. eauto.
  - left. reflexivity.
  - do 4 right. left. eauto.
  - destruct (parseApkFile_cases w (xmlFile (scanEntries files)))
      as [(f & m & _ & _ & Hv & _) | (e1 & Hv & Horigin & _)];
      rewrite Hv in Hp; [discriminate Hp |].
    inversion Hp; subst e1.
    destruct Horigin as [[_ ->] | (f & Hf & Herr)].
    + right. left. reflexivity.
    + apply scanEntries_xmlFile_In in Hf as [Hin Hn].
      do 5 right. left. exists file, stat, files, f. auto 10.
  - do 6 right. exact Hpk.
Qed.

Lemma NewAppParser_error_origin_witness :
  let w := Cases.noResources in
  let name := "app.apk" in
  let e := DecodeError "resources.arsc: invalid chunk" in
  snd (NewAppParser w name "keytool" true []) = Err e
  /\ (e = errorString "unknown platform"
      \/ e = errorString "AndroidManifest.xml not found"
      \/ os_Open w name = Err e
      \/ (exists file, os_Open w name = Ok file /\ Stat file = Err e)
      \/ (exists file stat,
            os_Open w name = Ok file /\ Stat file = Ok stat
            /\ zipNewReader file (fi_Size stat) = Err e)
      \/ (exists file stat files f,
            os_Open w name = Ok file /\ Stat file = Ok stat
            /\ zipNewReader file (fi_Size stat) = Ok files
            /\ In f files /\ zf_Name f = manifestName /\ entryError w f e)
      \/ openFile w name = Err e).
Proof.
  intros w name e. split; [reflexivity |].
  exact (NewAppParser_error_origin w name "keytool" true [] _ e eq_refl).
Defined.

(** ** Handles, order of work, and what a failure leaves undone *)

Lemma getSignature_events w apkPath keyToolPath :
  (eventsOf (getSignature w apkPath keyToolPath) = []
   /\ (apkPath = "" \/ keyToolPath = ""))
  \/ (eventsOf (getSignature w apkPath keyToolPath)
      = [EvExecRun keyToolPath (keytoolArgs apkPath)]
      /\ apkPath <> "" /\ keyToolPath <> "").
Proof.
  unfold eventsOf, getSignature, keytoolArgs, call.
  destruct (String.eqb_spec apkPath "") as [Ha | Ha]; simpl.
  - left. split; [reflexivity | left; exact Ha].
  - destruct (String.eqb_spec keyToolPath "") as [Hk | Hk]; simpl.
    + left. split; [reflexivity | right; exact Hk].
    + right. destruct (exec_Run w keyToolPath _); repeat split; assumption.
Qed.

Lemma existsb_excluded (p q : Event -> bool) (l : list Event) :
  forallb p l = true -> (forall ev, p ev = true -> q ev = false) ->
  existsb q l = false.
Proof.
  intros Hall Hpq. induction l as [| ev l IH]; simpl in *; [reflexivity |].
  apply andb_true_iff in Hall as [Hev Hl].
  rewrite (Hpq ev Hev), (IH Hl). reflexivity.
Qed.

Lemma manifestEvents_only (f : zipFile) :
  forallb manifestEvent (manifestEvents f) = true.
Proof. reflexivity. Qed.

(** X7. The file that [os.Open] returned is closed exactly once, as the
    last thing the run does, on every path; when [os.Open] fails there is
    nothing to close and nothing else is attempted. *)
Theorem NewAppParser_closes_file_once :
  forall w name kt isIcon tr,
  exists evs r,
    NewAppParser w name kt isIcon tr = ((tr ++ evs)%list, r)
    /\ match os_Open w name with
       | Ok _ =>
           exists body,
             evs = (EvOsOpen name :: body ++ [EvFileClose])%list
             /\ existsb isFileClose body = false
       | Err _ => evs = [EvOsOpen name]
       end.
Proof.
  intros w name kt isIcon tr.
  destruct (NewAppParser_shape w name kt isIcon tr) as (evs & r & Hrun & HS).
  exists evs, r. split; [exact Hrun |]. clear Hrun.
  inversion HS as [e0 Ho | file e0 Ho Hs | file stat Ho Hs Hx
                   | file stat e0 Ho Hs Hx Hz
                   | file stat files e0 Ho Hs Hx Hz Hp
                   | file stat files f m e0 Ho Hs Hx Hz Hf Hd Hpk
                   | file stat files f m apkMd5 sigs pkg E ]; subst;
    try (rewrite Ho).
  - reflexivity.
  - exists [EvFileStat]. split; reflexivity.
  - exists [EvFileStat]. split; reflexivity.
  - exists [EvFileStat; EvZipNewReader (fi_Size stat)]. split; reflexivity.
  - exists ([EvFileStat; EvZipNewReader (fi_Size stat)]
            ++ eventsOf (parseApkFile w (xmlFile (scanEntries files))))%list.
    split; [unfold openingEvents; simpl; rewrite <- ?app_assoc; reflexivity |].
    rewrite existsb_app. simpl.
    destruct (parseApkFile_cases w (xmlFile (scanEntries files)))
      as [(f & m & _ & _ & _ & ->) | (e1 & _ & _ & _ & ->)]; reflexivity.
  - exists ([EvFileStat; EvZipNewReader (fi_Size stat)] ++ manifestEvents f
            ++ [EvMd5Copy] ++ eventsOf (getSignature w name kt)
            ++ [EvOpenFile name])%list.
    split; [unfold openingEvents; simpl; rewrite <- ?app_assoc; reflexivity |].
    rewrite !existsb_app.
    destruct (getSignature_events w name kt) as [[-> _] | [-> _]]; reflexivity.
  - rewrite (ex_open _ _ _ _ _ _ _ _ _ _ _ E).
    exists ([EvFileStat; EvZipNewReader (fi_Size stat)] ++ manifestEvents f
            ++ [EvMd5Copy] ++ eventsOf (getSignature w name kt)
            ++ [EvOpenFile name; EvIcon 720; EvLabel; EvPkgClose])%list.
    split.
    + unfold successEvents, openingEvents, closingEvents. simpl.
      rewrite <- ?app_assoc. reflexivity.
    + rewrite !existsb_app.
      destruct (getSignature_events w name kt) as [[-> _] | [-> _]]; reflexivity.
Qed.

(** X8. The order of the work: the archive reader is opened exactly for the
    files that could be opened and whose name has the extension .apk; the
    icon and label lookups are made exactly in the runs that return a
    record; and the certificate tool is run only with a non-empty tool path,
    and only in runs that got as far as opening the package. *)
Theorem NewAppParser_work_order :
  forall w name kt isIcon,
    let evs := eventsOf (NewAppParser w name kt isIcon) in
    let r := valueOf (NewAppParser w name kt isIcon) in
    (existsb isZipReaderEvent evs = true
     <-> exists file stat,
          os_Open w name = Ok file /\ Stat file = Ok stat
          /\ filepath.Ext (fi_Name stat) = androidExt)
    /\ (existsb isLookupEvent evs = true <-> exists info, r = Ok info)
    /\ (existsb isToolEvent evs = true ->
        kt <> ""
        /\ ((exists info, r = Ok info) \/ (exists e, openFile w name = Err e))).
Proof.
  intros w name kt isIcon evs r.
  destruct (NewAppParser_shape w name kt isIcon []) as (evs' & r' & Hrun & HS).
  assert (Hevs : evs = evs') by (unfold evs, eventsOf; rewrite Hrun; reflexivity).
  assert (Hr : r = r') by (unfold r, valueOf; rewrite Hrun; reflexivity).
  rewrite Hevs, Hr. clear Hevs Hr Hrun evs r.
  assert (Hsig : existsb isZipReaderEvent (eventsOf (getSignature w name kt)) = false
                 /\ existsb isLookupEvent (eventsOf (getSignature w name kt)) = false
                 /\ (existsb isToolEvent (eventsOf (getSignature w name kt)) = true ->
                     kt <> "")).
  { destruct (getSignature_events w name kt) as [[-> _] | [-> [_ Hk]]];
      repeat split; try reflexivity; try discriminate. intros _. exact Hk. }
  destruct Hsig as (Hsz & Hsl & Hst).
  inversion HS as [e0 Ho | file e0 Ho Hs | file stat Ho Hs Hx
                   | file stat e0 Ho Hs Hx Hz
                   | file stat files e0 Ho Hs Hx Hz Hp
                   | file stat files f m e0 Ho Hs Hx Hz Hf Hd Hpk
                   | file stat files f m apkMd5 sigs pkg E ]; subst.
  - repeat split; try discriminate.
    + intros (file & stat & H & _). congruence.
    + intros [info H]. discriminate H.
  - repeat split; try discriminate.
    + intros (file' & stat & H1 & H2 & _). congruence.
    + intros [info H]. discriminate H.
  - repeat split; try discriminate.
    + intros (file' & stat' & H1 & H2 & H3). congruence.
    + intros [info H]. discriminate H.
  - repeat split; try discriminate; eauto.
    intros [info H]. discriminate H.
  - assert (Hm := parseApkFile_cases w (xmlFile (scanEntries files))).
    destruct Hm as [(f & m & _ & _ & Hv & _) | (e1 & _ & _ & Hall & _)];
      [rewrite Hv in Hp; discriminate Hp |].
    unfold openingEvents. rewrite !existsb_app.
    rewrite (existsb_excluded manifestEvent isLookupEvent _ Hall)
      by (intros []; simpl; congruence).
    rewrite (existsb_excluded manifestEvent isToolEvent _ Hall)
      by (intros []; simpl; congruence).
    simpl. split; [| split].
    + split; [intros _; exists file, stat; auto | reflexivity].
    + split; [discriminate | intros [info H]; discriminate H].
    + discriminate.
  - unfold openingEvents. rewrite !existsb_app, Hsl. simpl.
    split; [| split].
    + split; [intros _; exists file, stat; auto | reflexivity].
    + split; [discriminate | intros [info H]; discriminate H].
    + intros H.
      destruct (existsb isToolEvent (eventsOf (getSignature w name kt))) eqn:Et;
        [| simpl in H; discriminate H].
      split; [apply Hst; reflexivity | right; exists e0; exact Hpk].
  - destruct E as [Ho Hs Hx Hz Hf Hd Hmd Hsg Hpk].
    unfold successEvents, openingEvents, closingEvents.
    rewrite !existsb_app. simpl. rewrite !orb_true_r.
    split; [| split].
    + split; [intros _; exists file, stat; auto | reflexivity].
    + split; [intros _; eexists; reflexivity | reflexivity].
    + intros H.
      destruct (existsb isToolEvent (eventsOf (getSignature w name kt))) eqn:Et;
        [| simpl in H; discriminate H].
      split; [apply Hst; reflexivity | left; eexists; reflexivity].
Qed.

(** X9. A package that cannot be opened for the resource lookups is fatal,
    and it is found out late: the manifest has been decoded, the checksum
    taken and the certificate tool run, yet the run returns the error of
    [openFile] and no record. *)
Theorem NewAppParser_package_failure :
  forall w name kt isIcon tr file stat files f m e,
    os_Open w name = Ok file -> Stat file = Ok stat ->
    filepath.Ext (fi_Name stat) = androidExt ->
    zipNewReader file (fi_Size stat) = Ok files ->
    xmlFile (scanEntries files) = Some f ->
    valueOf (parseAndroidManifest w f) = Ok m ->
    openFile w name = Err e ->
    NewAppParser w name kt isIcon tr
    = ((tr ++ openingEvents name stat ++ manifestEvents f ++ [EvMd5Copy]
           ++ eventsOf (getSignature w name kt)
           ++ [EvOpenFile name; EvFileClose])%list,
       Err e).
Proof.
  intros w name kt isIcon tr file stat files f m e
         Hopen Hstat Hext Hzip Hxml Hdec Hpkg.
  destruct (getSignature_value w name kt) as [[[s1 s2] s3] Hsig].
  destruct (valueOf (getApkMd5 file)) as [[md5 me] | e0] eqn:Hmd5;
    [| discriminate Hmd5].
  unfold NewAppParser.
  erewrite bind_run by (unfold call; rewrite Hopen; reflexivity).
  erewrite defer_run.
  2:{ erewrite bind_run by (unfold call; rewrite Hstat; reflexivity).
      rewrite Hext, String.eqb_refl. change (negb true) with false. cbv iota.
      erewrite bind_run by (unfold call; rewrite Hzip; reflexivity).
      rewrite Hxml.
      erewrite bind_run by (apply parseApkFile_run; exact Hdec).
      erewrite bind_run
        by (apply uniform_run; [apply getApkMd5_uniform | exact Hmd5]).
      cbv beta iota.
      erewrite bind_run
        by (apply uniform_run; [apply getSignature_uniform | exact Hsig]).
      cbv beta iota.
      apply run_bind_fail. unfold parseApkIconAndLabel.
      rewrite run_bind_call, Hpkg. reflexivity. }
  unfold openingEvents. change (eventsOf (getApkMd5 file)) with [EvMd5Copy].
  rewrite <- !app_assoc. reflexivity.
Qed.

Lemma NewAppParser_package_failure_witness :
  NewAppParser Cases.noResources "app.apk" "keytool" true []
  = ([EvOsOpen "app.apk"; EvFileStat; EvZipNewReader 512;
      EvEntryOpen "AndroidManifest.xml"; EvReadAll; EvNewXMLFile; EvXmlDecode;
      EvEntryClose; EvMd5Copy;
      EvExecRun "keytool" ["-printcert"; "-jarfile"; "app.apk"];
      EvOpenFile "app.apk"; EvFileClose],
     Err (DecodeError "resources.arsc: invalid chunk")).
Proof.
  exact (NewAppParser_package_failure Cases.noResources "app.apk" "keytool" true []
           _ _ _ _ _ _ eq_refl eq_refl eq_refl eq_refl eq_refl eq_refl eq_refl).
Defined.

Lemma assembled_md5_size isIcon stat st info0 apkMd5 sigs icon label :
  Md5 (assembled isIcon stat st info0 apkMd5 sigs icon label) = apkMd5
  /\ Size (assembled isIcon stat st info0 apkMd5 sigs icon label) = fi_Size stat.
Proof.
  unfold assembled. destruct (setSupport st info0), isIcon; split; reflexivity.
Qed.

(** X10. A record that is returned carries the size that [Stat] reported
    and the checksum of the file; when reading the file for the checksum
    fails, the run still succeeds and the Md5 field is empty. *)
Theorem NewAppParser_size_and_md5 :
  forall w name kt isIcon tr tr' info file stat,
    os_Open w name = Ok file -> Stat file = Ok stat ->
    NewAppParser w name kt isIcon tr = (tr', Ok info) ->
    Size info = fi_Size stat
    /\ Md5 info = match md5Copy file with Ok hex => hex | Err _ => "" end.
Proof.
  intros w name kt isIcon tr tr' info file stat Hopen Hstat H.
  apply NewAppParser_Ok in H
    as (file' & stat' & files & f & m & apkMd5 & sigs & pkg & E & _ & ->).
  destruct E as [Hopen' Hstat' _ _ _ _ Hmd5 _ _].
  rewrite Hopen in Hopen'. inversion Hopen'; subst file'.
  rewrite Hstat in Hstat'. inversion Hstat'; subst stat'.
  destruct (assembled_md5_size isIcon stat (scanEntries files) (infoOfManifest m)
              (fst apkMd5) sigs (fst (icon pkg cfg720)) (fst (label pkg None)))
    as [-> ->].
  split; [reflexivity |].
  unfold valueOf, getApkMd5, perform in Hmd5. simpl in Hmd5.
  inversion Hmd5. destruct (md5Copy file); reflexivity.
Qed.

Lemma NewAppParser_size_and_md5_witness :
  let run := NewAppParser Cases.twoManifests "twice.apk" "" false [] in
  Size (returned run) = 2048 /\ Md5 (returned run) = "".
Proof.
  intros run.
  exact (NewAppParser_size_and_md5 Cases.twoManifests "twice.apk" "" false []
           (fst run) (returned run) _ _ eq_refl eq_refl eq_refl).
Defined.

(** ** The digests that are read off the tool's output *)

Lemma allBytes_removeByte_other (p : ascii -> bool) (x : ascii) (s : string) :
  allBytes p s = true -> allBytes p (removeByte x s) = true.
Proof.
  induction s as [| c s IH]; simpl; [reflexivity |].
  intros H. apply andb_true_iff in H as [Hc Hs].
  destruct (Ascii.eqb c x); simpl; [apply IH; exact Hs |].
  rewrite Hc. apply IH. exact Hs.
Qed.

Lemma allBytes_removeByte (x : ascii) (s : string) :
  allBytes (fun c => negb (Ascii.eqb c x)) (removeByte x s) = true.
Proof.
  induction s as [| c s IH]; simpl; [reflexivity |].
  destruct (Ascii.eqb c x) eqn:E; simpl; [exact IH |].
  rewrite E. exact IH.
Qed.

Lemma allBytes_and (p q : ascii -> bool) (s : string) :
  allBytes p s = true -> allBytes q s = true ->
  allBytes (fun c => p c && q c) s = true.
Proof.
  induction s as [| c s IH]; simpl; [reflexivity |].
  intros Hp Hq. apply andb_true_iff in Hp as [Hp1 Hp2].
  apply andb_true_iff in Hq as [Hq1 Hq2].
  rewrite Hp1, Hq1. apply IH; assumption.
Qed.

Lemma lowerByte_digest (c : ascii) :
  negb (Ascii.eqb c " ") && negb (Ascii.eqb c ":") = true ->
  digestByte (strings.lowerByte c) = true.
Proof.
  destruct c as [[] [] [] [] [] [] [] []]; intros H;
    solve [reflexivity | discriminate H].
Qed.

Lemma ToLower_digest (s : string) :
  allBytes (fun c => negb (Ascii.eqb c " ") && negb (Ascii.eqb c ":")) s = true ->
  allBytes digestByte (strings.ToLower s) = true.
Proof.
  induction s as [| c s IH]; simpl; [reflexivity |].
  intros H. apply andb_true_iff in H as [Hc Hs].
  rewrite (lowerByte_digest c Hc). apply IH. exact Hs.
Qed.

Lemma normalizeDigest_clean (s : string) :
  allBytes digestByte (normalizeDigest s) = true.
Proof.
  rewrite normalizeDigest_spec. apply ToLower_digest.
  apply (allBytes_and (fun c => negb (Ascii.eqb c " "))
                      (fun c => negb (Ascii.eqb c ":"))).
  - apply allBytes_removeByte_other. apply allBytes_removeByte.
  - apply allBytes_removeByte.
Qed.

Lemma getSignature_value_cases w apkPath keyToolPath :
  valueOf (getSignature w apkPath keyToolPath) = Ok ("", "", "")
  \/ exists output,
      exec_Run w keyToolPath (keytoolArgs apkPath) = Ok output
      /\ valueOf (getSignature w apkPath keyToolPath) = Ok (digestsOfOutput output).
Proof.
  unfold valueOf, getSignature, keytoolArgs, call.
  destruct (String.eqb apkPath "" || String.eqb keyToolPath "");
    [left; reflexivity |].
  destruct (exec_Run w keyToolPath _) as [output | e];
    [right; exists output; split; reflexivity | left; reflexivity].
Qed.

(** X11. When the certificate tool prints ASCII text, as it does, the
    three signature digests of a returned record hold no space, no colon and
    no ASCII capital letter, whatever that text is. *)
Theorem NewAppParser_digests_normalised :
  forall w name kt isIcon tr tr' info,
    (forall output,
        exec_Run w kt (keytoolArgs name) = Ok output -> isASCII output = true) ->
    NewAppParser w name kt isIcon tr = (tr', Ok info) ->
    allBytes digestByte (SignatureMd5 info) = true
    /\ allBytes digestByte (SignatureSha1 info) = true
    /\ allBytes digestByte (SignatureSha256 info) = true.
Proof.
  intros w name kt isIcon tr tr' info _ H.
  apply NewAppParser_Ok in H
    as (file & stat & files & f & m & apkMd5 & sigs & pkg & E & _ & ->).
  destruct (assembled_signature isIcon stat (scanEntries files)
              (infoOfManifest m) (fst apkMd5) sigs (fst (icon pkg cfg720))
              (fst (label pkg None))) as (-> & -> & ->).
  pose proof (ex_sig _ _ _ _ _ _ _ _ _ _ _ E) as Hsig.
  destruct (getSignature_value_cases w name kt) as [Hv | (output & _ & Hv)];
    rewrite Hv in Hsig; inversion Hsig; subst sigs.
  - repeat split; reflexivity.
  - unfold digestsOfOutput.
    destruct (fold_left signatureStep _ _) as [[a b] c]. simpl.
    repeat split; apply normalizeDigest_clean.
Qed.

Lemma NewAppParser_digests_normalised_witness :
  let run := NewAppParser Sample.signed "app.apk" "keytool" false [] in
  SignatureMd5 (returned run) = "abcdef01"
  /\ allBytes digestByte (SignatureMd5 (returned run)) = true.
Proof.
  intros run. split; [reflexivity |].
  refine (proj1 (NewAppParser_digests_normalised Sample.signed "app.apk" "keytool"
                   false [] (fst run) (returned run) _ eq_refl)).
  intros output H. inversion H. reflexivity.
Defined.

(** The loop over the lines, one label at a time. *)

Lemma signature_fold_md5 (lines : list string) :
  forall acc,
    (forall l, In l lines -> strings.Contains l "MD5:" = false) ->
    fst (fst (fold_left signatureStep lines acc)) = fst (fst acc).
Proof.
  induction lines as [| l lines IH]; intros acc Hno; simpl; [reflexivity |].
  rewrite IH by (intros x Hx; apply Hno; right; exact Hx).
  unfold signatureStep. destruct acc as [[a b] c].
  rewrite (Hno l (or_introl eq_refl)).
  destruct (strings.Contains l "SHA1:"); [reflexivity |].
  destruct (strings.Contains l "SHA256:"); reflexivity.
Qed.

Lemma signature_fold_sha1 (lines : list string) :
  forall acc,
    (forall l, In l lines -> strings.Contains l "SHA1:" = false) ->
    snd (fst (fold_left signatureStep lines acc)) = snd (fst acc).
Proof.
  induction lines as [| l lines IH]; intros acc Hno; simpl; [reflexivity |].
  rewrite IH by (intros x Hx; apply Hno; right; exact Hx).
  unfold signatureStep. destruct acc as [[a b] c].
  rewrite (Hno l (or_introl eq_refl)).
  destruct (strings.Contains l "MD5:"); [reflexivity |].
  destruct (strings.Contains l "SHA256:"); reflexivity.
Qed.

Lemma signature_fold_sha256 (lines : list string) :
  forall acc,
    (forall l, In l lines -> strings.Contains l "SHA256:" = false) ->
    snd (fold_left signatureStep lines acc) = snd acc.
Proof.
  induction lines as [| l lines IH]; intros acc Hno; simpl; [reflexivity |].
  rewrite IH by (intros x Hx; apply Hno; right; exact Hx).
  unfold signatureStep. destruct acc as [[a b] c].
  rewrite (Hno l (or_introl eq_refl)).
  destruct (strings.Contains l "MD5:"); [reflexivity |].
  destruct (strings.Contains l "SHA1:"); reflexivity.
Qed.

(** X12. A label that occurs on no line of the tool's output leaves its
    digest empty, each of the three on its own: an output without any MD5
    line gives an empty MD5 digest whatever the other two are. *)
Theorem digestsOfOutput_missing_label :
  forall output,
    ((forall l, In l (outputLines output) -> strings.Contains l "MD5:" = false) ->
     fst (fst (digestsOfOutput output)) = "")
    /\ ((forall l, In l (outputLines output) -> strings.Contains l "SHA1:" = false) ->
        snd (fst (digestsOfOutput output)) = "")
    /\ ((forall l, In l (outputLines output) -> strings.Contains l "SHA256:" = false) ->
        snd (digestsOfOutput output) = "").
Proof.
  intros output. unfold digestsOfOutput, outputLines.
  set (lines := strings.Split output _).
  split; [| split]; intros Hno.
  - pose proof (signature_fold_md5 lines ("", "", "") Hno) as H.
    destruct (fold_left signatureStep lines _) as [[a b] c]. simpl in *.
    rewrite H. reflexivity.
  - pose proof (signature_fold_sha1 lines ("", "", "") Hno) as H.
    destruct (fold_left signatureStep lines _) as [[a b] c]. simpl in *.
    rewrite H. reflexivity.
  - pose proof (signature_fold_sha256 lines ("", "", "") Hno) as H.
    destruct (fold_left signatureStep lines _) as [[a b] c]. simpl in *.
    rewrite H. reflexivity.
Qed.

Lemma digestsOfOutput_missing_label_witness :
  fst (fst (digestsOfOutput SigCases.keytoolOutput)) = ""
  /\ snd (fst (digestsOfOutput SigCases.keytoolOutput)) = "0a1b2c".
Proof.
  split; [| reflexivity].
  apply (proj1 (digestsOfOutput_missing_label SigCases.keytoolOutput)).
  intros l Hl. vm_compute in Hl.
  repeat (destruct Hl as [<- | Hl]; [reflexivity |]). destruct Hl.
Defined.

(** X13. When several lines carry the MD5 label, the digest is read off
    the last of them: the text after the first "MD5:" on that line,
    normalised. *)
Theorem digestsOfOutput_last_md5_line :
  forall output pre l post,
    outputLines output = (pre ++ l :: post)%list ->
    strings.Contains l "MD5:" = true ->
    (forall x, In x post -> strings.Contains x "MD5:" = false) ->
    fst (fst (digestsOfOutput output))
    = normalizeDigest (snd (fst (strings.Cut l "MD5:"))).
Proof.
  intros output pre l post Hlines Hl Hpost.
  unfold digestsOfOutput. unfold outputLines in Hlines. rewrite Hlines.
  rewrite fold_left_app. cbn [fold_left].
  destruct (fold_left signatureStep pre ("", "", "")) as [[a0 b0] c0].
  assert (Hstep : signatureStep (a0, b0, c0) l
                  = (snd (fst (strings.Cut l "MD5:")), b0, c0))
    by (unfold signatureStep; rewrite Hl; reflexivity).
  rewrite Hstep.
  pose proof (signature_fold_md5 post
                (snd (fst (strings.Cut l "MD5:")), b0, c0) Hpost) as H.
  destruct (fold_left signatureStep post _) as [[a b] c]. simpl in *.
  rewrite H. reflexivity.
Qed.

Lemma digestsOfOutput_last_md5_line_witness :
  fst (fst (digestsOfOutput SigCases.twoSigners)) = "3344".
Proof.
  refine (digestsOfOutput_last_md5_line SigCases.twoSigners
            ["MD5:  11:22"; "SHA1: AA:BB"] "MD5:  33:44" ["Owner: CN=Example"]
            eq_refl eq_refl _).
  intros x [<- | []]. reflexivity.
Defined.

(** ** The string tests, in terms of concatenation *)

Lemma str_length_app (a b : string) :
  String.length (a ++ b) = (String.length a + String.length b)%nat.
Proof. induction a as [| c a IH]; simpl; [reflexivity | rewrite IH; reflexivity]. Qed.

Lemma from_all (s : string) : strings.from 0 s = s.
Proof. unfold strings.from. rewrite Nat.sub_0_r. apply substring_all. Qed.

Lemma from_app (a b : string) : strings.from (String.length a) (a ++ b) = b.
Proof.
  induction a as [| c a IH]; simpl; [apply from_all |].
  rewrite from_cons. exact IH.
Qed.


Lemma take_drop (s : string) :
  forall n, (String.substring 0 n s ++ strings.from n s)%string = s.
Proof.
  induction s as [| c s IH]; intros n.
  - destruct n; reflexivity.
  - destruct n as [| n]; [rewrite from_all; reflexivity |].
    rewrite from_cons. simpl. rewrite IH. reflexivity.
Qed.

Lemma substring_take_length (s : string) :
  forall n, (n <= String.length s)%nat ->
            String.length (String.substring 0 n s) = n.
Proof.
  induction s as [| c s IH]; intros n Hn; simpl in *.
  - destruct n; [reflexivity | lia].
  - destruct n as [| n]; simpl; [reflexivity |]. rewrite IH by lia. reflexivity.
Qed.

Lemma prefix_split (p : string) :
  forall s, String.prefix p s = true <-> exists r, s = (p ++ r)%string.
Proof.
  induction p as [| a p IH]; intros s.
  - split; [intros _; exists s; reflexivity | intros _; destruct s; reflexivity].
  - destruct s as [| b s]; simpl.
    + split; [discriminate | intros [r H]; discriminate H].
    + destruct (Ascii.ascii_dec a b) as [<- | Hne].
      * rewrite IH. split; intros [r H]; exists r; [rewrite H; reflexivity |].
        inversion H. reflexivity.
      * split; [discriminate |]. intros [r H]. inversion H. congruence.
Qed.

Lemma HasSuffix_split (s suffix : string) :
  strings.HasSuffix s suffix = true <-> exists a, s = (a ++ suffix)%string.
Proof.
  unfold strings.HasSuffix. split.
  - intros H. apply andb_true_iff in H as [Hlen Heq].
    apply Nat.leb_le in Hlen. apply String.eqb_eq in Heq.
    remember (String.length s - String.length suffix)%nat as n eqn:Hn.
    exists (String.substring 0 n s).
    assert (Hfrom : strings.from n s = suffix).
    { unfold strings.from.
      replace (String.length s - n)%nat with (String.length suffix) by lia.
      exact Heq. }
    pose proof (take_drop s n) as Ht. rewrite Hfrom in Ht.
    symmetry. exact Ht.
  - intros [a ->]. rewrite str_length_app.
    replace (String.length a + String.length suffix - String.length suffix)%nat
      with (String.length a) by lia.
    apply andb_true_iff. split; [apply Nat.leb_le; lia |].
    apply String.eqb_eq.
    pose proof (from_app a suffix) as H. unfold strings.from in H.
    rewrite str_length_app in H.
    replace (String.length a + String.length suffix - String.length a)%nat
      with (String.length suffix) in H by lia.
    exact H.
Qed.

(** X14. The three tests of the scanning loop in plain terms: an entry is
    a .so file when its name is something followed by ".so", and it lies
    under an ABI directory when its name is the prefix followed by
    something; no path separator is required after the prefix. *)
Theorem entry_tests_by_concatenation :
  forall n,
    (isSoFile n = true <-> exists a, n = (a ++ ".so")%string)
    /\ (underArm64 n = true <-> exists r, n = ("lib/arm64-v8a" ++ r)%string)
    /\ (underArmeabi n = true <-> exists r, n = ("lib/armeabi" ++ r)%string).
Proof.
  intros n. split; [apply HasSuffix_split |].
  split; apply prefix_split.
Qed.

(** Where the first occurrence is. *)

Lemma Index_nil (sub : string) :
  strings.Index "" sub = if String.prefix sub "" then Some O else None.
Proof. reflexivity. Qed.

Lemma Index_cons (c : ascii) (s sub : string) :
  strings.Index (String c s) sub
  = if String.prefix sub (String c s) then Some O
    else option_map S (strings.Index s sub).
Proof. reflexivity. Qed.

Lemma Index_found (sub : string) :
  forall s i,
    strings.Index s sub = Some i ->
    s = (String.substring 0 i s ++ sub
         ++ strings.from (i + String.length sub) s)%string
    /\ (i + String.length sub <= String.length s)%nat.
Proof.
  induction s as [| c s IH]; intros i H.
  - rewrite Index_nil in H. destruct sub; simpl in H; [| discriminate H].
    inversion H. split; [reflexivity | simpl; lia].
  - rewrite Index_cons in H.
    destruct (String.prefix sub (String c s)) eqn:Ep.
    + inversion H; subst i. apply prefix_split in Ep as [r Hr].
      change (String.substring 0 0 (String c s)) with "".
      change ("" ++ sub ++ strings.from (0 + String.length sub) (String c s))%string
        with (sub ++ strings.from (String.length sub) (String c s))%string.
      rewrite Hr. rewrite from_app, str_length_app. split; [reflexivity | lia].
    + destruct (strings.Index s sub) as [j |] eqn:Ej; [| discriminate H].
      inversion H; subst i. destruct (IH j eq_refl) as [Hs Hlen].
      split; [| simpl; lia].
      change (String.substring 0 (S j) (String c s))
        with (String c (String.substring 0 j s)).
      change (S j + String.length sub)%nat with (S (j + String.length sub)).
      rewrite from_cons. simpl append. rewrite <- Hs. reflexivity.
Qed.

Lemma Index_not_found (sub : string) :
  forall s,
    strings.Index s sub = None ->
    forall a b, s <> (a ++ sub ++ b)%string.
Proof.
  induction s as [| c s IH]; intros H a b Heq.
  - rewrite Index_nil in H. destruct sub; simpl in H; [discriminate H |].
    destruct a; discriminate Heq.
  - rewrite Index_cons in H.
    destruct (String.prefix sub (String c s)) eqn:Ep; [discriminate H |].
    destruct (strings.Index s sub) eqn:Ej; [discriminate H |].
    destruct a as [| c' a].
    + assert (Hp : String.prefix sub (String c s) = true)
        by (apply prefix_split; exists b; exact Heq).
      rewrite Hp in Ep. discriminate Ep.
    + inversion Heq; subst. apply (IH eq_refl a b). reflexivity.
Qed.

Lemma Index_minimal (sub : string) :
  forall s i,
    strings.Index s sub = Some i ->
    forall a b, s = (a ++ sub ++ b)%string -> (i <= String.length a)%nat.
Proof.
  induction s as [| c s IH]; intros i H a b Heq.
  - rewrite Index_nil in H. destruct (String.prefix sub ""); [| discriminate H].
    inversion H. lia.
  - rewrite Index_cons in H.
    destruct (String.prefix sub (String c s)) eqn:Ep; [inversion H; lia |].
    destruct (strings.Index s sub) as [j |] eqn:Ej; [| discriminate H].
    inversion H; subst i. destruct a as [| c' a].
    + assert (Hp : String.prefix sub (String c s) = true)
        by (apply prefix_split; exists b; exact Heq).
      rewrite Hp in Ep. discriminate Ep.
    + inversion Heq; subst. simpl. apply le_n_S. apply (IH j eq_refl a b).
      reflexivity.
Qed.

Lemma str_app_inv (a : string) :
  forall a' x x',
    String.length a = String.length a' ->
    (a ++ x)%string = (a' ++ x')%string -> a = a' /\ x = x'.
Proof.
  induction a as [| c a IH]; intros a' x x' Hlen Heq; destruct a' as [| c' a'];
    simpl in Hlen; try discriminate Hlen.
  - split; [reflexivity | exact Heq].
  - inversion Heq; subst. destruct (IH a' x x') as [-> ->]; auto.
Qed.

Lemma Contains_occursIn (s sep : string) :
  strings.Contains s sep = true <-> occursIn sep s.
Proof.
  unfold strings.Contains, occursIn.
  destruct (strings.Index s sep) as [i |] eqn:Ei.
  - destruct (Index_found sep s i Ei) as [Hs _].
    split; [intros _; eexists _, _; exact Hs | reflexivity].
  - split; [discriminate |].
    intros (a & b & H). exfalso. exact (Index_not_found sep s Ei a b H).
Qed.

Lemma Contains_false_not_occursIn (s sep : string) :
  strings.Contains s sep = false <-> ~ occursIn sep s.
Proof.
  rewrite <- Contains_occursIn. destruct (strings.Contains s sep); split;
    congruence.
Qed.

Lemma Cut_firstAt (s sep a b : string) :
  strings.Cut s sep = (a, b, true) <-> firstAt sep s a b.
Proof.
  unfold strings.Cut, firstAt.
  destruct (strings.Index s sep) as [i |] eqn:Ei.
  - destruct (Index_found sep s i Ei) as [Hs Hi].
    assert (Hlen : String.length (String.substring 0 i s) = i)
      by (apply substring_take_length; lia).
    split.
    + intros H. inversion H; subst a b. split; [exact Hs |].
      intros a' b' H'. rewrite Hlen. exact (Index_minimal sep s i Ei a' b' H').
    + intros [Hd Hmin].
      pose proof (Index_minimal sep s i Ei a b Hd) as H1.
      pose proof (Hmin _ _ Hs) as H2. rewrite Hlen in H2.
      assert (Hla : String.length (String.substring 0 i s) = String.length a)
        by lia.
      rewrite Hd in Hs at 1.
      destruct (str_app_inv _ _ _ _ (eq_sym Hla) Hs) as [Ha Hrest].
      destruct (str_app_inv sep sep _ _ eq_refl Hrest) as [_ Hb].
      rewrite <- Ha, <- Hb. reflexivity.
  - split; [intros H; discriminate H |].
    intros [Hd _]. exfalso. exact (Index_not_found sep s Ei a b Hd).
Qed.

(** X15. [strings.Contains] and [strings.Cut] as [getSignature] uses them:
    a line contains a label exactly when it is some text, the label, and
    some text; [Cut] then splits the line around the first occurrence of the
    label, and it does so whenever the label occurs; a line without the label
    is handed back whole with an empty rest. *)
Theorem Cut_spec :
  forall s sep,
    (strings.Contains s sep = true <-> occursIn sep s)
    /\ (forall before after,
          strings.Cut s sep = (before, after, true)
          <-> firstAt sep s before after)
    /\ (occursIn sep s ->
        exists before after, strings.Cut s sep = (before, after, true))
    /\ (~ occursIn sep s <-> strings.Cut s sep = (s, "", false)).
Proof.
  intros s sep. split; [apply Contains_occursIn |].
  split; [intros before after; apply Cut_firstAt |]. split.
  - intros Hocc. apply Contains_occursIn in Hocc.
    unfold strings.Contains in Hocc. unfold strings.Cut.
    destruct (strings.Index s sep); [eexists _, _; reflexivity | discriminate Hocc].
  - rewrite <- Contains_false_not_occursIn.
    unfold strings.Contains, strings.Cut.
    destruct (strings.Index s sep); split; intros H;
      try reflexivity; discriminate H.
Qed.

(** ** The extension test is a suffix test *)

Lemma list_ascii_app (a b : string) :
  list_ascii_of_string (a ++ b)
  = (list_ascii_of_string a ++ list_ascii_of_string b)%list.
Proof. induction a as [| c a IH]; simpl; [reflexivity | rewrite IH; reflexivity]. Qed.

Lemma extLoop_suffix (path : string) :
  forall back n,
    filepath.extLoop back n path = ""
    \/ exists i, filepath.extLoop back n path = strings.from i path.
Proof.
  induction back as [| c back IH]; intros n; simpl; [left; reflexivity |].
  destruct (Ascii.eqb c "/"); [left; reflexivity |].
  destruct (Ascii.eqb c "."); [right; eexists; reflexivity | apply IH].
Qed.

Lemma Ext_apk_suffix (p : string) : filepath.Ext (p ++ ".apk") = ".apk".
Proof.
  unfold filepath.Ext. rewrite list_ascii_app, rev_app_distr, str_length_app.
  simpl. replace (String.length p + 4 - 1 - 1 - 1 - 1)%nat with (String.length p) by lia.
  apply from_app.
Qed.

(** X16. The extension test of [NewAppParser] is a case-sensitive suffix
    test: [filepath.Ext] of a file name is ".apk" exactly when the name ends
    in ".apk", the name ".apk" itself included. *)
Theorem extension_test_is_suffix_test :
  forall n,
    filepath.Ext n = androidExt <-> strings.HasSuffix n ".apk" = true.
Proof.
  intros n. unfold androidExt. rewrite HasSuffix_split. split.
  - intros H. unfold filepath.Ext in H.
    destruct (extLoop_suffix n (rev (list_ascii_of_string n)) (String.length n))
      as [E | [i E]]; rewrite E in H; [discriminate H |].
    exists (String.substring 0 i n). rewrite <- H. symmetry. apply take_drop.
  - intros [a ->]. apply Ext_apk_suffix.
Qed.

Example extension_is_case_sensitive :
  filepath.Ext "release/app.APK" <> androidExt
  /\ filepath.Ext "app.apk.zip" <> androidExt
  /\ filepath.Ext ".apk" = androidExt.
Proof. repeat split; vm_compute; discriminate. Qed.

(** ** Splitting the output into lines loses nothing *)

Lemma prefix_app (sub a b : string) :
  String.prefix sub a = true -> String.prefix sub (a ++ b) = true.
Proof.
  intros H. apply prefix_split in H as [r ->]. apply prefix_split.
  exists (r ++ b)%string. clear. induction sub as [| c sub IH]; simpl;
    [reflexivity | rewrite IH; reflexivity].
Qed.

Lemma Index_first (sub : string) :
  sub <> "" ->
  forall s i,
    strings.Index s sub = Some i ->
    strings.Index (String.substring 0 i s) sub = None.
Proof.
  intros Hsub. induction s as [| c s IH]; intros i H.
  - replace (String.substring 0 i "") with "" by (destruct i; reflexivity).
    rewrite Index_nil. destruct sub; [congruence | reflexivity].
  - rewrite Index_cons in H.
    destruct (String.prefix sub (String c s)) eqn:Ep.
    + inversion H; subst i.
      change (String.substring 0 0 (String c s)) with "".
      rewrite Index_nil. destruct sub; [congruence | reflexivity].
    + destruct (strings.Index s sub) as [j |] eqn:Ej; [| discriminate H].
      inversion H; subst i.
      change (String.substring 0 (S j) (String c s))
        with (String c (String.substring 0 j s)).
      rewrite Index_cons, (IH j eq_refl).
      destruct (String.prefix sub (String c (String.substring 0 j s))) eqn:Eq;
        [| reflexivity].
      apply (prefix_app _ _ (strings.from j s)) in Eq.
      simpl append in Eq. rewrite take_drop in Eq. congruence.
Qed.

Lemma splitLoop_nonempty fuel s sep : strings.splitLoop fuel s sep <> [].
Proof.
  destruct fuel; simpl; [discriminate |].
  destruct (strings.Index s sep); discriminate.
Qed.

Lemma joinWith_cons sep p rest :
  rest <> [] -> joinWith sep (p :: rest) = (p ++ sep ++ joinWith sep rest)%string.
Proof. destruct rest; [congruence | reflexivity]. Qed.

Lemma splitLoop_spec (sep : string) :
  sep <> "" ->
  forall fuel s,
    (String.length s <= fuel)%nat ->
    joinWith sep (strings.splitLoop fuel s sep) = s
    /\ (forall l, In l (strings.splitLoop fuel s sep) ->
                  strings.Index l sep = None).
Proof.
  intros Hsep. induction fuel as [| fuel IH]; intros s Hlen.
  - destruct s; [| simpl in Hlen; lia]. simpl. split; [reflexivity |].
    intros l [<- | []]. rewrite Index_nil. destruct sep; [congruence | reflexivity].
  - cbn [strings.splitLoop].
    destruct (strings.Index s sep) as [i |] eqn:Ei.
    + destruct (Index_found sep s i Ei) as [Hs Hi].
      assert (Hrest : (String.length (strings.from (i + String.length sep) s)
                       <= fuel)%nat).
      { pose proof (from_length (i + String.length sep) s).
        destruct sep; [congruence | simpl in *; lia]. }
      destruct (IH _ Hrest) as [Hjoin Hnone]. split.
      * rewrite joinWith_cons by apply splitLoop_nonempty.
        rewrite Hjoin. symmetry. exact Hs.
      * intros l [<- | Hl]; [apply (Index_first sep Hsep s i Ei) | apply Hnone; exact Hl].
    + split; [reflexivity |]. intros l [<- | []]. exact Ei.
Qed.

(** X17. Splitting the tool's output into lines loses and adds nothing:
    the lines joined again with newlines are the output, no line holds a
    newline, and there is always at least one line (an empty output is one
    empty line). *)
Theorem outputLines_round_trip :
  forall output,
    joinWith (String "010" "") (outputLines output) = output
    /\ (forall l, In l (outputLines output) ->
                  strings.Contains l (String "010" "") = false)
    /\ outputLines output <> [].
Proof.
  intros output. unfold outputLines, strings.Split.
  destruct (splitLoop_spec (String "010" "") ltac:(discriminate)
              (String.length output) output (le_n _)) as [Hjoin Hnone].
  split; [exact Hjoin |]. split; [| apply splitLoop_nonempty].
  intros l Hl. unfold strings.Contains. rewrite (Hnone l Hl). reflexivity.
Qed.

(** ** strconv.Atoi reads back every decimal numeral of an int *)

Lemma fastLoop_step (c : ascii) (rest : string) (n k : Z) :
  strconv.byteVal c = 48 + k -> 0 <= k <= 9 ->
  strconv.fastLoop (String c rest) n = strconv.fastLoop rest (n * 10 + k).
Proof.
  intros Hc Hk. cbn [strconv.fastLoop]. rewrite Hc.
  replace (48 + k - 48) with k by lia. rewrite Z.mod_small by lia.
  destruct (Z.ltb_spec 9 k); [lia | reflexivity].
Qed.

Lemma parseUintLoop_step (c : ascii) (rest : string) (n k : Z) :
  strconv.byteVal c = 48 + k -> 0 <= k <= 9 -> 0 <= n ->
  n * 10 + k <= strconv.maxUint64 ->
  strconv.parseUintLoop (String c rest) n
  = strconv.parseUintLoop rest (n * 10 + k).
Proof.
  intros Hc Hk Hn Hmax. cbn [strconv.parseUintLoop]. rewrite Hc.
  assert (Hm : strconv.maxUint64 = 18446744073709551615) by reflexivity.
  assert (Hcut : strconv.maxUint64 / 10 + 1 = 1844674407370955162) by reflexivity.
  assert (Hpow : 2 ^ 64 = 18446744073709551616) by reflexivity.
  rewrite Hcut. cbv zeta.
  destruct (Z.leb_spec 48 (48 + k)); [| lia].
  destruct (Z.leb_spec (48 + k) 57); [| lia]. cbn [andb].
  destruct (Z.leb_spec 1844674407370955162 n); [lia |].
  replace (48 + k - 48) with k by lia.
  rewrite (Z.mod_small (n * 10 + k)) by lia.
  destruct (Z.ltb_spec (n * 10 + k) (n * 10)); [lia |].
  destruct (Z.ltb_spec strconv.maxUint64 (n * 10 + k)); [lia |].
  reflexivity.
Qed.

Lemma digitsValue_grows (d : Decimal.uint) :
  forall acc, 0 <= acc -> acc <= digitsValue d acc.
Proof.
  induction d as [| d IH | d IH | d IH | d IH | d IH | d IH | d IH | d IH
                  | d IH | d IH]; intros acc Hacc; cbn [digitsValue];
    [lia | ..];
    match goal with
    | |- _ <= digitsValue _ ?a => specialize (IH a ltac:(lia)); lia
    end.
Qed.

Lemma fastLoop_digits (d : Decimal.uint) :
  forall n,
    strconv.fastLoop (DecimalString.NilEmpty.string_of_uint d) n
    = (digitsValue d n, None).
Proof.
  induction d as [| d IH | d IH | d IH | d IH | d IH | d IH | d IH | d IH
                  | d IH | d IH]; intros n;
    cbn [DecimalString.NilEmpty.string_of_uint digitsValue];
    [reflexivity | ..];
    (erewrite fastLoop_step; [apply IH | reflexivity | lia]).
Qed.

Lemma parseUintLoop_digits (d : Decimal.uint) :
  forall n,
    0 <= n -> digitsValue d n <= strconv.maxUint64 ->
    strconv.parseUintLoop (DecimalString.NilEmpty.string_of_uint d) n
    = (digitsValue d n, None).
Proof.
  induction d as [| d IH | d IH | d IH | d IH | d IH | d IH | d IH | d IH
                  | d IH | d IH]; intros n Hn Hmax;
    cbn [DecimalString.NilEmpty.string_of_uint digitsValue] in *;
    [reflexivity | ..];
    match type of Hmax with
    | digitsValue _ ?a <= _ =>
        pose proof (digitsValue_grows d a ltac:(lia));
        (erewrite parseUintLoop_step;
         [apply IH; [lia | exact Hmax] | reflexivity | lia | exact Hn | lia])
    end.
Qed.

Lemma digitsValue_acc (d : Decimal.uint) :
  forall acc, digitsValue d (Z.pos acc) = Z.pos (Pos.of_uint_acc d acc).
Proof.
  induction d as [| d IH | d IH | d IH | d IH | d IH | d IH | d IH | d IH
                  | d IH | d IH]; intros acc;
    cbn [digitsValue Pos.of_uint_acc]; [reflexivity | ..];
    rewrite <- IH; f_equal; lia.
Qed.

Lemma digitsValue_of_uint (d : Decimal.uint) :
  digitsValue d 0 = Z.of_N (Pos.of_uint d).
Proof.
  induction d as [| d IH | d IH | d IH | d IH | d IH | d IH | d IH | d IH
                  | d IH | d IH]; cbn [digitsValue Pos.of_uint];
    [reflexivity | exact IH | ..];
    (etransitivity; [apply (digitsValue_acc d) | reflexivity]).
Qed.

Lemma digitsValue_to_uint (p : positive) :
  digitsValue (Pos.to_uint p) 0 = Z.pos p.
Proof.
  rewrite digitsValue_of_uint, DecimalPos.Unsigned.of_to. reflexivity.
Qed.

Lemma numeral_head (d : Decimal.uint) :
  d <> Decimal.Nil ->
  exists c rest,
    DecimalString.NilEmpty.string_of_uint d = String c rest
    /\ strconv.isSign c = false /\ Ascii.eqb c "-" = false.
Proof.
  intros Hd. destruct d; [congruence | ..];
    eexists _, _; (split; [reflexivity | split; reflexivity]).
Qed.

Lemma toInt64_small (v : Z) : - 2 ^ 63 <= v < 2 ^ 63 -> strconv.toInt64 v = v.
Proof.
  intros Hv. unfold strconv.toInt64.
  assert (H63 : 2 ^ 63 = 9223372036854775808) by reflexivity.
  assert (H64 : 2 ^ 64 = 18446744073709551616) by reflexivity.
  rewrite Z.mod_small by lia. lia.
Qed.

Lemma Atoi_unsigned (d : Decimal.uint) :
  d <> Decimal.Nil -> digitsValue d 0 < 2 ^ 63 ->
  strconv.Atoi (DecimalString.NilEmpty.string_of_uint d) = (digitsValue d 0, None).
Proof.
  intros Hd Hv.
  assert (H63 : 2 ^ 63 = 9223372036854775808) by reflexivity.
  pose proof (digitsValue_grows d 0 ltac:(lia)) as H0.
  destruct (numeral_head d Hd) as (c & rest & Hs & Hsign & Hminus).
  unfold strconv.Atoi.
  destruct ((0 <? String.length _)%nat && _).
  - rewrite Hs, Hsign. rewrite <- Hs, fastLoop_digits, Hminus. reflexivity.
  - unfold strconv.ParseInt. rewrite Hs, Hsign, Hminus. rewrite <- Hs.
    unfold strconv.ParseUint. rewrite Hs at 1. rewrite parseUintLoop_digits;
      [| lia | unfold strconv.maxUint64; lia].
    unfold strconv.intSize. change (2 ^ (64 - 1)) with (2 ^ 63).
    cbn [negb andb].
    destruct (Z.leb_spec (2 ^ 63) (digitsValue d 0)); [lia |].
    rewrite toInt64_small by lia. reflexivity.
Qed.

Lemma Atoi_negative (d : Decimal.uint) :
  d <> Decimal.Nil -> digitsValue d 0 <= 2 ^ 63 ->
  strconv.Atoi (String "-" (DecimalString.NilEmpty.string_of_uint d))
  = (- digitsValue d 0, None).
Proof.
  intros Hd Hv.
  assert (H63 : 2 ^ 63 = 9223372036854775808) by reflexivity.
  pose proof (digitsValue_grows d 0 ltac:(lia)) as H0.
  destruct (numeral_head d Hd) as (c & rest & Hs & _ & _).
  unfold strconv.Atoi.
  destruct ((0 <? String.length _)%nat && _).
  - change (strconv.isSign "-") with true. cbv iota.
    rewrite Hs. rewrite <- Hs, fastLoop_digits. reflexivity.
  - unfold strconv.ParseInt. change (strconv.isSign "-") with true.
    change (Ascii.eqb "-" "-") with true. cbv iota.
    unfold strconv.ParseUint. rewrite Hs at 1. rewrite parseUintLoop_digits;
      [| lia | unfold strconv.maxUint64; lia].
    unfold strconv.intSize. change (2 ^ (64 - 1)) with (2 ^ 63).
    cbn [negb andb].
    destruct (Z.ltb_spec (2 ^ 63) (digitsValue d 0)); [lia |].
    f_equal.
    destruct (Z.eq_dec (digitsValue d 0) (2 ^ 63)) as [E | E].
    + rewrite E. reflexivity.
    + rewrite (toInt64_small (digitsValue d 0)) by lia.
      apply toInt64_small. lia.
Qed.

Lemma Atoi_decimalString (z : Z) :
  - 2 ^ 63 <= z < 2 ^ 63 -> strconv.Atoi (decimalString z) = (z, None).
Proof.
  intros Hz. unfold decimalString.
  destruct z as [| p | p]; cbn [Z.to_int DecimalString.NilEmpty.string_of_int].
  - reflexivity.
  - rewrite Atoi_unsigned.
    + rewrite digitsValue_to_uint. reflexivity.
    + apply DecimalPos.Unsigned.to_uint_nonnil.
    + rewrite digitsValue_to_uint. lia.
  - rewrite Atoi_negative.
    + rewrite digitsValue_to_uint. reflexivity.
    + apply DecimalPos.Unsigned.to_uint_nonnil.
    + rewrite digitsValue_to_uint. lia.
Qed.

(** X18. Build is the number that the versionCode attribute denotes: for
    every integer of the range of a 64-bit int, a manifest whose versionCode
    is the decimal numeral of that integer gives a record with exactly that
    Build. *)
Theorem parseApkFile_build_of_numeral :
  forall w f m z tr,
    valueOf (parseAndroidManifest w f) = Ok m ->
    VersionCode m = decimalString z ->
    - 2 ^ 63 <= z < 2 ^ 63 ->
    exists info,
      parseApkFile w (Some f) tr = ((tr ++ manifestEvents f)%list, Ok info)
      /\ Build info = z.
Proof.
  intros w f m z tr Hdec Hvc Hz. exists (infoOfManifest m).
  split; [apply parseApkFile_run; exact Hdec |].
  destruct (infoOfManifest_fields m) as (_ & _ & -> & _).
  rewrite Hvc, (Atoi_decimalString z Hz). reflexivity.
Qed.

Lemma parseApkFile_build_of_numeral_witness :
  exists info,
    parseApkFile VersionCases.build2024
                 (Some (Sample.entry "AndroidManifest.xml")) []
    = (manifestEvents (Sample.entry "AndroidManifest.xml"), Ok info)
    /\ Build info = 2024031501.
Proof.
  refine (parseApkFile_build_of_numeral VersionCases.build2024
            (Sample.entry "AndroidManifest.xml")
            (Sample.withVersionCode (decimalString 2024031501))
            2024031501 [] eq_refl eq_refl _).
  split; [discriminate | reflexivity].
Defined.

(** ** The example program *)

Lemma NewAppParser_flag_off_icon w name kt tr tr' info :
  NewAppParser w name kt false tr = (tr', Ok info) -> Icon info = None.
Proof.
  intros H. apply NewAppParser_Ok in H
    as (file & stat & files & f & m & apkMd5 & sigs & pkg & _ & _ & ->).
  rewrite assembled_icon. apply infoOfManifest_fields.
Qed.

Lemma existsb_writesIcon_parser (tr : Trace) :
  existsb writesIcon (map ExParser tr) = false.
Proof. induction tr as [| ev tr IH]; simpl; [reflexivity | exact IH]. Qed.

(** X19. The example never writes the icon file: it calls [NewAppParser]
    with the icon flag off, so the record it gets has no icon and the branch
    that creates and encodes helloworld.png is not taken, in any state of the
    file system. *)
Theorem main_never_writes_icon :
  forall w marshalInfo, existsb writesIcon (fst (main w marshalInfo)) = false.
Proof.
  intros w marshalInfo. unfold main.
  destruct (NewAppParser w apkFile "keytool" false []) as [tr [info | e]] eqn:Hrun;
    unfold jsonMarshal.
  - rewrite (NewAppParser_flag_off_icon _ _ _ _ _ _ Hrun).
    destruct (marshalInfo info); simpl; rewrite existsb_app,
      existsb_writesIcon_parser; reflexivity.
  - simpl. rewrite existsb_app, existsb_writesIcon_parser. reflexivity.
Qed.

(** X20. The example stops on a nil pointer exactly when [NewAppParser]
    fails: the error is overwritten before it is tested and [app.Icon] is
    read on the nil record.  When [NewAppParser] succeeds and the record is
    encoded, the example prints the encoding and then "<nil>" and
    returns. *)
Theorem main_exit :
  forall w marshalInfo,
    (snd (main w marshalInfo) = NilDereference
     <-> exists e, valueOf (NewAppParser w apkFile "keytool" false) = Err e)
    /\ (forall info text,
          valueOf (NewAppParser w apkFile "keytool" false) = Ok info ->
          marshalInfo info = Ok text ->
          main w marshalInfo
          = ((map ExParser (eventsOf (NewAppParser w apkFile "keytool" false))
              ++ [ExMarshal; ExPrintln text; ExPrintln "<nil>"])%list,
             Returned)).
Proof.
  intros w marshalInfo. unfold main, valueOf, eventsOf.
  destruct (NewAppParser w apkFile "keytool" false []) as [tr [info | e]] eqn:Hrun;
    unfold jsonMarshal; simpl.
  - rewrite (NewAppParser_flag_off_icon _ _ _ _ _ _ Hrun). split.
    + split; [| intros [e H]; discriminate H].
      destruct (marshalInfo info); intros H; discriminate H.
    + intros info' text H Hm. inversion H; subst info'. rewrite Hm. reflexivity.
  - split.
    + split; [intros _; exists e; reflexivity | reflexivity].
    + intros info text H. discriminate H.
Qed.

Lemma main_exit_witness :
  snd (main Sample.plain (fun _ => Ok "{}")) = NilDereference.
Proof.
  apply (proj2 (proj1 (main_exit Sample.plain (fun _ => Ok "{}")))).
  eexists. reflexivity.
Defined.

(** ** The helpers release what they open *)

(** X21. [parseAndroidManifest] closes the reader of the entry exactly
    when it could open it, as its last action, also when reading or decoding
    fails; and [parseApkIconAndLabel] closes the package exactly when
    [openFile] returned one, after making both lookups. *)
Theorem helpers_release_handles :
  forall w f name,
    match zf_Open f with
    | Ok _ =>
        exists body,
          eventsOf (parseAndroidManifest w f)
          = (EvEntryOpen (zf_Name f) :: body ++ [EvEntryClose])%list
          /\ existsb isEntryClose body = false
    | Err _ => eventsOf (parseAndroidManifest w f) = [EvEntryOpen (zf_Name f)]
    end
    /\ match openFile w name with
       | Ok _ =>
           eventsOf (parseApkIconAndLabel w name)
           = [EvOpenFile name; EvIcon 720; EvLabel; EvPkgClose]
       | Err _ => eventsOf (parseApkIconAndLabel w name) = [EvOpenFile name]
       end.
Proof.
  intros w f name. split.
  - unfold eventsOf, parseAndroidManifest. rewrite run_bind_call.
    destruct (zf_Open f) as [rc | e]; [| reflexivity].
    rewrite run_defer, run_bind_call.
    destruct (ReadAll rc) as [buf | e];
      [| exists [EvReadAll]; split; reflexivity].
    rewrite run_bind_call.
    destruct (NewXMLFile w buf) as [x | e];
      [| exists [EvReadAll; EvNewXMLFile]; split; reflexivity].
    rewrite run_bind_call.
    destruct (xml_Decode w x) as [m | e];
      exists [EvReadAll; EvNewXMLFile; EvXmlDecode]; split; reflexivity.
  - destruct (openFile w name) as [pkg | e] eqn:Hpkg.
    + unfold eventsOf. rewrite (parseApkIconAndLabel_run w name [] pkg Hpkg).
      reflexivity.
    + unfold eventsOf, parseApkIconAndLabel. rewrite run_bind_call, Hpkg.
      reflexivity.
Qed.

Example truncated_entry_is_closed :
  parseAndroidManifest Sample.plain MoreCases.truncatedEntry []
  = ([EvEntryOpen "AndroidManifest.xml"; EvReadAll; EvEntryClose],
     Err (ZipError "unexpected EOF")).
Proof. reflexivity. Qed.

(** ** What of the manifest reaches the record *)

(** X22. The record depends on the manifest only through the package, the
    version name, the version code and the names of the uses-permission
    elements: the permission elements that the manifest declares and the
    text inside the elements are decoded but never reported. *)
Theorem parseApkFile_ignores_declared_permissions :
  forall w w' f f' m m',
    valueOf (parseAndroidManifest w f) = Ok m ->
    valueOf (parseAndroidManifest w' f') = Ok m' ->
    Package m = Package m' -> VersionName m = VersionName m' ->
    VersionCode m = VersionCode m' ->
    map up_Name (m_UsesPermission m) = map up_Name (m_UsesPermission m') ->
    valueOf (parseApkFile w (Some f)) = valueOf (parseApkFile w' (Some f')).
Proof.
  intros w w' f f' m m' Hm Hm' Hp Hn Hc Hu. unfold valueOf.
  rewrite (parseApkFile_run w f m [] Hm), (parseApkFile_run w' f' m' [] Hm').
  simpl. f_equal. unfold infoOfManifest.
  rewrite !appendPermissions_spec, Hp, Hn, Hc. simpl. rewrite Hu. reflexivity.
Qed.

Lemma parseApkFile_ignores_declared_permissions_witness :
  let f := Sample.entry "AndroidManifest.xml" in
  let w := Sample.world "a.apk" [] MoreCases.withPermissions
                        Sample.toolMissing Sample.pkg in
  let w' := Sample.world "a.apk" [] MoreCases.withoutPermissions
                         Sample.toolMissing Sample.pkg in
  valueOf (parseApkFile w (Some f)) = valueOf (parseApkFile w' (Some f)).
Proof.
  intros f w w'.
  exact (parseApkFile_ignores_declared_permissions w w' f f
           MoreCases.withPermissions MoreCases.withoutPermissions
           eq_refl eq_refl eq_refl eq_refl eq_refl eq_refl).
Defined.

(** ** Version codes beyond the range of int *)

Lemma parseUintLoop_digit (c : ascii) (rest : string) (n k : Z) :
  strconv.byteVal c = 48 + k -> 0 <= k <= 9 -> 0 <= n ->
  strconv.parseUintLoop (String c rest) n
  = if 1844674407370955162 <=? n then (strconv.maxUint64, Some ErrRange)
    else if strconv.maxUint64 <? n * 10 + k
         then (strconv.maxUint64, Some ErrRange)
         else strconv.parseUintLoop rest (n * 10 + k).
Proof.
  intros Hc Hk Hn. cbn [strconv.parseUintLoop]. rewrite Hc.
  assert (Hm : strconv.maxUint64 = 18446744073709551615) by reflexivity.
  assert (Hcut : strconv.maxUint64 / 10 + 1 = 1844674407370955162) by reflexivity.
  assert (Hpow : 2 ^ 64 = 18446744073709551616) by reflexivity.
  rewrite Hcut. cbv zeta.
  destruct (Z.leb_spec 48 (48 + k)); [| lia].
  destruct (Z.leb_spec (48 + k) 57); [| lia]. cbn [andb].
  destruct (Z.leb_spec 1844674407370955162 n); [reflexivity |].
  replace (48 + k - 48) with k by lia.
  destruct (Z.ltb_spec strconv.maxUint64 (n * 10 + k)) as [Hover | Hfit].
  - assert (Hmod : (n * 10 + k) mod 2 ^ 64 = n * 10 + k - 2 ^ 64)
      by (symmetry; apply (Z.mod_unique _ _ 1); [left; lia | lia]).
    rewrite Hmod.
    destruct (Z.ltb_spec (n * 10 + k - 2 ^ 64) (n * 10)); [reflexivity | lia].
  - rewrite (Z.mod_small (n * 10 + k)) by lia.
    destruct (Z.ltb_spec (n * 10 + k) (n * 10)); [lia |].
    destruct (Z.ltb_spec strconv.maxUint64 (n * 10 + k)); [lia | reflexivity].
Qed.

Lemma parseUintLoop_overflow (d : Decimal.uint) :
  forall n,
    0 <= n <= strconv.maxUint64 -> strconv.maxUint64 < digitsValue d n ->
    strconv.parseUintLoop (DecimalString.NilEmpty.string_of_uint d) n
    = (strconv.maxUint64, Some ErrRange).
Proof.
  induction d as [| d IH | d IH | d IH | d IH | d IH | d IH | d IH | d IH
                  | d IH | d IH]; intros n Hn Hbig;
    cbn [DecimalString.NilEmpty.string_of_uint digitsValue] in *;
    [lia | ..];
    match type of Hbig with
    | _ < digitsValue _ (_ * 10 + ?k) =>
        erewrite (parseUintLoop_digit _ _ n k); [| reflexivity | lia | lia];
        destruct (1844674407370955162 <=? n); [reflexivity |];
        destruct (Z.ltb_spec strconv.maxUint64 (n * 10 + k)); [reflexivity |];
        apply IH; [lia | exact Hbig]
    end.
Qed.

Lemma digitsValue_bound (d : Decimal.uint) :
  forall n,
    0 <= n ->
    digitsValue d n
    < (n + 1) * 10 ^ Z.of_nat (String.length (DecimalString.NilEmpty.string_of_uint d)).
Proof.
  induction d as [| d IH | d IH | d IH | d IH | d IH | d IH | d IH | d IH
                  | d IH | d IH]; intros n Hn;
    cbn [DecimalString.NilEmpty.string_of_uint digitsValue String.length];
    [simpl; lia | ..];
    rewrite Nat2Z.inj_succ, Z.pow_succ_r by lia;
    match goal with
    | |- digitsValue _ ?a < _ =>
        specialize (IH a ltac:(lia));
        set (P := 10 ^ Z.of_nat (String.length (DecimalString.NilEmpty.string_of_uint d))) in *;
        assert (0 < P) by (apply Z.pow_pos_nonneg; lia); nia
    end.
Qed.

Lemma short_numeral_small (d : Decimal.uint) :
  (String.length (DecimalString.NilEmpty.string_of_uint d) < 19)%nat ->
  digitsValue d 0 < 2 ^ 63.
Proof.
  intros Hlen. pose proof (digitsValue_bound d 0 ltac:(lia)) as Hb.
  assert (Hp : 10 ^ Z.of_nat (String.length (DecimalString.NilEmpty.string_of_uint d))
               <= 10 ^ 18) by (apply Z.pow_le_mono_r; lia).
  assert (H18 : 10 ^ 18 = 1000000000000000000) by reflexivity.
  assert (H63 : 2 ^ 63 = 9223372036854775808) by reflexivity.
  lia.
Qed.

Lemma ParseUint_numeral (d : Decimal.uint) :
  d <> Decimal.Nil ->
  (digitsValue d 0 <= strconv.maxUint64
   /\ strconv.ParseUint (DecimalString.NilEmpty.string_of_uint d)
      = (digitsValue d 0, None))
  \/ (strconv.maxUint64 < digitsValue d 0
      /\ strconv.ParseUint (DecimalString.NilEmpty.string_of_uint d)
         = (strconv.maxUint64, Some ErrRange)).
Proof.
  intros Hd. destruct (numeral_head d Hd) as (c & rest & Hs & _ & _).
  assert (Hloop : strconv.ParseUint (DecimalString.NilEmpty.string_of_uint d)
                  = strconv.parseUintLoop
                      (DecimalString.NilEmpty.string_of_uint d) 0)
    by (rewrite Hs; reflexivity).
  rewrite Hloop.
  assert (Hm : strconv.maxUint64 = 18446744073709551615) by reflexivity.
  destruct (Z.le_gt_cases (digitsValue d 0) strconv.maxUint64) as [Hfit | Hbig].
  - left. split; [exact Hfit |]. apply parseUintLoop_digits; [lia | exact Hfit].
  - right. split; [lia |]. apply parseUintLoop_overflow; lia.
Qed.

Lemma Atoi_overflow (d : Decimal.uint) :
  d <> Decimal.Nil -> 2 ^ 63 <= digitsValue d 0 ->
  strconv.Atoi (DecimalString.NilEmpty.string_of_uint d)
  = (2 ^ 63 - 1, Some ErrRange).
Proof.
  intros Hd Hv.
  assert (H63 : 2 ^ 63 = 9223372036854775808) by reflexivity.
  assert (Hm : strconv.maxUint64 = 18446744073709551615) by reflexivity.
  destruct (numeral_head d Hd) as (c & rest & Hs & Hsign & Hminus).
  unfold strconv.Atoi.
  destruct ((0 <? String.length _)%nat && _) eqn:Efast.
  - apply andb_true_iff in Efast as [_ E]. apply Nat.ltb_lt in E.
    pose proof (short_numeral_small d E). lia.
  - unfold strconv.ParseInt. rewrite Hs, Hsign, Hminus. rewrite <- Hs.
    unfold strconv.intSize. change (2 ^ (64 - 1)) with (2 ^ 63).
    destruct (ParseUint_numeral d Hd) as [[Hfit ->] | [Hbig ->]]; cbn [negb andb].
    + destruct (Z.leb_spec (2 ^ 63) (digitsValue d 0)); [reflexivity | lia].
    + reflexivity.
Qed.

Lemma Atoi_underflow (d : Decimal.uint) :
  d <> Decimal.Nil -> 2 ^ 63 < digitsValue d 0 ->
  strconv.Atoi (String "-" (DecimalString.NilEmpty.string_of_uint d))
  = (- 2 ^ 63, Some ErrRange).
Proof.
  intros Hd Hv.
  assert (H63 : 2 ^ 63 = 9223372036854775808) by reflexivity.
  assert (Hm : strconv.maxUint64 = 18446744073709551615) by reflexivity.
  unfold strconv.Atoi.
  destruct ((0 <? String.length _)%nat && _) eqn:Efast.
  - apply andb_true_iff in Efast as [_ E]. apply Nat.ltb_lt in E.
    simpl String.length in E.
    assert (E' : (String.length (DecimalString.NilEmpty.string_of_uint d) < 19)%nat)
      by lia.
    pose proof (short_numeral_small d E'). lia.
  - unfold strconv.ParseInt. change (strconv.isSign "-") with true.
    change (Ascii.eqb "-" "-") with true. cbv iota.
    unfold strconv.intSize. change (2 ^ (64 - 1)) with (2 ^ 63).
    destruct (ParseUint_numeral d Hd) as [[Hfit ->] | [Hbig ->]]; cbn [negb andb].
    + destruct (Z.ltb_spec (2 ^ 63) (digitsValue d 0)); [reflexivity | lia].
    + reflexivity.
Qed.

(** X23. A version code beyond the range of a 64-bit int is not rejected:
    the numeral of a number of 2^63 or more gives Build = 2^63 - 1, and the
    numeral of a number below -2^63 gives Build = -2^63. *)
Theorem parseApkFile_build_saturates :
  forall w f m z tr,
    valueOf (parseAndroidManifest w f) = Ok m ->
    VersionCode m = decimalString z ->
    z < - 2 ^ 63 \/ 2 ^ 63 <= z ->
    exists info,
      parseApkFile w (Some f) tr = ((tr ++ manifestEvents f)%list, Ok info)
      /\ Build info = (if z <? 0 then - 2 ^ 63 else 2 ^ 63 - 1).
Proof.
  intros w f m z tr Hdec Hvc Hz. exists (infoOfManifest m).
  split; [apply parseApkFile_run; exact Hdec |].
  destruct (infoOfManifest_fields m) as (_ & _ & -> & _).
  rewrite Hvc. unfold decimalString.
  assert (H63 : 2 ^ 63 = 9223372036854775808) by reflexivity.
  destruct z as [| p | p]; cbn [Z.to_int DecimalString.NilEmpty.string_of_int].
  - lia.
  - rewrite Atoi_overflow.
    + reflexivity.
    + apply DecimalPos.Unsigned.to_uint_nonnil.
    + rewrite digitsValue_to_uint. lia.
  - rewrite Atoi_underflow.
    + reflexivity.
    + apply DecimalPos.Unsigned.to_uint_nonnil.
    + rewrite digitsValue_to_uint. lia.
Qed.

Lemma parseApkFile_build_saturates_witness :
  exists info,
    parseApkFile MoreCases.hugeVersion
                 (Some (Sample.entry "AndroidManifest.xml")) []
    = (manifestEvents (Sample.entry "AndroidManifest.xml"), Ok info)
    /\ Build info = 9223372036854775807.
Proof.
  refine (parseApkFile_build_saturates MoreCases.hugeVersion
            (Sample.entry "AndroidManifest.xml")
            (Sample.withVersionCode (decimalString 9223372036854775808))
            9223372036854775808 [] eq_refl eq_refl _).
  right. discriminate.
Defined.

(** * The digests, line by line *)

(** ** The lines of a text that was put together from lines *)






(** ** What a line does to the three digests *)















